(** * Reading Habit Tracker: a shallow embedding of [app.py]

    The application is a thin Flask layer over one SQLite table,
    [reading_sessions].  The development below embeds

    - the parts of Python's [datetime] the program calls
      ([strftime], [strptime], [weekday], [replace(day=1)], subtraction of
      a [timedelta]), over proleptic Gregorian ordinals;
    - Python's true division and [round(x, 1)] over IEEE binary64, through
      the executable specification [SpecFloat] of the standard library;
    - the table as the list of its rows in insertion order, with SQLite's
      dynamically typed cells and the queries of [app.py] as list programs;
    - the endpoints and helpers of [app.py] on top of these.

    Conventions.  A request observes one reading of the clock, the ordinal
    [today] of the current day ([date.toordinal()]).  The libraries are
    embedded as CPython 3.11 on Linux with the C library of GNU and
    SQLite 3.40 behave; texts are ASCII.  Python's [int] is [Z], and so
    is a cell of SQLite's INTEGER storage class: a Python [int] outside
    64 bits cannot be bound ([OverflowError]), while the overflow of a
    [SUM] of stored integers is not modelled.  JSON numbers with a
    fractional part and SQLite's REAL storage class are not modelled: a
    statement whose SQLite evaluation would compute or store a
    floating-point number yields [FloatPath]. *)

From Stdlib Require Import ZArith List String Ascii Bool Lia.
From Stdlib Require Import Sorting.Sorted Sorting.Permutation FinFun.
From Stdlib Require Import Floats.SpecFloat.
Import ListNotations.

Set Warnings "-register-all".

Local Open Scope string_scope.
Local Open Scope list_scope.
Local Open Scope Z_scope.

(* ================================================================== *)
(** ** Python's [datetime], on ordinals *)
(* ================================================================== *)

Module PyDatetime.

(** [MINYEAR]/[MAXYEAR] and the ordinal of [date.max]. *)
Definition MINYEAR : Z := 1.
Definition MAXYEAR : Z := 9999.
Definition MAXORDINAL : Z := 3652059.

Definition _is_leap (year : Z) : bool :=
  (year mod 4 =? 0) && (negb (year mod 100 =? 0) || (year mod 400 =? 0)).

Definition _days_before_year (year : Z) : Z :=
  let y := year - 1 in y * 365 + y / 4 - y / 100 + y / 400.

(** [_DAYS_IN_MONTH], indexed from 1. *)
Definition _DAYS_IN_MONTH (month : Z) : Z :=
  match month with
  | 1 => 31 | 2 => 28 | 3 => 31 | 4 => 30 | 5 => 31 | 6 => 30
  | 7 => 31 | 8 => 31 | 9 => 30 | 10 => 31 | 11 => 30 | 12 => 31
  | _ => -1
  end.

(** [_DAYS_BEFORE_MONTH], indexed from 1. *)
Definition _DAYS_BEFORE_MONTH (month : Z) : Z :=
  match month with
  | 1 => 0 | 2 => 31 | 3 => 59 | 4 => 90 | 5 => 120 | 6 => 151
  | 7 => 181 | 8 => 212 | 9 => 243 | 10 => 273 | 11 => 304 | 12 => 334
  | _ => -1
  end.

Definition _days_in_month (year month : Z) : Z :=
  if (month =? 2) && _is_leap year then 29 else _DAYS_IN_MONTH month.

Definition _days_before_month (year month : Z) : Z :=
  _DAYS_BEFORE_MONTH month + (if (2 <? month) && _is_leap year then 1 else 0).

Definition _ymd2ord (year month day : Z) : Z :=
  _days_before_year year + _days_before_month year month + day.

Definition _DI400Y : Z := 146097.
Definition _DI100Y : Z := 36524.
Definition _DI4Y : Z := 1461.

(** [_ord2ymd]: ordinal to (year, month, day). *)
Definition _ord2ymd (ordinal : Z) : Z * Z * Z :=
  let n := ordinal - 1 in
  let n400 := n / _DI400Y in
  let n := n mod _DI400Y in
  let year := n400 * 400 + 1 in
  let n100 := n / _DI100Y in
  let n := n mod _DI100Y in
  let n4 := n / _DI4Y in
  let n := n mod _DI4Y in
  let n1 := n / 365 in
  let n := n mod 365 in
  let year := year + n100 * 100 + n4 * 4 + n1 in
  if (n1 =? 4) || (n100 =? 4) then (year - 1, 12, 31)
  else
    let leapyear := (n1 =? 3) && (negb (n4 =? 24) || (n100 =? 3)) in
    let month := Z.shiftr (n + 50) 5 in
    let preceding :=
      _DAYS_BEFORE_MONTH month + (if (2 <? month) && leapyear then 1 else 0) in
    if n <? preceding then
      let month := month - 1 in
      let preceding :=
        preceding
        - (_DAYS_IN_MONTH month + (if (month =? 2) && leapyear then 1 else 0)) in
      (year, month, n - preceding + 1)
    else (year, month, n - preceding + 1).

(** A [datetime] is represented by the ordinal of its day; it exists for
    ordinals between [date.min] and [date.max]. *)
Definition valid_ordinal (d : Z) : Prop := 1 <= d <= MAXORDINAL.

Definition valid_ordinalb (d : Z) : bool := (1 <=? d) && (d <=? MAXORDINAL).

(** [date.weekday()]: Monday is 0. *)
Definition weekday (d : Z) : Z := (d + 6) mod 7.

(** [d.replace(day=1)]. *)
Definition replace_day1 (d : Z) : Z :=
  let '(y, m, _) := _ord2ymd d in _ymd2ord y m 1.

(** Decimal digits. *)
Definition digit_char (d : Z) : ascii :=
  match d with
  | 0 => "0" | 1 => "1" | 2 => "2" | 3 => "3" | 4 => "4"
  | 5 => "5" | 6 => "6" | 7 => "7" | 8 => "8" | _ => "9"
  end%char.

(** The value of a decimal digit, from its code. *)
Definition digit_val (c : ascii) : option Z :=
  let code := Z.of_nat (nat_of_ascii c) in
  if (48 <=? code) && (code <=? 57) then Some (code - 48) else None.

Definition pad2 (n : Z) (rest : string) : string :=
  String (digit_char (n / 10)) (String (digit_char (n mod 10)) rest).

Definition pad4 (n : Z) (rest : string) : string :=
  String (digit_char (n / 1000))
    (String (digit_char (n / 100 mod 10)) (pad2 (n mod 100) rest)).

(** [%Y] of the C library: the year as a decimal number, without
    padding, so that a year below 1000 has fewer than four digits. *)
Definition year_text (y : Z) (rest : string) : string :=
  if y <? 10 then String (digit_char y) rest
  else if y <? 100 then pad2 y rest
  else if y <? 1000 then String (digit_char (y / 100)) (pad2 (y mod 100) rest)
  else pad4 y rest.

(** [d.strftime('%Y-%m-%d')], handed over to the C library: month and
    day have two digits, the year is not padded. *)
Definition strftime (d : Z) : string :=
  let '(y, m, dd) := _ord2ymd d in
  year_text y (String "-" (pad2 m (String "-" (pad2 dd EmptyString)))).

(** The token a [%m] directive accepts: [1[0-2]|0[1-9]|[1-9]]. *)
Definition parse_month (tok : string) : option Z :=
  match tok with
  | String c EmptyString =>
      match digit_val c with
      | Some v => if 1 <=? v then Some v else None
      | None => None
      end
  | String c1 (String c2 EmptyString) =>
      match digit_val c1, digit_val c2 with
      | Some 1, Some v => if v <=? 2 then Some (10 + v) else None
      | Some 0, Some v => if 1 <=? v then Some v else None
      | _, _ => None
      end
  | _ => None
  end.

(** The token a [%d] directive accepts:
    [3[0-1]|[1-2]\d|0[1-9]|[1-9]| [1-9]]. *)
Definition parse_day (tok : string) : option Z :=
  match tok with
  | String c EmptyString =>
      match digit_val c with
      | Some v => if 1 <=? v then Some v else None
      | None => None
      end
  | String c1 (String c2 EmptyString) =>
      if Ascii.eqb c1 " " then
        match digit_val c2 with
        | Some v => if 1 <=? v then Some v else None
        | None => None
        end
      else
        match digit_val c1, digit_val c2 with
        | Some 3, Some v => if v <=? 1 then Some (30 + v) else None
        | Some 2, Some v => Some (20 + v)
        | Some 1, Some v => Some (10 + v)
        | Some 0, Some v => if 1 <=? v then Some v else None
        | _, _ => None
        end
  | _ => None
  end.

(** Splits at the first ["-"]. *)
Fixpoint split_dash (s : string) : option (string * string) :=
  match s with
  | EmptyString => None
  | String c rest =>
      if Ascii.eqb c "-" then Some (EmptyString, rest)
      else match split_dash rest with
           | Some (tok, tl) => Some (String c tok, tl)
           | None => None
           end
  end.

(** [datetime.strptime(s, '%Y-%m-%d')] as the ordinal of the parsed day;
    [None] stands for the [ValueError] of a string that does not match
    the format or names no day of the calendar. *)
Definition strptime (s : string) : option Z :=
  match s with
  | String y1 (String y2 (String y3 (String y4 (String sep rest)))) =>
      match digit_val y1, digit_val y2, digit_val y3, digit_val y4 with
      | Some a, Some b, Some c, Some d =>
          if Ascii.eqb sep "-" then
            match split_dash rest with
            | Some (mtok, dtok) =>
                match parse_month mtok, parse_day dtok with
                | Some m, Some dd =>
                    let y := a * 1000 + b * 100 + c * 10 + d in
                    if (MINYEAR <=? y) && (dd <=? _days_in_month y m)
                    then Some (_ymd2ord y m dd)
                    else None
                | _, _ => None
                end
            | None => None
            end
          else None
      | _, _, _, _ => None
      end
  | _ => None
  end.

End PyDatetime.

Import PyDatetime.

(* ================================================================== *)
(** ** Python numbers: [int], binary64 [float], [/] and [round] *)
(* ================================================================== *)

Module PyNum.

Definition prec : Z := 53.
Definition emax : Z := 1024.

(** The integer [z] as a (not normalised) floating-point datum; [SFdiv]
    rounds the exact quotient of two such data to the nearest binary64,
    which is what Python's [int / int] returns. *)
Definition float_of_int (z : Z) : spec_float :=
  match z with
  | Z0 => S754_zero false
  | Zpos p => S754_finite false p 0
  | Zneg p => S754_finite true p 0
  end.

(** [a / b] on two [int]s, [b] not zero. *)
Definition truediv (a b : Z) : spec_float :=
  SFdiv prec emax (float_of_int a) (float_of_int b).

(** Nearest integer to [num / den], ties to even ([0 < den]). *)
Definition round_half_even (num den : Z) : Z :=
  let q := num / den in
  let r := num mod den in
  match 2 * r ?= den with
  | Lt => q
  | Gt => q + 1
  | Eq => if Z.even q then q else q + 1
  end.

(** [round(x, 1)] on a float: the exact binary value of [x] is rounded to
    one decimal (ties to even) and the decimal is read back as the
    nearest binary64. *)
Definition round1 (x : spec_float) : spec_float :=
  match x with
  | S754_finite s m e =>
      if 0 <=? e then x
      else
        let tenths := round_half_even (10 * Zpos m) (2 ^ (- e)) in
        match tenths with
        | Zpos t => SFdiv prec emax (S754_finite s t 0) (float_of_int 10)
        | _ => S754_zero s
        end
  | _ => x
  end.

(** A Python number as the endpoints return it. *)
Inductive pynum : Type :=
  | PyInt (z : Z)
  | PyFloat (f : spec_float).

(** [round(v, 1)]: an [int] is returned unchanged. *)
Definition py_round1 (v : pynum) : pynum :=
  match v with
  | PyInt z => PyInt z
  | PyFloat f => PyFloat (round1 f)
  end.

(** [f] is exactly the rational [num / den] ([0 < den]). *)
Definition float_is_ratio (f : spec_float) (num den : Z) : Prop :=
  match f with
  | S754_zero _ => num = 0
  | S754_finite s m e =>
      (if s then - Zpos m else Zpos m) * 2 ^ (Z.max e 0) * den
      = num * 2 ^ (Z.max (- e) 0)
  | _ => False
  end.

End PyNum.

(* ================================================================== *)
(** ** Outcomes of a call *)
(* ================================================================== *)

Module Outcome.

(** The exceptions the modelled code can raise. *)
Inductive exn : Type :=
  | KeyError (key : string)
  | TypeError
  | ValueError
  | OverflowError
  | EOFError
  | BindError (param : nat)
  | IntegrityError (column : string).

(** A call returns, raises, leaves the model (its SQLite evaluation
    computes in floating point) or has not finished within the fuel given
    to a [while] loop. *)
Inductive result (A : Type) : Type :=
  | Ok (a : A)
  | Raise (e : exn)
  | FloatPath
  | OutOfFuel.

Arguments Ok {A} a.
Arguments Raise {A} e.
Arguments FloatPath {A}.
Arguments OutOfFuel {A}.

Definition bind {A B : Type} (r : result A) (k : A -> result B) : result B :=
  match r with
  | Ok a => k a
  | Raise e => Raise e
  | FloatPath => FloatPath
  | OutOfFuel => OutOfFuel
  end.

End Outcome.

Import Outcome.

Notation "x <- r ;; k" := (Outcome.bind r (fun x => k))
  (at level 61, r at next level, right associativity).
Notation "' pat <- r ;; k" :=
  (Outcome.bind r (fun x => match x with pat => k end))
  (at level 61, pat pattern, r at next level, right associativity).

(* ================================================================== *)
(** ** The SQLite table [reading_sessions] *)
(* ================================================================== *)

Module Sqlite.

(** A cell that is not NULL.  Cells of the REAL and BLOB storage classes
    do not arise from the values the program binds in this model. *)
Inductive value : Type :=
  | Integer (z : Z)
  | Text (s : string).

(** One row.  [date] is [TEXT NOT NULL] and has TEXT affinity, so what the
    program binds is stored as text; [pages_read] is [INTEGER NOT NULL],
    which SQLite does not enforce beyond NOT NULL: a text that does not
    spell a number is stored as text. *)
Record row : Type := mkRow {
  id : Z;
  date : string;
  pages_read : value;
  book_title : option string;
  notes : option string;
  reading_time : option value;
  created_at : string
}.

Definition store : Type := list row.

(** AUTOINCREMENT: one more than the largest id (rows are never deleted). *)
Definition next_id (db : store) : Z :=
  1 + fold_right (fun r m => Z.max (id r) m) 0 db.

(** Decimal spelling of an integer. *)
Fixpoint pos_digits (fuel : nat) (n : Z) (acc : string) : string :=
  match fuel with
  | O => acc
  | S k =>
      let acc' := String (digit_char (n mod 10)) acc in
      if n <? 10 then acc' else pos_digits k (n / 10) acc'
  end.

Definition decimal (z : Z) : string :=
  match z with
  | Z0 => "0"
  | Zpos _ => pos_digits (S (Z.to_nat (Z.log2 z))) z EmptyString
  | Zneg _ => String "-" (pos_digits (S (Z.to_nat (Z.log2 (- z)))) (- z) EmptyString)
  end.

(** Whitespace for SQLite: space, tab, newline, vertical tab, form feed,
    carriage return. *)
Definition sqlite_isspace (c : ascii) : bool :=
  let n := Z.of_nat (nat_of_ascii c) in
  (n =? 32) || ((9 <=? n) && (n <=? 13)).

Fixpoint lstrip (sp : ascii -> bool) (s : string) : string :=
  match s with
  | EmptyString => EmptyString
  | String c rest => if sp c then lstrip sp rest else s
  end.

Fixpoint rstrip (sp : ascii -> bool) (s : string) : string :=
  match s with
  | EmptyString => EmptyString
  | String c rest =>
      match rstrip sp rest with
      | EmptyString => if sp c then EmptyString else String c EmptyString
      | rest' => String c rest'
      end
  end.

Definition strip (sp : ascii -> bool) (s : string) : string :=
  rstrip sp (lstrip sp s).

(** One or more decimal digits. *)
Fixpoint digits (s : string) (acc : Z) (seen : bool) : option Z :=
  match s with
  | EmptyString => if seen then Some acc else None
  | String c rest =>
      match digit_val c with
      | Some v => digits rest (acc * 10 + v) true
      | None => None
      end
  end.

(** A text that spells an integer: optional blanks, optional sign,
    digits, optional blanks. *)
Definition integer_literal (s : string) : option Z :=
  match strip sqlite_isspace s with
  | String "-" rest => option_map Z.opp (digits rest 0 false)
  | String "+" rest => digits rest 0 false
  | body => digits body 0 false
  end.

(** The leading decimal digits of a text: how many, and what follows. *)
Fixpoint skip_digits (s : string) : nat * string :=
  match s with
  | EmptyString => (O, EmptyString)
  | String c rest =>
      match digit_val c with
      | Some _ => let '(n, tl) := skip_digits rest in (S n, tl)
      | None => (O, s)
      end
  end.

Definition drop_sign (s : string) : string :=
  match s with
  | String "-" rest => rest
  | String "+" rest => rest
  | _ => s
  end.

(** An exponent: [e] or [E], an optional sign and one digit or more, up
    to the end of the text. *)
Definition exponent (s : string) : bool :=
  match s with
  | String c rest =>
      (Ascii.eqb c "e" || Ascii.eqb c "E")
      && (let '(n, tl) := skip_digits (drop_sign rest) in
          (0 <? n)%nat && String.eqb tl "")
  | EmptyString => false
  end.

(** A text that spells a number: optional blanks, optional sign, digits
    with an optional decimal point among them (one digit at least), an
    optional exponent, optional blanks. *)
Definition numeric_literal (s : string) : bool :=
  let '(n1, r1) := skip_digits (drop_sign (strip sqlite_isspace s)) in
  let '(n2, r2) :=
    match r1 with
    | String "." rest => skip_digits rest
    | _ => (O, r1)
    end in
  (0 <? n1 + n2)%nat && (String.eqb r2 "" || exponent r2).

(** The range of the INTEGER storage class. *)
Definition in_int64 (z : Z) : bool :=
  (-9223372036854775808 <=? z) && (z <=? 9223372036854775807).

(** TEXT affinity: a number is stored as its text. *)
Definition text_affinity (v : value) : string :=
  match v with
  | Integer z => decimal z
  | Text s => s
  end.

(** INTEGER affinity: a text that spells an integer of 64 bits is stored
    as that integer and a text that spells no number is stored as it
    is.  A text that spells an integer outside 64 bits, or a number
    with a decimal point or an exponent, is converted through floating
    point (and stored as a REAL or, when the result is a whole number,
    as an INTEGER): [FloatPath]. *)
Definition integer_affinity (v : value) : result value :=
  match v with
  | Integer z => Ok (Integer z)
  | Text s =>
      match integer_literal s with
      | Some z => if in_int64 z then Ok (Integer z) else FloatPath
      | None => if numeric_literal s then FloatPath else Ok (Text s)
      end
  end.


(** [SUM(pages_read)]: NULL over no row, the integer sum over INTEGER
    cells, a floating-point sum as soon as one cell is not an INTEGER. *)
Inductive sum_result : Type :=
  | SumNull
  | SumInt (z : Z)
  | SumReal.

Definition sum_step (v : value) (acc : sum_result) : sum_result :=
  match v, acc with
  | _, SumReal => SumReal
  | Text _, _ => SumReal
  | Integer z, SumNull => SumInt z
  | Integer z, SumInt s => SumInt (z + s)
  end.

Definition sql_sum (vs : list value) : sum_result :=
  fold_right sum_step SumNull vs.

(** [conn.execute('SELECT SUM(pages_read) ...').fetchone()[0] or 0] over
    the selected rows. *)
Definition sum_pages_or_0 (rows : list row) : result Z :=
  match sql_sum (map pages_read rows) with
  | SumNull => Ok 0
  | SumInt z => Ok z
  | SumReal => FloatPath
  end.

(** [WHERE date = ?] and [WHERE date >= ?], on text (BINARY collation). *)
Definition where_date_eq (d : string) (db : store) : list row :=
  filter (fun r => String.eqb (date r) d) db.

Definition where_date_ge (d : string) (db : store) : list row :=
  filter (fun r => String.leb d (date r)) db.

(** [SELECT MIN(date)]: NULL over no row. *)
Definition min_date (db : store) : option string :=
  fold_right
    (fun r acc =>
       match acc with
       | None => Some (date r)
       | Some m => if String.ltb (date r) m then Some (date r) else Some m
       end)
    None db.

(** [ORDER BY]: insertion of each row before the first row it may
    precede, for a key order [before].  The order of rows with equal
    keys is left open by SQL; the model keeps their insertion order. *)
Section OrderBy.

Context {A : Type} (before : A -> A -> bool).

Fixpoint insert_sorted (x : A) (l : list A) : list A :=
  match l with
  | [] => [x]
  | y :: tl => if before x y then x :: l else y :: insert_sorted x tl
  end.

Definition order_by (l : list A) : list A :=
  fold_right insert_sorted [] l.

End OrderBy.

(** [x] may precede [y] in the order of [before]. *)
Definition precedes {A : Type} (before : A -> A -> bool) (x y : A) : Prop :=
  before x y = true.

(** [LIMIT n]. *)
Definition limit {A : Type} (n : nat) (l : list A) : list A := firstn n l.

End Sqlite.

Import PyNum Sqlite.

(* ================================================================== *)
(** ** [app.py] *)
(* ================================================================== *)

Module App.

(** *** Requests *)

(** The body of a request, [request.json]. *)
Inductive json : Type :=
  | JNull
  | JBool (b : bool)
  | JInt (z : Z)
  | JStr (s : string)
  | JArr (l : list json)
  | JObj (members : list (string * json)).

(** A Python [dict] built from a JSON object keeps, for a repeated key,
    the value given last. *)
Fixpoint dict_get (key : string) (members : list (string * json)) : option json :=
  match members with
  | [] => None
  | (k, v) :: tl =>
      match dict_get key tl with
      | Some v' => Some v'
      | None => if String.eqb k key then Some v else None
      end
  end.

(** [data[key]]: only a [dict] can be subscripted by a string. *)
Definition subscript (data : json) (key : string) : result json :=
  match data with
  | JObj members =>
      match dict_get key members with
      | Some v => Ok v
      | None => Raise (KeyError key)
      end
  | _ => Raise TypeError
  end.

(** [data.get(key, default)], reached only once [data[...]] succeeded. *)
Definition get (data : json) (key : string) (default : json) : result json :=
  match data with
  | JObj members =>
      match dict_get key members with
      | Some v => Ok v
      | None => Ok default
      end
  | _ => Raise TypeError
  end.

(** Binding a Python value to the [n]-th placeholder (counted from 0):
    [None] is NULL, [bool] is an [int], an [int] outside 64 bits raises
    [OverflowError], lists and dicts cannot be bound. *)
Definition bind_param (n : nat) (v : json) : result (option value) :=
  match v with
  | JNull => Ok None
  | JBool b => Ok (Some (Integer (if b then 1 else 0)))
  | JInt z => if in_int64 z then Ok (Some (Integer z)) else Raise OverflowError
  | JStr s => Ok (Some (Text s))
  | JArr _ | JObj _ => Raise (BindError n)
  end.

(** A NOT NULL column. *)
Definition not_null {A : Type} (column : string) (v : option A) : result A :=
  match v with
  | Some a => Ok a
  | None => Raise (IntegrityError column)
  end.

(** A nullable column with INTEGER affinity. *)
Definition nullable_integer (v : option value) : result (option value) :=
  match v with
  | Some c => c' <- integer_affinity c ;; Ok (Some c')
  | None => Ok None
  end.

(** The [INSERT] of [log_reading] with its five bound values; returns the
    table after it and [cursor.lastrowid].  The values are bound in
    order, then the row is built column by column. *)
Definition insert_session (db : store) (now_ts : string)
    (v_date v_pages v_book v_notes v_time : json) : result (store * Z) :=
  p_date <- bind_param 0 v_date ;;
  p_pages <- bind_param 1 v_pages ;;
  p_book <- bind_param 2 v_book ;;
  p_notes <- bind_param 3 v_notes ;;
  p_time <- bind_param 4 v_time ;;
  c_date <- not_null "date" p_date ;;
  c_pages <- not_null "pages_read" p_pages ;;
  pages <- integer_affinity c_pages ;;
  time <- nullable_integer p_time ;;
  let r := {| id := next_id db;
              date := text_affinity c_date;
              pages_read := pages;
              book_title := option_map text_affinity p_book;
              notes := option_map text_affinity p_notes;
              reading_time := time;
              created_at := now_ts |} in
  Ok (db ++ [r], id r).

(** The response of the write endpoint; [error] carries the exception
    whose [str] the endpoint reports. *)
Inductive log_response : Type :=
  | Success (session_id : Z)
  | Failure (error : exn).

(** [log_reading]: the table after the request and the response.  Every
    exception of the body is caught; nothing is written unless the
    [INSERT] ran. *)
Definition log_reading (db : store) (now_ts : string) (data : json)
    : result (store * log_response) :=
  let body :=
    v_date <- subscript data "date" ;;
    v_pages <- subscript data "pages_read" ;;
    v_book <- get data "book_title" (JStr "") ;;
    v_notes <- get data "notes" (JStr "") ;;
    v_time <- get data "reading_time" (JInt 0) ;;
    insert_session db now_ts v_date v_pages v_book v_notes v_time in
  match body with
  | Ok (db', session_id) => Ok (db', Success session_id)
  | Raise e => Ok (db, Failure e)
  | FloatPath => FloatPath
  | OutOfFuel => OutOfFuel
  end.

(** *** The streak *)

(** [d - timedelta(days=k)]: out of [date.min .. date.max] the
    subtraction raises [OverflowError]. *)
Definition sub_days (d k : Z) : result Z :=
  if valid_ordinalb (d - k) then Ok (d - k) else Raise OverflowError.

(** The state of the [while True] loop of [calculate_reading_streak]. *)
Inductive loop_state : Type :=
  | Running (current_date streak : Z)
  | Done (r : result Z).

(** One pass through the body of the loop. *)
Definition streak_step (db : store) (current_date streak : Z) : loop_state :=
  let date_str := strftime current_date in
  match sum_pages_or_0 (where_date_eq date_str db) with
  | Ok pages =>
      if 0 <? pages then
        match sub_days current_date 1 with
        | Ok d => Running d (streak + 1)
        | Raise e => Done (Raise e)
        | FloatPath => Done FloatPath
        | OutOfFuel => Done OutOfFuel
        end
      else Done (Ok streak)
  | Raise e => Done (Raise e)
  | FloatPath => Done FloatPath
  | OutOfFuel => Done OutOfFuel
  end.

(** At most [fuel] passes. *)
Fixpoint streak_loop (fuel : nat) (db : store) (current_date streak : Z)
    : result Z :=
  match fuel with
  | O => OutOfFuel
  | S k =>
      match streak_step db current_date streak with
      | Done r => r
      | Running d s => streak_loop k db d s
      end
  end.

Definition calculate_reading_streak (fuel : nat) (db : store) (today : Z)
    : result Z :=
  streak_loop fuel db today 0.

(** *** Statistics *)

Record stats : Type := mkStats {
  total_pages : Z;
  current_streak : Z;
  week_pages : Z;
  month_pages : Z;
  avg_pages_per_day : pynum
}.

(** The three sums of [get_stats]. *)
Definition total_pages_query (db : store) : result Z :=
  sum_pages_or_0 db.

Definition pages_since (db : store) (start : string) : result Z :=
  sum_pages_or_0 (where_date_ge start db).

Definition week_start (today : Z) : result string :=
  d <- sub_days today (weekday today) ;; Ok (strftime d).

Definition month_start (today : Z) : string :=
  strftime (replace_day1 today).

(** The average of [get_stats], before rounding. *)
Definition avg_pages (db : store) (today total : Z) : result pynum :=
  match min_date db with
  | Some first_entry =>
      if String.eqb first_entry "" then Ok (PyInt 0)
      else
        match strptime first_entry with
        | Some first =>
            let days_since_start := (today - first) + 1 in
            if 0 <? days_since_start
            then Ok (PyFloat (truediv total days_since_start))
            else Ok (PyInt 0)
        | None => Raise ValueError
        end
  | None => Ok (PyInt 0)
  end.

Definition get_stats (fuel : nat) (db : store) (today : Z) : result stats :=
  total <- total_pages_query db ;;
  streak <- calculate_reading_streak fuel db today ;;
  ws <- week_start today ;;
  week <- pages_since db ws ;;
  month <- pages_since db (month_start today) ;;
  avg <- avg_pages db today total ;;
  Ok {| total_pages := total;
        current_streak := streak;
        week_pages := week;
        month_pages := month;
        avg_pages_per_day := py_round1 avg |}.

(** *** Recent sessions *)

Record session_json : Type := mkSession {
  s_date : string;
  s_pages_read : value;
  s_book_title : string;
  s_notes : string;
  s_reading_time : value
}.

(** [ORDER BY date DESC, created_at DESC]: [r1] may precede [r2]. *)
Definition recent_before (r1 r2 : row) : bool :=
  match String.compare (date r1) (date r2) with
  | Gt => true
  | Lt => false
  | Eq => String.leb (created_at r2) (created_at r1)
  end.

(** [x or default] on a text cell: NULL and the empty text are false. *)
Definition text_or (x : option string) (default : string) : string :=
  match x with
  | Some EmptyString | None => default
  | Some s => s
  end.

(** [x or 0] on a cell: NULL, [0] and the empty text are false. *)
Definition value_or_0 (x : option value) : value :=
  match x with
  | None | Some (Integer 0) | Some (Text EmptyString) => Integer 0
  | Some v => v
  end.

Definition session_of_row (r : row) : session_json :=
  {| s_date := date r;
     s_pages_read := pages_read r;
     s_book_title := text_or (book_title r) "Unspecified";
     s_notes := text_or (notes r) "";
     s_reading_time := value_or_0 (reading_time r) |}.

Definition recent_rows (db : store) : list row :=
  limit 10 (order_by recent_before db).

Definition get_recent_sessions (db : store) : list session_json :=
  map session_of_row (recent_rows db).

(** *** Book distribution of [get_chart_data] *)

(** [CASE WHEN book_title = '' OR book_title IS NULL THEN 'Unspecified'
    ELSE book_title END]. *)
Definition book (r : row) : string :=
  match book_title r with
  | None => "Unspecified"
  | Some t => if String.eqb t "" then "Unspecified" else t
  end.

(** The keys of [GROUP BY book], each once, in order of first row. *)
Fixpoint group_keys (seen : list string) (db : store) : list string :=
  match db with
  | [] => []
  | r :: tl =>
      if existsb (String.eqb (book r)) seen then group_keys seen tl
      else book r :: group_keys (book r :: seen) tl
  end.

(** [SUM(pages_read)] of one group. *)
Definition group_pages (db : store) (key : string) : result Z :=
  sum_pages_or_0 (filter (fun r => String.eqb (book r) key) db).

Fixpoint group_by_book (db : store) (keys : list string)
    : result (list (string * Z)) :=
  match keys with
  | [] => Ok []
  | k :: tl =>
      pages <- group_pages db k ;;
      rest <- group_by_book db tl ;;
      Ok ((k, pages) :: rest)
  end.

(** [ORDER BY pages DESC]. *)
Definition pages_before (g1 g2 : string * Z) : bool := snd g2 <=? snd g1.

(** The [book_data] query and the ['books'] member of the response.
    The daily and monthly queries of [get_chart_data] run before it and
    share nothing with it; the daily one is embedded below, the monthly
    one is not. *)
Definition book_data (db : store) : result (list (string * Z)) :=
  groups <- group_by_book db (group_keys [] db) ;;
  Ok (limit 10 (order_by pages_before groups)).

(** *** Daily sums of [get_chart_data] *)

(** The keys of [GROUP BY date], each once, in order of first row. *)
Fixpoint date_keys (seen : list string) (rows : list row) : list string :=
  match rows with
  | [] => []
  | r :: tl =>
      if existsb (String.eqb (date r)) seen then date_keys seen tl
      else date r :: date_keys (date r :: seen) tl
  end.

(** [SUM(pages_read)] of the rows of one date. *)
Definition date_pages (rows : list row) (key : string) : result Z :=
  sum_pages_or_0 (filter (fun r => String.eqb (date r) key) rows).

Fixpoint group_by_date (rows : list row) (keys : list string)
    : result (list (string * Z)) :=
  match keys with
  | [] => Ok []
  | k :: tl =>
      pages <- date_pages rows k ;;
      rest <- group_by_date rows tl ;;
      Ok ((k, pages) :: rest)
  end.

(** [ORDER BY date]. *)
Definition date_before (g1 g2 : string * Z) : bool :=
  String.leb (fst g1) (fst g2).

(** The [daily_data] query and the ['daily'] member of the response:
    [thirty_days_ago] is computed first. *)
Definition daily_data (db : store) (today : Z) : result (list (string * Z)) :=
  thirty_days_ago <- sub_days today 30 ;;
  let rows := where_date_ge (strftime thirty_days_ago) db in
  groups <- group_by_date rows (date_keys [] rows) ;;
  Ok (order_by date_before groups).

(** *** [ReadingAnalytics.get_reading_velocity] *)

Record velocity : Type := mkVelocity {
  avg_pages_per_session : pynum;
  reading_days : Z;
  period_days : Z
}.

(** [pages_read > 0]: a text cell sorts after every number. *)
Definition pages_positive (v : value) : bool :=
  match v with
  | Integer z => 0 <? z
  | Text _ => true
  end.

Definition velocity_rows (db : store) (cutoff_date : string) : list row :=
  filter (fun r => String.leb cutoff_date (date r) && pages_positive (pages_read r)) db.

(** [AVG(pages_read)]: NULL over no row, else the sum as a float divided
    by the count (the sum of the integers is exact below 2^53). *)
Definition sql_avg (rows : list row) : result (option spec_float) :=
  match sql_sum (map pages_read rows) with
  | SumNull => Ok None
  | SumInt s => Ok (Some (truediv s (Z.of_nat (List.length rows))))
  | SumReal => FloatPath
  end.

(** [x or 0] on the average: NULL and [0.0] are false. *)
Definition float_or_0 (x : option spec_float) : pynum :=
  match x with
  | None | Some (S754_zero _) => PyInt 0
  | Some f => PyFloat f
  end.

Definition get_reading_velocity (db : store) (today days : Z) : result velocity :=
  cutoff <- sub_days today days ;;
  let rows := velocity_rows db (strftime cutoff) in
  avg <- sql_avg rows ;;
  Ok {| avg_pages_per_session := py_round1 (float_or_0 avg);
        reading_days := Z.of_nat (List.length rows);
        period_days := days |}.

(** *** [cli_log_reading] *)

(** Whitespace for [str.strip], in ASCII. *)
Definition py_isspace (c : ascii) : bool :=
  let n := Z.of_nat (nat_of_ascii c) in
  (n =? 32) || ((9 <=? n) && (n <=? 13)) || ((28 <=? n) && (n <=? 31)).

(** Whitespace for [int], which goes by the table of C: the separators
    28 to 31 are not in it. *)
Definition py_int_isspace (c : ascii) : bool :=
  let n := Z.of_nat (nat_of_ascii c) in
  (n =? 32) || ((9 <=? n) && (n <=? 13)).

(** [sys.get_int_max_str_digits()], which the program leaves at its
    default. *)
Definition int_max_str_digits : nat := 4300.

Fixpoint count_digits (s : string) : nat :=
  match s with
  | EmptyString => O
  | String c rest =>
      match digit_val c with
      | Some _ => S (count_digits rest)
      | None => count_digits rest
      end
  end.

(** Digits with single underscores between them. *)
Fixpoint int_digits (s : string) (acc : Z) (after_digit : bool) : option Z :=
  match s with
  | EmptyString => if after_digit then Some acc else None
  | String c rest =>
      match digit_val c with
      | Some v => int_digits rest (acc * 10 + v) true
      | None =>
          if Ascii.eqb c "_" && after_digit then int_digits rest acc false
          else None
      end
  end.

(** [int(s)]; [None] stands for [ValueError], which is also raised for
    more digits than [int_max_str_digits]. *)
Definition py_int (s : string) : option Z :=
  let body := strip py_int_isspace s in
  if (count_digits body <=? int_max_str_digits)%nat then
    match body with
    | String "-" rest => option_map Z.opp (int_digits rest 0 false)
    | String "+" rest => int_digits rest 0 false
    | _ => int_digits body 0 false
    end
  else None.

(** [input()]: the next line of the terminal, [EOFError] at its end. *)
Definition input (stdin : list string) : result (string * list string) :=
  match stdin with
  | line :: tl => Ok (line, tl)
  | [] => Raise EOFError
  end.

(** What the command prints after its banner. *)
Inductive cli_message : Type :=
  | Logged (pages : Z) (date : string)
  | InvalidInput
  | Error (e : exn).

(** The [INSERT] of the command: four bound values, of which [pages]
    must fit 64 bits; [reading_time] takes its default. *)
Definition cli_insert (db : store) (now_ts : string)
    (date : string) (pages : Z) (book notes : string) : result store :=
  if in_int64 pages then
    Ok (db ++ [ {| id := next_id db;
                   date := date;
                   pages_read := Integer pages;
                   book_title := Some book;
                   notes := Some notes;
                   reading_time := Some (Integer 0);
                   created_at := now_ts |} ])
  else Raise OverflowError.

(** [cli_log_reading]: the table after the command and its message.
    The first [input] is outside the [try]. *)
Definition cli_log_reading (db : store) (today : Z) (now_ts : string)
    (stdin : list string) : result (store * cli_message) :=
  '(line, stdin) <- input stdin ;;
  let date := strip py_isspace line in
  let date := if String.eqb date "" then strftime today else date in
  let body :=
    '(line, stdin) <- input stdin ;;
    match py_int line with
    | None => Raise ValueError
    | Some pages =>
        '(line, stdin) <- input stdin ;;
        let book := strip py_isspace line in
        '(line, stdin) <- input stdin ;;
        let notes := strip py_isspace line in
        db' <- cli_insert db now_ts date pages book notes ;;
        Ok (db', pages)
    end in
  match body with
  | Ok (db', pages) => Ok (db', Logged pages date)
  | Raise ValueError => Ok (db, InvalidInput)
  | Raise e => Ok (db, Error e)
  | FloatPath => FloatPath
  | OutOfFuel => OutOfFuel
  end.

End App.

Import App.

(* ================================================================== *)
(** ** Vocabulary of the specification *)
(* ================================================================== *)

Module Spec.

Definition is_integer (v : value) : bool :=
  match v with
  | Integer _ => true
  | Text _ => false
  end.

(** Every [pages_read] cell is an INTEGER, as the schema declares it. *)
Definition int_store (db : store) : Prop :=
  forallb (fun r => is_integer (pages_read r)) db = true.

(** [pagesRead] of a session. *)
Definition pages (r : row) : Z :=
  match pages_read r with
  | Integer z => z
  | Text _ => 0
  end.

(** Summed [pagesRead] of some sessions. *)
Definition sum_pages (rows : list row) : Z :=
  fold_right (fun r acc => pages r + acc) 0 rows.

(** A date as the specification writes it, YYYY-MM-DD: the year has
    four digits. *)
Definition isoformat (d : Z) : string :=
  let '(y, m, dd) := _ord2ymd d in
  pad4 y (String "-" (pad2 m (String "-" (pad2 dd EmptyString)))).

(** The ordinal of 1000-01-01, the first day whose year has four digits
    of its own. *)
Definition first_padded_day : Z := 364878.

(** Summed [pagesRead] of the sessions dated on the day of ordinal [d]. *)
Definition day_pages (db : store) (d : Z) : Z :=
  sum_pages (where_date_eq (isoformat d) db).

(** Summed [pagesRead] of the sessions that the program finds for the
    day of ordinal [d]: those dated as it prints that day. *)
Definition found_pages (db : store) (d : Z) : Z :=
  sum_pages (where_date_eq (strftime d) db).

(** Reads a date written year-month-day, the year with any number of
    digits. *)
Definition read_date (s : string) : option Z :=
  match split_dash s with
  | Some (ytok, rest) =>
      match digits ytok 0 false, split_dash rest with
      | Some y, Some (mtok, dtok) =>
          match parse_month mtok, parse_day dtok with
          | Some m, Some dd =>
              if (MINYEAR <=? y) && (dd <=? _days_in_month y m)
              then Some (_ymd2ord y m dd)
              else None
          | _, _ => None
          end
      | _, _ => None
      end
  | None => None
  end.

(** Every character of a text passes a test. *)
Fixpoint string_forall (p : ascii -> bool) (s : string) : bool :=
  match s with
  | EmptyString => true
  | String c rest => p c && string_forall p rest
  end.

Definition is_digit (c : ascii) : bool :=
  match digit_val c with
  | Some _ => true
  | None => false
  end.

(** The exception, if any, of binding a value to the [n]-th
    placeholder. *)
Definition bind_error (n : nat) (v : json) : option exn :=
  match v with
  | JArr _ | JObj _ => Some (BindError n)
  | JInt z => if in_int64 z then None else Some OverflowError
  | _ => None
  end.

(** The exception of the first value, from the [n]-th placeholder on,
    that cannot be bound. *)
Fixpoint first_bind_error (n : nat) (vs : list json) : option exn :=
  match vs with
  | [] => None
  | v :: tl =>
      match bind_error n v with
      | Some e => Some e
      | None => first_bind_error (S n) tl
      end
  end.

(** A value that a column with INTEGER affinity stores without going
    through floating point: no text that spells an integer outside 64
    bits or a number with a decimal point or an exponent. *)
Definition plain_integer_input (v : json) : bool :=
  match v with
  | JStr s =>
      match integer_literal s with
      | Some z => in_int64 z
      | None => negb (numeric_literal s)
      end
  | _ => true
  end.

(** A character of a date as the program prints it. *)
Definition date_char (c : ascii) : bool := is_digit c || Ascii.eqb c "-".

(** The ids of the table grow with the order of insertion. *)
Definition ids_increasing (db : store) : Prop :=
  StronglySorted Z.lt (map id db).

(** Order of two days given as (year, month, day). *)
Definition ymd_compare (t1 t2 : Z * Z * Z) : comparison :=
  let '(y1, m1, d1) := t1 in
  let '(y2, m2, d2) := t2 in
  match y1 ?= y2 with
  | Eq => match m1 ?= m2 with
          | Eq => d1 ?= d2
          | c => c
          end
  | c => c
  end.

(** (year, month, day) names a day of the calendar. *)
Definition valid_ymd (t : Z * Z * Z) : Prop :=
  let '(y, m, d) := t in
  1 <= y /\ 1 <= m <= 12 /\ 1 <= d <= _days_in_month y m.

(** The invariant [pagesRead >= 0] of the data model. *)
Definition pages_nonneg (db : store) : Prop :=
  Forall (fun r => exists z, pages_read r = Integer z /\ 0 <= z) db.

(** The streak as the specification words it: [n] is returned exactly
    when each of the [n] days through today has pages and the day before
    them has zero or no pages. *)
Definition streak_as_specified (db : store) (today n : Z) : Prop :=
  (exists fuel, calculate_reading_streak fuel db today = Ok n) <->
  ((forall i, 0 <= i < n -> 0 < day_pages db (today - i)) /\
   day_pages db (today - n) = 0).

(** The invariant as the specification claims it of the two entry
    paths: whatever they accept keeps [pagesRead >= 0] in every row. *)
Definition pages_invariant_kept : Prop :=
  (forall db now_ts data db' resp,
     pages_nonneg db -> log_reading db now_ts data = Ok (db', resp) ->
     pages_nonneg db')
  /\
  (forall db today now_ts stdin db' msg,
     pages_nonneg db ->
     cli_log_reading db today now_ts stdin = Ok (db', msg) ->
     pages_nonneg db').

(** The average as the specification defines it:
    [totalPages / (daysBetween(firstEntryDate, today) + 1)] rounded to
    one decimal, with Python's division and rounding. *)
Definition avg_as_specified (db : store) (today total : Z) : option pynum :=
  match min_date db with
  | Some first_entry =>
      match strptime first_entry with
      | Some first =>
          Some (py_round1 (PyFloat (truediv total ((today - first) + 1))))
      | None => None
      end
  | None => None
  end.

Definition avg_claim (db : store) (today : Z) : Prop :=
  forall fuel s,
    get_stats fuel db today = Ok s ->
    Some (avg_pages_per_day s) = avg_as_specified db today (total_pages s).

(** Newest [date] first, ties broken by newest [createdAt] first:
    [r1] may come before [r2]. *)
Definition recent_order (r1 r2 : row) : Prop :=
  String.compare (date r1) (date r2) = Gt \/
  (date r1 = date r2 /\
   String.compare (created_at r1) (created_at r2) <> Lt).

(** The display value of a title: "Unspecified" for an empty or absent
    one. *)
Definition display_title (r : row) : string :=
  match book_title r with
  | None => "Unspecified"
  | Some t => if String.eqb t "" then "Unspecified" else t
  end.

(** Summed [pagesRead] of the sessions shown under the title [k]. *)
Definition book_pages (db : store) (k : string) : Z :=
  sum_pages (filter (fun r => String.eqb (display_title r) k) db).

(** The sessions that count for the velocity: [pagesRead > 0] and dated
    on or after the cutoff. *)
Definition qualifying (db : store) (cutoff_date : string) : list row :=
  filter (fun r => String.leb cutoff_date (date r) && (0 <? pages r)) db.

(** What [get_reading_velocity] reports of the selected rows: their
    count and [round(avg or 0, 1)] of their average. *)
Definition velocity_of (rows : list row) (days : Z) : velocity :=
  {| avg_pages_per_session :=
       py_round1
         (float_or_0
            (match rows with
             | [] => None
             | _ :: _ =>
                 Some (truediv (sum_pages rows) (Z.of_nat (List.length rows)))
             end));
     reading_days := Z.of_nat (List.length rows);
     period_days := days |}.

(** The sessions with [pagesRead > 0] within the trailing window of
    [days] days: the [days] days that end today, dates being written
    YYYY-MM-DD. *)
Definition in_window (db : store) (today days : Z) : list row :=
  filter (fun r => String.leb (isoformat (today - days + 1)) (date r)
                   && String.leb (date r) (isoformat today)
                   && (0 <? pages r)) db.

(** The velocity as the specification words it: the average
    [pagesRead] per session and the count of sessions, over the sessions
    within the trailing window; 0 and 0 when there is none. *)
Definition velocity_as_specified (db : store) (today days : Z) : Prop :=
  forall v,
    get_reading_velocity db today days = Ok v ->
    reading_days v = Z.of_nat (List.length (in_window db today days)) /\
    avg_pages_per_session v
    = match in_window db today days with
      | [] => PyInt 0
      | rows =>
          PyFloat (truediv (sum_pages rows) (Z.of_nat (List.length rows)))
      end.

(** The walk of the streak reaches its [break]. *)
Definition reaches_break (db : store) (today : Z) : Prop :=
  exists fuel n, calculate_reading_streak fuel db today = Ok n.

End Spec.

Import Spec.

(* ================================================================== *)
(** ** Tables and requests used as examples *)
(* ================================================================== *)

Module Examples.

(** Two sessions as [log_reading] stores them: 3 pages on 2024-11-03 and
    -5 pages on the day before. *)
Definition negative_store : store :=
  [ {| id := 1; date := "2024-11-03"; pages_read := Integer 3;
       book_title := Some ""; notes := Some "";
       reading_time := Some (Integer 0); created_at := "2024-11-03 09:00:00" |};
    {| id := 2; date := "2024-11-02"; pages_read := Integer (-5);
       book_title := Some ""; notes := Some "";
       reading_time := Some (Integer 0); created_at := "2024-11-03 09:01:00" |} ].

(** A request whose [pages_read] is not a number. *)
Definition abc_request : json :=
  JObj [("date", JStr "2024-01-01"); ("pages_read", JStr "abc")].

(** The row it leaves in the table. *)
Definition abc_row (db : store) (now_ts : string) : row :=
  {| id := next_id db; date := "2024-01-01"; pages_read := Text "abc";
     book_title := Some ""; notes := Some "";
     reading_time := Some (Integer 0); created_at := now_ts |}.

(** A request with a negative page count. *)
Definition negative_request : json :=
  JObj [("date", JStr "2024-11-02"); ("pages_read", JInt (-5))].

(** One session of 10 pages dated two days after 2024-11-03. *)
Definition future_store : store :=
  [ {| id := 1; date := "2024-11-05"; pages_read := Integer 10;
       book_title := Some ""; notes := Some "";
       reading_time := Some (Integer 0); created_at := "2024-11-03 09:00:00" |} ].

(** One session of 10 pages dated 2024-10-27, seven days before
    2024-11-03. *)
Definition week_old_store : store :=
  [ {| id := 1; date := "2024-10-27"; pages_read := Integer 10;
       book_title := Some ""; notes := Some "";
       reading_time := Some (Integer 0); created_at := "2024-10-27 09:00:00" |} ].

(** Three sessions on 2024-11-03, of 1, 1 and 2 pages. *)
Definition thirds_store : store :=
  map (fun '(i, n) =>
         {| id := i; date := "2024-11-03"; pages_read := Integer n;
            book_title := Some ""; notes := Some "";
            reading_time := Some (Integer 0);
            created_at := "2024-11-03 09:00:00" |})
      [(1, 1); (2, 1); (3, 2)].

(** Two sessions of one page, dated 1000-01-01 and 0999-12-31. *)
Definition year_999_store : store :=
  [ {| id := 1; date := "1000-01-01"; pages_read := Integer 1;
       book_title := None; notes := None; reading_time := Some (Integer 0);
       created_at := "2024-11-03 09:00:00" |};
    {| id := 2; date := "0999-12-31"; pages_read := Integer 1;
       book_title := None; notes := None; reading_time := Some (Integer 0);
       created_at := "2024-11-03 09:00:00" |} ].

(** One session of one page on each of the days from 0001-01-01 to the
    day of ordinal [last], dated as the program prints the day (as the
    command line dates a session when the date line is left blank). *)
Definition session_on (d : Z) : row :=
  {| id := d; date := strftime d; pages_read := Integer 1;
     book_title := None; notes := None; reading_time := Some (Integer 0);
     created_at := "2024-11-03 09:00:00" |}.

Definition every_day_store (last : Z) : store :=
  map (fun k => session_on (Z.of_nat (S k))) (seq 0 (Z.to_nat last)).

(** One session of one page on each of the days from 0001-01-01 to the
    day of ordinal [last], dated YYYY-MM-DD. *)
Definition iso_session_on (d : Z) : row :=
  {| id := d; date := isoformat d; pages_read := Integer 1;
     book_title := None; notes := None; reading_time := Some (Integer 0);
     created_at := "2024-11-03 09:00:00" |}.

Definition iso_every_day_store (last : Z) : store :=
  map (fun k => iso_session_on (Z.of_nat (S k))) (seq 0 (Z.to_nat last)).

(** The binary64 number nearest to 1.3. *)
Definition float_1_3 : spec_float := S754_finite false 5854679515581645 (-52).

(** The binary64 number 10.0. *)
Definition float_10 : spec_float := S754_finite false 5629499534213120 (-49).

End Examples.

Import Examples.

(* ================================================================== *)
(** * Properties *)
(* ================================================================== *)

(** ** The calendar *)

Section Calendar.

(** The year count of [_ord2ymd] read back by [_days_before_year]. *)
Lemma days_before_year_cycles (n400 n100 n4 n1 : Z) :
  0 <= n100 <= 3 -> 0 <= n4 <= 24 -> 0 <= n1 <= 3 ->
  _days_before_year (n400 * 400 + 1 + n100 * 100 + n4 * 4 + n1)
  = n400 * _DI400Y + n100 * _DI100Y + n4 * _DI4Y + n1 * 365.
Proof.
  intros H100 H4 H1. unfold _days_before_year, _DI400Y, _DI100Y, _DI4Y.
  cbv zeta.
  replace (n400 * 400 + 1 + n100 * 100 + n4 * 4 + n1 - 1)
    with (n400 * 400 + n100 * 100 + n4 * 4 + n1) by lia.
  Z.to_euclidean_division_equations. lia.
Qed.

Lemma is_leap_cycles (n400 n100 n4 n1 : Z) :
  0 <= n100 <= 3 -> 0 <= n4 <= 24 -> 0 <= n1 <= 3 ->
  _is_leap (n400 * 400 + 1 + n100 * 100 + n4 * 4 + n1)
  = (n1 =? 3) && (negb (n4 =? 24) || (n100 =? 3)).
Proof.
  intros H100 H4 H1. unfold _is_leap.
  destruct (n1 =? 3) eqn:E1; destruct (n4 =? 24) eqn:E4;
    destruct (n100 =? 3) eqn:E100; cbn [negb orb andb];
    repeat match goal with
    | |- context [?a mod ?b =? 0] => destruct (Z.eqb_spec (a mod b) 0)
    end; cbn [negb orb andb]; try reflexivity; exfalso;
    repeat match goal with
    | H : (_ =? _) = true |- _ => apply Z.eqb_eq in H
    | H : (_ =? _) = false |- _ => apply Z.eqb_neq in H
    end; Z.to_euclidean_division_equations; lia.
Qed.

(** Month and day from the index of a day within its year, as the tail
    of [_ord2ymd] computes them. *)
Lemma month_day_of_index (leap : bool) (n : Z) :
  0 <= n <= 364 ->
  let month := Z.shiftr (n + 50) 5 in
  let preceding :=
    _DAYS_BEFORE_MONTH month + (if (2 <? month) && leap then 1 else 0) in
  let m := if n <? preceding then month - 1 else month in
  let p :=
    if n <? preceding
    then preceding
         - (_DAYS_IN_MONTH (month - 1)
            + (if (month - 1 =? 2) && leap then 1 else 0))
    else preceding in
  1 <= m <= 12 /\
  1 <= n - p + 1 <= (if (m =? 2) && leap then 29 else _DAYS_IN_MONTH m) /\
  _DAYS_BEFORE_MONTH m + (if (2 <? m) && leap then 1 else 0) + (n - p + 1)
  = n + 1.
Proof.
  intros Hn. rewrite Z.shiftr_div_pow2 by lia. change (2 ^ 5) with 32.
  pose proof (Z.div_mod (n + 50) 32 ltac:(lia)) as Hdm.
  pose proof (Z.mod_pos_bound (n + 50) 32 ltac:(lia)) as Hmb.
  remember ((n + 50) / 32) as month eqn:Em. clear Em.
  assert (Hm : month = 1 \/ month = 2 \/ month = 3 \/ month = 4 \/ month = 5
               \/ month = 6 \/ month = 7 \/ month = 8 \/ month = 9
               \/ month = 10 \/ month = 11 \/ month = 12) by lia.
  destruct leap;
    repeat (destruct Hm as [-> | Hm]); try subst month;
    cbn -[Z.ltb Z.add Z.sub Z.modulo];
    match goal with
    | |- context [n <? ?k] => destruct (Z.ltb_spec n k)
    end;
    repeat match goal with
    | |- context [Z.pos ?a - 1] =>
        let v := eval vm_compute in (Z.pos a - 1) in
        change (Z.pos a - 1) with v
    end;
    cbn -[Z.add Z.sub] in *; lia.
Qed.

(** [_ord2ymd] names a day of the calendar and [_ymd2ord] reads it back. *)
Lemma ord2ymd_correct (n : Z) :
  1 <= n ->
  exists y m d,
    _ord2ymd n = (y, m, d) /\ 1 <= y /\ 1 <= m <= 12 /\
    1 <= d <= _days_in_month y m /\ _ymd2ord y m d = n.
Proof.
  intros Hn. unfold _ord2ymd. cbv zeta.
  pose proof (Z.div_mod (n - 1) _DI400Y ltac:(discriminate)) as E400.
  pose proof (Z.mod_pos_bound (n - 1) _DI400Y ltac:(reflexivity)) as B400.
  remember ((n - 1) / _DI400Y) as n400 eqn:X; clear X.
  remember ((n - 1) mod _DI400Y) as r400 eqn:X; clear X.
  pose proof (Z.div_mod r400 _DI100Y ltac:(discriminate)) as E100.
  pose proof (Z.mod_pos_bound r400 _DI100Y ltac:(reflexivity)) as B100.
  remember (r400 / _DI100Y) as n100 eqn:X; clear X.
  remember (r400 mod _DI100Y) as r100 eqn:X; clear X.
  pose proof (Z.div_mod r100 _DI4Y ltac:(discriminate)) as E4.
  pose proof (Z.mod_pos_bound r100 _DI4Y ltac:(reflexivity)) as B4.
  remember (r100 / _DI4Y) as n4 eqn:X; clear X.
  remember (r100 mod _DI4Y) as r4 eqn:X; clear X.
  pose proof (Z.div_mod r4 365 ltac:(discriminate)) as E1.
  pose proof (Z.mod_pos_bound r4 365 ltac:(reflexivity)) as B1.
  remember (r4 / 365) as n1 eqn:X; clear X.
  remember (r4 mod 365) as r1 eqn:X; clear X.
  unfold _DI400Y, _DI100Y, _DI4Y in *.
  assert (H400 : 0 <= n400) by lia.
  assert (H100 : 0 <= n100 <= 4) by lia.
  assert (H4 : 0 <= n4 <= 24) by lia.
  assert (H1 : 0 <= n1 <= 4) by lia.
  destruct (Z.eqb_spec n1 4) as [E | N1]; cbn [orb].
  - (* the last day of a leap year *)
    assert (n100 <= 3 /\ n4 <= 23 /\ r1 = 0) as (L100 & L4 & ->) by lia.
    subst n1. exists (n400 * 400 + 1 + n100 * 100 + n4 * 4 + 3), 12, 31.
    split; [f_equal; f_equal; lia|].
    unfold _ymd2ord, _days_before_month, _days_in_month.
    rewrite is_leap_cycles, days_before_year_cycles by lia.
    unfold _DI400Y, _DI100Y, _DI4Y.
    replace (n4 =? 24) with false by (symmetry; apply Z.eqb_neq; lia).
    cbn. lia.
  - destruct (Z.eqb_spec n100 4) as [E | N100].
    + (* the last day of a 400-year cycle *)
      assert (n4 = 0 /\ n1 = 0 /\ r1 = 0) as (-> & -> & ->) by lia.
      subst n100. exists (n400 * 400 + 1 + 3 * 100 + 24 * 4 + 3), 12, 31.
      split; [f_equal; f_equal; lia|].
      unfold _ymd2ord, _days_before_month, _days_in_month.
      rewrite is_leap_cycles, days_before_year_cycles by lia.
      unfold _DI400Y, _DI100Y, _DI4Y. cbn. lia.
    + pose proof (month_day_of_index
                    ((n1 =? 3) && (negb (n4 =? 24) || (n100 =? 3))) r1
                    ltac:(lia)) as Hmd.
      cbv zeta in Hmd.
      remember ((n1 =? 3) && (negb (n4 =? 24) || (n100 =? 3))) as leap eqn:El.
      remember (Z.shiftr (r1 + 50) 5) as month eqn:X; clear X.
      remember (_DAYS_BEFORE_MONTH month
                + (if (2 <? month) && leap then 1 else 0)) as preceding eqn:X.
      clear X.
      assert (Hleap : _is_leap (n400 * 400 + 1 + n100 * 100 + n4 * 4 + n1)
                      = leap) by (subst leap; apply is_leap_cycles; lia).
      assert (Hdby : _days_before_year
                       (n400 * 400 + 1 + n100 * 100 + n4 * 4 + n1)
                     = n400 * 146097 + n100 * 36524 + n4 * 1461 + n1 * 365)
        by (apply days_before_year_cycles; lia).
      destruct (r1 <? preceding) eqn:Ecmp;
        (eexists _, _, _; split; [reflexivity|]);
        unfold _ymd2ord, _days_in_month, _days_before_month;
        rewrite Hleap, Hdby; lia.
Qed.

Lemma ymd2ord_year_bound (y m d : Z) :
  1 <= m <= 12 -> 1 <= d -> _ymd2ord y m d <= MAXORDINAL -> y <= MAXYEAR.
Proof.
  intros Hm Hd. unfold _ymd2ord, _days_before_year, MAXORDINAL, MAXYEAR.
  cbv zeta. intros Hb.
  assert (0 <= _days_before_month y m).
  { unfold _days_before_month.
    assert (Hc : m = 1 \/ m = 2 \/ m = 3 \/ m = 4 \/ m = 5 \/ m = 6 \/ m = 7
                 \/ m = 8 \/ m = 9 \/ m = 10 \/ m = 11 \/ m = 12) by lia.
    repeat (destruct Hc as [-> | Hc]); try subst m;
      destruct (_is_leap y); cbn; lia. }
  Z.to_euclidean_division_equations. lia.
Qed.

Lemma digit_val_digit_char (d : Z) :
  0 <= d <= 9 -> digit_val (digit_char d) = Some d.
Proof.
  intros Hd.
  assert (Hc : d = 0 \/ d = 1 \/ d = 2 \/ d = 3 \/ d = 4 \/ d = 5 \/ d = 6
               \/ d = 7 \/ d = 8 \/ d = 9) by lia.
  repeat (destruct Hc as [-> | Hc]); try subst d; reflexivity.
Qed.

Lemma digit_char_not_dash (d : Z) : Ascii.eqb (digit_char d) "-" = false.
Proof.
  unfold digit_char. destruct d as [|p|p]; try reflexivity.
  repeat (destruct p as [p|p|]; try reflexivity).
Qed.

Lemma split_dash_pad2 (n : Z) (tl : string) :
  split_dash (pad2 n (String "-" tl)) = Some (pad2 n EmptyString, tl).
Proof.
  unfold pad2. cbn [split_dash]. rewrite !digit_char_not_dash.
  rewrite Ascii.eqb_refl. reflexivity.
Qed.

(** Case analysis on a small natural number carried by an integer. *)
Tactic Notation "small_cases" ident(n) "below" integer(bound) :=
  let k := fresh "k" in
  let E := fresh "E" in
  remember (Z.to_nat n) as k eqn:E;
  assert (n = Z.of_nat k) by lia; subst n; clear E;
  do bound (destruct k as [|k]; [try lia; try reflexivity|]); lia.

Lemma parse_month_pad2 (m : Z) :
  1 <= m <= 12 -> parse_month (pad2 m EmptyString) = Some m.
Proof. intros Hm. small_cases m below 13. Qed.

Lemma parse_day_pad2 (d : Z) :
  1 <= d <= 31 -> parse_day (pad2 d EmptyString) = Some d.
Proof. intros Hd. small_cases d below 32. Qed.

Lemma days_in_month_le_31 (y m : Z) : _days_in_month y m <= 31.
Proof.
  unfold _days_in_month, _DAYS_IN_MONTH.
  destruct ((m =? 2) && _is_leap y); [lia|].
  destruct m as [|p|p]; try lia.
  repeat (destruct p as [p|p|]; try lia).
Qed.

(** [strptime] reads a date written YYYY-MM-DD as its day. *)
Lemma strptime_isoformat (n : Z) :
  valid_ordinal n -> strptime (isoformat n) = Some n.
Proof.
  intros [Hlo Hhi].
  destruct (ord2ymd_correct n Hlo) as (y & m & d & E & Hy & Hm & Hd & Hord).
  assert (Hy' : y <= 9999).
  { apply (ymd2ord_year_bound y m d); [lia | lia | rewrite Hord; exact Hhi]. }
  pose proof (days_in_month_le_31 y m) as H31.
  unfold isoformat. rewrite E. unfold pad4, strptime.
  unfold pad2 at 1.
  rewrite !digit_val_digit_char
    by (Z.to_euclidean_division_equations; lia).
  rewrite Ascii.eqb_refl, split_dash_pad2.
  rewrite parse_month_pad2, parse_day_pad2 by lia.
  replace (y / 1000 * 1000 + y / 100 mod 10 * 100 + y mod 100 / 10 * 10
           + (y mod 100) mod 10) with y
    by (Z.to_euclidean_division_equations; lia).
  replace (MINYEAR <=? y) with true
    by (symmetry; apply Z.leb_le; unfold MINYEAR; lia).
  replace (d <=? _days_in_month y m) with true
    by (symmetry; apply Z.leb_le; lia).
  cbn [andb]. now rewrite Hord.
Qed.

End Calendar.

(** ** Dates as text *)

Section DateOrder.

Lemma days_before_year_succ (y : Z) :
  _days_before_year (y + 1)
  = _days_before_year y + 365 + (if _is_leap y then 1 else 0).
Proof.
  unfold _days_before_year, _is_leap. cbv zeta.
  replace (y + 1 - 1) with y by lia.
  destruct (Z.eqb_spec (y mod 4) 0), (Z.eqb_spec (y mod 100) 0),
    (Z.eqb_spec (y mod 400) 0); cbn [negb andb orb];
    Z.to_euclidean_division_equations; lia.
Qed.

Lemma days_before_year_le (y1 y2 : Z) :
  y1 <= y2 -> _days_before_year y1 <= _days_before_year y2.
Proof.
  intros H. unfold _days_before_year. cbv zeta.
  Z.to_euclidean_division_equations. lia.
Qed.

(** Case analysis on a month. *)
Ltac month_cases m :=
  let H := fresh "Hc" in
  assert (H : m = 1 \/ m = 2 \/ m = 3 \/ m = 4 \/ m = 5 \/ m = 6 \/ m = 7
              \/ m = 8 \/ m = 9 \/ m = 10 \/ m = 11 \/ m = 12) by lia;
  repeat (destruct H as [-> | H]); try subst m.

(** The index of a day within its year. *)
Lemma day_of_year_bounds (y m d : Z) :
  valid_ymd (y, m, d) ->
  1 <= _days_before_month y m + d <= 365 + (if _is_leap y then 1 else 0).
Proof.
  intros (_ & Hm & Hd). unfold _days_before_month, _days_in_month in *.
  month_cases m; destruct (_is_leap y); cbn -[Z.add Z.sub] in *; lia.
Qed.

Lemma day_of_year_lt (y m1 d1 m2 d2 : Z) :
  valid_ymd (y, m1, d1) -> valid_ymd (y, m2, d2) -> m1 < m2 ->
  _days_before_month y m1 + d1 < _days_before_month y m2 + d2.
Proof.
  intros (_ & Hm1 & Hd1) (_ & Hm2 & Hd2) Hlt.
  unfold _days_before_month, _days_in_month in *.
  month_cases m1; month_cases m2; try lia;
    destruct (_is_leap y); cbn -[Z.add Z.sub] in *; lia.
Qed.

(** [_ymd2ord] is strictly increasing in (year, month, day). *)
Lemma ymd2ord_lt (t1 t2 : Z * Z * Z) :
  valid_ymd t1 -> valid_ymd t2 -> ymd_compare t1 t2 = Lt ->
  (let '(y, m, d) := t1 in _ymd2ord y m d)
  < (let '(y, m, d) := t2 in _ymd2ord y m d).
Proof.
  destruct t1 as [[y1 m1] d1], t2 as [[y2 m2] d2]. intros V1 V2.
  unfold ymd_compare, _ymd2ord.
  destruct (Z.compare_spec y1 y2) as [-> | Hy | Hy]; [| |discriminate].
  - destruct (Z.compare_spec m1 m2) as [-> | Hm | Hm]; [| |discriminate].
    + rewrite Z.compare_lt_iff. lia.
    + intros _. pose proof (day_of_year_lt y2 m1 d1 m2 d2 V1 V2 Hm). lia.
  - intros _.
    pose proof (day_of_year_bounds y1 m1 d1 V1) as B1.
    pose proof (day_of_year_bounds y2 m2 d2 V2) as B2.
    pose proof (days_before_year_succ y1) as S1.
    pose proof (days_before_year_le (y1 + 1) y2 ltac:(lia)). lia.
Qed.

Lemma ymd_compare_eq (t1 t2 : Z * Z * Z) :
  ymd_compare t1 t2 = Eq -> t1 = t2.
Proof.
  destruct t1 as [[y1 m1] d1], t2 as [[y2 m2] d2]. unfold ymd_compare.
  destruct (Z.compare_spec y1 y2); try discriminate.
  destruct (Z.compare_spec m1 m2); try discriminate.
  rewrite Z.compare_eq_iff. congruence.
Qed.

Lemma ymd_compare_antisym (t1 t2 : Z * Z * Z) :
  ymd_compare t2 t1 = CompOpp (ymd_compare t1 t2).
Proof.
  destruct t1 as [[y1 m1] d1], t2 as [[y2 m2] d2]. unfold ymd_compare.
  rewrite (Z.compare_antisym y1 y2), (Z.compare_antisym m1 m2),
    (Z.compare_antisym d1 d2).
  destruct (y1 ?= y2), (m1 ?= m2), (d1 ?= d2); reflexivity.
Qed.

Lemma ord2ymd_valid (n : Z) :
  1 <= n ->
  valid_ymd (_ord2ymd n) /\
  (let '(y, m, d) := _ord2ymd n in _ymd2ord y m d) = n.
Proof.
  intros Hn.
  destruct (ord2ymd_correct n Hn) as (y & m & d & -> & Hy & Hm & Hd & E).
  split; [split; [exact Hy | split; assumption] | exact E].
Qed.

(** The order of two days is the order of their (year, month, day). *)
Lemma ord2ymd_compare (n1 n2 : Z) :
  1 <= n1 -> 1 <= n2 ->
  ymd_compare (_ord2ymd n1) (_ord2ymd n2) = (n1 ?= n2).
Proof.
  intros H1 H2.
  destruct (ord2ymd_valid n1 H1) as [V1 E1].
  destruct (ord2ymd_valid n2 H2) as [V2 E2].
  destruct (ymd_compare (_ord2ymd n1) (_ord2ymd n2)) eqn:E.
  - apply ymd_compare_eq in E. rewrite E in E1. symmetry.
    apply Z.compare_eq_iff. congruence.
  - pose proof (ymd2ord_lt _ _ V1 V2 E) as Hlt. rewrite E1, E2 in Hlt.
    symmetry. now apply Z.compare_lt_iff.
  - assert (E' : ymd_compare (_ord2ymd n2) (_ord2ymd n1) = Lt)
      by (rewrite ymd_compare_antisym, E; reflexivity).
    pose proof (ymd2ord_lt _ _ V2 V1 E') as Hlt. rewrite E1, E2 in Hlt.
    symmetry. now apply Z.compare_gt_iff.
Qed.

Ltac digit_cases d :=
  let H := fresh "Hc" in
  assert (H : d = 0 \/ d = 1 \/ d = 2 \/ d = 3 \/ d = 4 \/ d = 5 \/ d = 6
              \/ d = 7 \/ d = 8 \/ d = 9) by lia;
  repeat (destruct H as [-> | H]); try subst d.

(** Digits compare as their characters do. *)
Lemma ascii_compare_digit (a b : Z) :
  0 <= a <= 9 -> 0 <= b <= 9 ->
  Ascii.compare (digit_char a) (digit_char b) = (a ?= b).
Proof. intros Ha Hb. digit_cases a; digit_cases b; reflexivity. Qed.

Lemma compare_pad2 (n1 n2 : Z) (r1 r2 : string) :
  0 <= n1 <= 99 -> 0 <= n2 <= 99 ->
  String.compare (pad2 n1 r1) (pad2 n2 r2)
  = match n1 ?= n2 with
    | Eq => String.compare r1 r2
    | c => c
    end.
Proof.
  intros H1 H2. unfold pad2. cbn [String.compare].
  rewrite !ascii_compare_digit by (Z.to_euclidean_division_equations; lia).
  destruct (Z.compare_spec (n1 / 10) (n2 / 10)) as [Eh | Hh | Hh];
    destruct (Z.compare_spec (n1 mod 10) (n2 mod 10)) as [El | Hl | Hl];
    destruct (Z.compare_spec n1 n2) as [E | L | G];
    try reflexivity; exfalso; Z.to_euclidean_division_equations; lia.
Qed.

Lemma compare_pad4 (n1 n2 : Z) (r1 r2 : string) :
  0 <= n1 <= 9999 -> 0 <= n2 <= 9999 ->
  String.compare (pad4 n1 r1) (pad4 n2 r2)
  = match n1 ?= n2 with
    | Eq => String.compare r1 r2
    | c => c
    end.
Proof.
  intros H1 H2. unfold pad4. cbn [String.compare].
  rewrite !ascii_compare_digit by (Z.to_euclidean_division_equations; lia).
  rewrite compare_pad2 by (Z.to_euclidean_division_equations; lia).
  destruct (Z.compare_spec (n1 / 1000) (n2 / 1000)) as [Eh | Hh | Hh];
    destruct (Z.compare_spec (n1 / 100 mod 10) (n2 / 100 mod 10))
      as [Em | Hm | Hm];
    destruct (Z.compare_spec (n1 mod 100) (n2 mod 100)) as [El | Hl | Hl];
    destruct (Z.compare_spec n1 n2) as [E | L | G];
    try reflexivity; exfalso; Z.to_euclidean_division_equations; lia.
Qed.

(** The text order of two dates written YYYY-MM-DD is the order of
    their days. *)
Lemma isoformat_compare (d1 d2 : Z) :
  valid_ordinal d1 -> valid_ordinal d2 ->
  String.compare (isoformat d1) (isoformat d2) = (d1 ?= d2).
Proof.
  intros [L1 U1] [L2 U2].
  rewrite <- (ord2ymd_compare d1 d2 L1 L2).
  destruct (ord2ymd_correct d1 L1) as (y1 & m1 & a1 & E1 & Hy1 & Hm1 & Ha1 & O1).
  destruct (ord2ymd_correct d2 L2) as (y2 & m2 & a2 & E2 & Hy2 & Hm2 & Ha2 & O2).
  assert (y1 <= 9999)
    by (apply (ymd2ord_year_bound y1 m1 a1); [lia | lia | now rewrite O1]).
  assert (y2 <= 9999)
    by (apply (ymd2ord_year_bound y2 m2 a2); [lia | lia | now rewrite O2]).
  pose proof (days_in_month_le_31 y1 m1). pose proof (days_in_month_le_31 y2 m2).
  unfold isoformat. rewrite E1, E2. unfold ymd_compare.
  rewrite compare_pad4 by lia. cbn [String.compare].
  change (Ascii.compare "-" "-") with Eq. cbv iota.
  rewrite compare_pad2 by lia. cbn [String.compare].
  change (Ascii.compare "-" "-") with Eq. cbv iota.
  rewrite compare_pad2 by lia. cbn [String.compare].
  destruct (y1 ?= y2), (m1 ?= m2), (a1 ?= a2); reflexivity.
Qed.

Lemma isoformat_leb (d1 d2 : Z) :
  valid_ordinal d1 -> valid_ordinal d2 ->
  String.leb (isoformat d1) (isoformat d2) = (d1 <=? d2).
Proof.
  intros V1 V2. unfold String.leb, Z.leb.
  rewrite (isoformat_compare d1 d2 V1 V2). reflexivity.
Qed.

(** A day on or after 1000-01-01 is in a year of four digits. *)
Lemma four_digit_year (n y m d : Z) :
  first_padded_day <= n -> _ord2ymd n = (y, m, d) -> 1000 <= y.
Proof.
  intros Hn E. unfold first_padded_day in Hn.
  destruct (ord2ymd_valid n ltac:(lia)) as [V O]. rewrite E in V, O.
  destruct (Z.le_gt_cases 1000 y) as [H | H]; [exact H | exfalso].
  pose proof (day_of_year_bounds y m d V) as B.
  pose proof (days_before_year_succ y) as S.
  pose proof (days_before_year_le (y + 1) 1000 ltac:(lia)) as L.
  change (_days_before_year 1000) with 364877 in L.
  unfold _ymd2ord in O. destruct (_is_leap y); lia.
Qed.

(** From 1000-01-01 on the program prints a day as the specification
    writes it. *)
Lemma strftime_isoformat (n : Z) :
  first_padded_day <= n -> strftime n = isoformat n.
Proof.
  intros Hn. unfold strftime, isoformat.
  destruct (_ord2ymd n) as [[y m] d] eqn:E.
  pose proof (four_digit_year n y m d Hn E) as Hy. unfold year_text.
  replace (y <? 10) with false by (symmetry; apply Z.ltb_ge; lia).
  replace (y <? 100) with false by (symmetry; apply Z.ltb_ge; lia).
  replace (y <? 1000) with false by (symmetry; apply Z.ltb_ge; lia).
  reflexivity.
Qed.

(** The text order of two days that the program prints is the order of
    the days, from 1000-01-01 on. *)
Lemma strftime_leb (d1 d2 : Z) :
  first_padded_day <= d1 <= MAXORDINAL ->
  first_padded_day <= d2 <= MAXORDINAL ->
  String.leb (strftime d1) (strftime d2) = (d1 <=? d2).
Proof.
  intros V1 V2. rewrite !strftime_isoformat by lia.
  apply isoformat_leb; unfold valid_ordinal, first_padded_day in *; lia.
Qed.

(** A cutoff on or after 1000-01-01 against a date written YYYY-MM-DD. *)
Lemma strftime_leb_isoformat (c d : Z) :
  first_padded_day <= c <= MAXORDINAL -> valid_ordinal d ->
  String.leb (strftime c) (isoformat d) = (c <=? d).
Proof.
  intros Vc Vd. rewrite strftime_isoformat by lia.
  apply isoformat_leb; [|exact Vd].
  unfold valid_ordinal, first_padded_day in *. lia.
Qed.

End DateOrder.

Section ReadingDates.

Lemma split_dash_year_text (y : Z) (tl : string) :
  split_dash (year_text y (String "-" tl)) = Some (year_text y EmptyString, tl).
Proof.
  unfold year_text, pad4, pad2.
  destruct (y <? 10); [|destruct (y <? 100); [|destruct (y <? 1000)]];
    cbn [split_dash]; rewrite !digit_char_not_dash, Ascii.eqb_refl;
    reflexivity.
Qed.

Lemma split_dash_pad4 (y : Z) (tl : string) :
  split_dash (pad4 y (String "-" tl)) = Some (pad4 y EmptyString, tl).
Proof.
  unfold pad4, pad2. cbn [split_dash].
  rewrite !digit_char_not_dash, Ascii.eqb_refl. reflexivity.
Qed.

Lemma digits_year_text (y : Z) :
  1 <= y <= 9999 -> digits (year_text y EmptyString) 0 false = Some y.
Proof.
  intros Hy. unfold year_text, pad4, pad2.
  destruct (Z.ltb_spec y 10); [|destruct (Z.ltb_spec y 100);
                                 [|destruct (Z.ltb_spec y 1000)]];
    cbn [digits];
    rewrite !digit_val_digit_char
      by (Z.to_euclidean_division_equations; lia);
    cbn [digits]; f_equal; Z.to_euclidean_division_equations; lia.
Qed.

Lemma digits_pad4 (y : Z) :
  1 <= y <= 9999 -> digits (pad4 y EmptyString) 0 false = Some y.
Proof.
  intros Hy. unfold pad4, pad2. cbn [digits].
  rewrite !digit_val_digit_char
    by (Z.to_euclidean_division_equations; lia).
  cbn [digits]. f_equal. Z.to_euclidean_division_equations. lia.
Qed.

(** A day as (year, month, day), within the calendar of [datetime]. *)
Lemma ord2ymd_in_calendar (n : Z) :
  valid_ordinal n ->
  exists y m d,
    _ord2ymd n = (y, m, d) /\ 1 <= y <= 9999 /\ 1 <= m <= 12 /\
    1 <= d <= _days_in_month y m /\ d <= 31 /\ _ymd2ord y m d = n.
Proof.
  intros [Hlo Hhi].
  destruct (ord2ymd_correct n Hlo) as (y & m & d & E & Hy & Hm & Hd & Hord).
  assert (Hy' : y <= 9999).
  { apply (ymd2ord_year_bound y m d); [lia | lia | rewrite Hord; exact Hhi]. }
  pose proof (days_in_month_le_31 y m) as H31.
  exists y, m, d. repeat split; try assumption; lia.
Qed.

Lemma read_date_month_day (y m d : Z) :
  1 <= y -> 1 <= m <= 12 -> 1 <= d <= _days_in_month y m -> d <= 31 ->
  match split_dash (pad2 m (String "-" (pad2 d EmptyString))) with
  | Some (mtok, dtok) =>
      match parse_month mtok, parse_day dtok with
      | Some m', Some dd =>
          if (MINYEAR <=? y) && (dd <=? _days_in_month y m')
          then Some (_ymd2ord y m' dd)
          else None
      | _, _ => None
      end
  | None => None
  end = Some (_ymd2ord y m d).
Proof.
  intros Hy Hm Hd H31. rewrite split_dash_pad2.
  rewrite parse_month_pad2, parse_day_pad2 by lia.
  replace (MINYEAR <=? y) with true
    by (symmetry; apply Z.leb_le; unfold MINYEAR; lia).
  replace (d <=? _days_in_month y m) with true
    by (symmetry; apply Z.leb_le; lia).
  reflexivity.
Qed.

(** [read_date] reads what [strftime] prints, and what the specification
    writes. *)
Lemma read_date_strftime (n : Z) :
  valid_ordinal n -> read_date (strftime n) = Some n.
Proof.
  intros Hn.
  destruct (ord2ymd_in_calendar n Hn) as (y & m & d & E & Hy & Hm & Hd & H31 & O).
  unfold strftime, read_date. rewrite E, split_dash_year_text.
  rewrite (digits_year_text y Hy).
  rewrite (read_date_month_day y m d) by lia. now rewrite O.
Qed.

Lemma read_date_isoformat (n : Z) :
  valid_ordinal n -> read_date (isoformat n) = Some n.
Proof.
  intros Hn.
  destruct (ord2ymd_in_calendar n Hn) as (y & m & d & E & Hy & Hm & Hd & H31 & O).
  unfold isoformat, read_date. rewrite E, split_dash_pad4.
  rewrite (digits_pad4 y Hy).
  rewrite (read_date_month_day y m d) by lia. now rewrite O.
Qed.

Lemma strftime_injective (d1 d2 : Z) :
  valid_ordinal d1 -> valid_ordinal d2 ->
  strftime d1 = strftime d2 -> d1 = d2.
Proof.
  intros H1 H2 E.
  pose proof (read_date_strftime d1 H1) as P1.
  pose proof (read_date_strftime d2 H2) as P2.
  rewrite E in P1. congruence.
Qed.

(** A day that the program prints is the day that the specification
    writes with the same text. *)
Lemma strftime_eq_isoformat (d f : Z) :
  valid_ordinal d -> valid_ordinal f -> strftime d = isoformat f -> d = f.
Proof.
  intros H1 H2 E.
  pose proof (read_date_strftime d H1) as P1.
  pose proof (read_date_isoformat f H2) as P2.
  rewrite E in P1. congruence.
Qed.

Lemma isoformat_not_empty (d : Z) : String.eqb (isoformat d) "" = false.
Proof.
  unfold isoformat. destruct (_ord2ymd d) as [[y m] dd]. reflexivity.
Qed.

(** The pages that the walk finds for a day from 1000-01-01 on are the
    pages of the sessions of that day. *)
Lemma found_pages_day_pages (db : store) (d : Z) :
  first_padded_day <= d -> found_pages db d = day_pages db d.
Proof.
  intros Hd. unfold found_pages, day_pages. now rewrite strftime_isoformat.
Qed.

End ReadingDates.

(** ** Sums over integer cells *)

Section Sums.

Lemma int_store_cons (r : row) (db : store) :
  int_store (r :: db) <->
  (exists z, pages_read r = Integer z) /\ int_store db.
Proof.
  unfold int_store. cbn [forallb]. rewrite andb_true_iff.
  split; intros [H1 H2]; split; trivial.
  - destruct (pages_read r); [eauto | discriminate].
  - destruct H1 as [z ->]. reflexivity.
Qed.

Lemma int_store_filter (p : row -> bool) (db : store) :
  int_store db -> int_store (filter p db).
Proof.
  induction db as [|r db IH]; [trivial|].
  rewrite int_store_cons. intros [Hr Hdb]. cbn [filter].
  destruct (p r); [rewrite int_store_cons|]; auto.
Qed.

Lemma int_store_app (db1 db2 : store) :
  int_store (db1 ++ db2) <-> int_store db1 /\ int_store db2.
Proof.
  unfold int_store. rewrite forallb_app, andb_true_iff. reflexivity.
Qed.

Lemma pages_nonneg_int_store (db : store) : pages_nonneg db -> int_store db.
Proof.
  induction 1 as [|r db (z & Hz & _) _ IH]; [reflexivity|].
  rewrite int_store_cons. eauto.
Qed.

Lemma sum_pages_cons (r : row) (rows : list row) :
  sum_pages (r :: rows) = pages r + sum_pages rows.
Proof. reflexivity. Qed.

(** [SUM] over INTEGER cells is the integer sum, NULL over no row. *)
Lemma sql_sum_int (rows : list row) :
  int_store rows ->
  sql_sum (map pages_read rows)
  = match rows with
    | [] => SumNull
    | _ :: _ => SumInt (sum_pages rows)
    end.
Proof.
  induction rows as [|r rows IH]; [reflexivity|].
  rewrite int_store_cons. intros [[z Hz] Hrows].
  specialize (IH Hrows). unfold sql_sum in *. cbn [map fold_right].
  rewrite IH, sum_pages_cons. unfold pages. rewrite Hz.
  destruct rows; cbn [sum_step]; [|reflexivity].
  f_equal. unfold sum_pages. cbn [fold_right]. lia.
Qed.

Lemma sum_pages_or_0_int (rows : list row) :
  int_store rows -> sum_pages_or_0 rows = Ok (sum_pages rows).
Proof.
  intros H. unfold sum_pages_or_0. rewrite sql_sum_int by assumption.
  destruct rows; reflexivity.
Qed.

(** A sum that SQLite computes on integers has only INTEGER inputs. *)
Lemma sql_sum_not_real_inv (rows : list row) :
  sql_sum (map pages_read rows) <> SumReal -> int_store rows.
Proof.
  induction rows as [|r rows IH]; [reflexivity|].
  unfold sql_sum in *. cbn [map fold_right]. intros H.
  apply int_store_cons.
  destruct (pages_read r) as [z|t] eqn:Er.
  - split; [eauto|]. apply IH. intros E. apply H. rewrite E. reflexivity.
  - exfalso. apply H.
    destruct (fold_right sum_step SumNull (map pages_read rows)); reflexivity.
Qed.

Lemma sum_pages_or_0_ok_inv (rows : list row) (p : Z) :
  sum_pages_or_0 rows = Ok p -> int_store rows /\ p = sum_pages rows.
Proof.
  intros H.
  assert (Hint : int_store rows).
  { apply sql_sum_not_real_inv. unfold sum_pages_or_0 in H.
    destruct (sql_sum (map pages_read rows)); discriminate. }
  split; [exact Hint|].
  rewrite (sum_pages_or_0_int rows Hint) in H. congruence.
Qed.

Lemma sum_pages_app (l1 l2 : list row) :
  sum_pages (l1 ++ l2) = sum_pages l1 + sum_pages l2.
Proof.
  induction l1 as [|r l1 IH]; [reflexivity|].
  cbn [app]. rewrite !sum_pages_cons, IH. lia.
Qed.

End Sums.

(** ** The streak loop *)

Section Streak.

Variable db : store.
Hypothesis Hint : int_store db.

Lemma streak_step_int (d s : Z) :
  streak_step db d s
  = if 0 <? found_pages db d then
      if valid_ordinalb (d - 1) then Running (d - 1) (s + 1)
      else Done (Raise OverflowError)
    else Done (Ok s).
Proof.
  unfold streak_step, sub_days, found_pages.
  rewrite sum_pages_or_0_int by (apply int_store_filter; exact Hint).
  destruct (0 <? _); [|reflexivity].
  destruct (valid_ordinalb (d - 1)); reflexivity.
Qed.

Lemma valid_ordinalb_true (d : Z) : valid_ordinalb d = true <-> valid_ordinal d.
Proof.
  unfold valid_ordinalb, valid_ordinal.
  rewrite andb_true_iff, !Z.leb_le. reflexivity.
Qed.

(** More fuel does not change a result. *)
Lemma streak_loop_fuel_mono (fuel extra : nat) (d s : Z) :
  streak_loop fuel db d s <> OutOfFuel ->
  streak_loop (fuel + extra) db d s = streak_loop fuel db d s.
Proof.
  revert d s. induction fuel as [|fuel IH]; intros d s H; [now elim H|].
  cbn [Nat.add streak_loop] in *.
  destruct (streak_step db d s); [apply IH; exact H | reflexivity].
Qed.

(** A day without pages at distance [k]: the loop breaks there. *)
Lemma streak_loop_breaks (k : nat) :
  forall (fuel : nat) (d s : Z),
    valid_ordinal d -> Z.of_nat k < d -> (k < fuel)%nat ->
    (forall i, 0 <= i < Z.of_nat k -> 0 < found_pages db (d - i)) ->
    found_pages db (d - Z.of_nat k) <= 0 ->
    streak_loop fuel db d s = Ok (s + Z.of_nat k).
Proof.
  induction k as [|k IH]; intros fuel d s Hd Hk Hf Hpos Hzero;
    (destruct fuel as [|fuel]; [lia|]); cbn [streak_loop];
    rewrite streak_step_int.
  - replace (d - Z.of_nat 0) with d in Hzero by lia.
    replace (0 <? found_pages db d) with false by (symmetry; apply Z.ltb_ge; lia).
    f_equal. lia.
  - pose proof (Hpos 0 ltac:(lia)) as H0. replace (d - 0) with d in H0 by lia.
    replace (0 <? found_pages db d) with true by (symmetry; apply Z.ltb_lt; lia).
    replace (valid_ordinalb (d - 1)) with true
      by (symmetry; apply valid_ordinalb_true; unfold valid_ordinal in *; lia).
    rewrite (IH fuel (d - 1) (s + 1)).
    + f_equal. lia.
    + unfold valid_ordinal in *. lia.
    + lia.
    + lia.
    + intros i Hi. replace (d - 1 - i) with (d - (i + 1)) by lia.
      apply Hpos. lia.
    + replace (d - 1 - Z.of_nat k) with (d - Z.of_nat (S k)) by lia.
      exact Hzero.
Qed.

(** A returned streak names the first day without pages. *)
Lemma streak_loop_ok_inv (fuel : nat) :
  forall (d s n : Z),
    valid_ordinal d ->
    streak_loop fuel db d s = Ok n ->
    exists k : nat,
      n = s + Z.of_nat k /\ Z.of_nat k < d /\ (k < fuel)%nat /\
      (forall i, 0 <= i < Z.of_nat k -> 0 < found_pages db (d - i)) /\
      found_pages db (d - Z.of_nat k) <= 0.
Proof.
  induction fuel as [|fuel IH]; intros d s n Hd H; [discriminate|].
  cbn [streak_loop] in H. rewrite streak_step_int in H.
  destruct (Z.ltb_spec 0 (found_pages db d)) as [Hpos | Hzero].
  - destruct (valid_ordinalb (d - 1)) eqn:Ev; [|discriminate].
    apply valid_ordinalb_true in Ev.
    destruct (IH _ _ _ Ev H) as (k & -> & Hk & Hf & Hall & Hz).
    exists (S k). split; [lia|]. split; [lia|]. split; [lia|]. split.
    + intros i Hi. destruct (Z.eq_dec i 0) as [-> | Hne].
      * now replace (d - 0) with d by lia.
      * replace (d - i) with (d - 1 - (i - 1)) by lia. apply Hall. lia.
    + replace (d - Z.of_nat (S k)) with (d - 1 - Z.of_nat k) by lia. exact Hz.
  - injection H as <-. unfold valid_ordinal in Hd.
    exists 0%nat. split; [lia|]. split; [lia|]. split; [lia|]. split; [lia|].
    now replace (d - Z.of_nat 0) with d by lia.
Qed.

(** With as many passes as the ordinal of the day it starts from, the
    loop has ended: at its [break], or below [date.min]. *)
Lemma streak_loop_ends (fuel : nat) :
  forall (d s : Z),
    valid_ordinal d -> d <= Z.of_nat fuel ->
    (exists n, s <= n < s + d /\ streak_loop fuel db d s = Ok n)
    \/ streak_loop fuel db d s = Raise OverflowError.
Proof.
  induction fuel as [|fuel IH]; intros d s Hd Hf;
    [unfold valid_ordinal in Hd; lia|].
  cbn [streak_loop]. rewrite streak_step_int.
  destruct (Z.ltb_spec 0 (found_pages db d)) as [Hpos | Hzero].
  - destruct (valid_ordinalb (d - 1)) eqn:Ev; [|now right].
    apply valid_ordinalb_true in Ev.
    destruct (IH (d - 1) (s + 1) Ev ltac:(lia)) as [(n & Hn & ->) | ->];
      [left; exists n; split; [lia | reflexivity] | now right].
  - left. exists s. unfold valid_ordinal in Hd. split; [lia | reflexivity].
Qed.

(** When every day down to [date.min] has pages the loop never returns. *)
Lemma streak_loop_overflows (k : nat) :
  forall (fuel : nat) (s : Z),
    (k < fuel)%nat -> Z.of_nat (S k) <= MAXORDINAL ->
    (forall i, 1 <= i <= Z.of_nat (S k) -> 0 < found_pages db i) ->
    streak_loop fuel db (Z.of_nat (S k)) s = Raise OverflowError.
Proof.
  induction k as [|k IH]; intros fuel s Hf Hmax Hpos;
    (destruct fuel as [|fuel]; [lia|]); cbn [streak_loop];
    rewrite streak_step_int;
    (replace (0 <? found_pages db _) with true
       by (symmetry; apply Z.ltb_lt; apply Hpos; lia)).
  - reflexivity.
  - replace (Z.of_nat (S (S k)) - 1) with (Z.of_nat (S k)) by lia.
    replace (valid_ordinalb (Z.of_nat (S k))) with true
      by (symmetry; apply valid_ordinalb_true; unfold valid_ordinal; lia).
    apply IH; [lia | lia |]. intros i Hi. apply Hpos. lia.
Qed.

End Streak.

(** ** C1: the streak *)

Lemma negative_store_reachable :
  exists db1,
    log_reading [] "2024-11-03 09:00:00"
      (JObj [("date", JStr "2024-11-03"); ("pages_read", JInt 3)])
    = Ok (db1, Success 1) /\
    log_reading db1 "2024-11-03 09:01:00"
      (JObj [("date", JStr "2024-11-02"); ("pages_read", JInt (-5))])
    = Ok (negative_store, Success 2).
Proof. eexists. split; reflexivity. Qed.

(** The walk over [negative_store] on 2024-11-03 (ordinal 739193). *)
Lemma negative_store_streak :
  calculate_reading_streak 2 negative_store 739193 = Ok 1 /\
  day_pages negative_store 739193 = 3 /\
  day_pages negative_store 739192 = -5.
Proof. repeat split; reflexivity. Qed.

(** The walk over [year_999_store] on 1000-01-01 (ordinal 364878): the
    day before is looked up as 999-12-31, and its session, dated
    0999-12-31, is not found. *)
Lemma year_999_store_streak :
  calculate_reading_streak 2 year_999_store 364878 = Ok 1 /\
  strftime 364877 = "999-12-31" /\
  day_pages year_999_store 364877 = 1 /\
  found_pages year_999_store 364877 = 0.
Proof. repeat split; reflexivity. Qed.

Lemma sum_pages_positive (rows : list row) :
  (forall r, In r rows -> 0 < pages r) -> rows <> [] -> 0 < sum_pages rows.
Proof.
  induction rows as [|r rows IH]; intros Hall Hne; [now elim Hne|].
  rewrite sum_pages_cons.
  pose proof (Hall r (or_introl eq_refl)) as Hr.
  destruct rows as [|r' rows]; [cbn; lia|].
  assert (0 < sum_pages (r' :: rows)); [|lia].
  apply IH; [|discriminate]. intros x Hx. apply Hall. now right.
Qed.

Lemma where_date_eq_nil (d : string) (db : store) :
  (forall r, In r db -> date r <> d) -> where_date_eq d db = [].
Proof.
  unfold where_date_eq. induction db as [|r db IH]; intros H; [reflexivity|].
  cbn [filter].
  replace (String.eqb (date r) d) with false
    by (symmetry; apply String.eqb_neq; apply H; now left).
  apply IH. intros x Hx. apply H. now right.
Qed.

Lemma iso_every_day_store_int (last : Z) :
  int_store (iso_every_day_store last).
Proof.
  unfold int_store, iso_every_day_store. rewrite forallb_forall.
  intros r Hr. apply in_map_iff in Hr. destruct Hr as (k & <- & _).
  reflexivity.
Qed.

Lemma iso_every_day_store_day_pages (last d : Z) :
  1 <= d <= last -> 0 < day_pages (iso_every_day_store last) d.
Proof.
  intros Hd. unfold day_pages. apply sum_pages_positive.
  - intros r Hr. apply filter_In in Hr. destruct Hr as [Hr _].
    apply in_map_iff in Hr. destruct Hr as (k & <- & _).
    unfold pages, iso_session_on. cbn [pages_read]. lia.
  - assert (Hin : In (iso_session_on d)
                    (where_date_eq (isoformat d) (iso_every_day_store last))).
    { apply filter_In. split.
      - apply in_map_iff. exists (Z.to_nat (d - 1)). split.
        + f_equal. lia.
        + apply in_seq. lia.
      - unfold iso_session_on. cbn [date]. apply String.eqb_refl. }
    intros E. rewrite E in Hin. exact Hin.
Qed.

(** The walk looks 0999-12-31 up as 999-12-31, a date that no session
    of [iso_every_day_store] has. *)
Lemma iso_every_day_store_year_999 :
  found_pages (iso_every_day_store 739193) 364877 = 0.
Proof.
  unfold found_pages. rewrite where_date_eq_nil; [reflexivity|].
  intros r Hr E. unfold iso_every_day_store in Hr.
  apply in_map_iff in Hr. destruct Hr as (k & <- & Hk).
  apply in_seq in Hk. unfold iso_session_on in E. cbn [date] in E.
  symmetry in E. pose proof E as E'.
  apply strftime_eq_isoformat in E;
    [|unfold valid_ordinal, MAXORDINAL; lia
     |unfold valid_ordinal, MAXORDINAL; lia].
  rewrite <- E in E'. vm_compute in E'. discriminate E'.
Qed.

(** On 2024-11-03 the streak of [iso_every_day_store] stops at
    1000-01-01, after 374316 days, although the day before that run has
    a session. *)
Lemma iso_every_day_store_streak :
  calculate_reading_streak (S (Z.to_nat 374316)) (iso_every_day_store 739193)
    739193
  = Ok 374316.
Proof.
  unfold calculate_reading_streak.
  rewrite (streak_loop_breaks _ (iso_every_day_store_int 739193)
             (Z.to_nat 374316)).
  - replace (0 + Z.of_nat (Z.to_nat 374316)) with 374316 by lia.
    reflexivity.
  - unfold valid_ordinal, MAXORDINAL. lia.
  - lia.
  - lia.
  - intros i Hi. rewrite found_pages_day_pages
      by (unfold first_padded_day; lia).
    apply iso_every_day_store_day_pages. lia.
  - replace (739193 - Z.of_nat (Z.to_nat 374316)) with 364877 by lia.
    rewrite iso_every_day_store_year_999. lia.
Qed.

(** C1, as stated, fails.  On 2024-11-03 the streak of [negative_store]
    is 1 although the day before the run has a session, and its summed
    pages are -5, not zero; and the streak of [iso_every_day_store] is
    374316 although the day before that run, 0999-12-31, has a session
    of one page. *)
Lemma streak_as_specified_fails :
  ~ streak_as_specified negative_store 739193 1 /\
  ~ streak_as_specified (iso_every_day_store 739193) 739193 374316.
Proof.
  split.
  - intros [H _].
    assert (Hret : exists fuel,
               calculate_reading_streak fuel negative_store 739193 = Ok 1)
      by (exists 2%nat; reflexivity).
    destruct (H Hret) as [_ Hzero]. vm_compute in Hzero. discriminate.
  - intros [H _].
    destruct (H (ex_intro _ _ iso_every_day_store_streak)) as [_ Hzero].
    pose proof (iso_every_day_store_day_pages 739193 (739193 - 374316)
                  ltac:(lia)).
    lia.
Qed.

(** C1 (amended): over INTEGER cells, [calculate_reading_streak] returns
    [n] exactly when the program finds summed pages greater than zero
    for each of the [n] consecutive days through today and not for the
    day before that run, which is a day of the calendar.  When that day
    is on or after 1000-01-01 this reads: each of the [n] days through
    today has summed pages greater than zero and the day before the run
    has summed pages not greater than zero (zero, none, or negative); in
    particular the result is 0 as soon as today's summed pages are not
    greater than zero.  (A day before 1000-01-01 is looked up under a
    year of fewer than four digits.) *)
Theorem calculate_reading_streak_spec (db : store) (today n : Z) :
  valid_ordinal today -> int_store db ->
  ((exists fuel, calculate_reading_streak fuel db today = Ok n) <->
   (0 <= n < today /\
    (forall i, 0 <= i < n -> 0 < found_pages db (today - i)) /\
    found_pages db (today - n) <= 0))
  /\
  (first_padded_day <= today - n ->
   ((exists fuel, calculate_reading_streak fuel db today = Ok n) <->
    (0 <= n /\
     (forall i, 0 <= i < n -> 0 < day_pages db (today - i)) /\
     day_pages db (today - n) <= 0)))
  /\
  (first_padded_day <= today -> day_pages db today <= 0 ->
   forall fuel, (1 <= fuel)%nat ->
     calculate_reading_streak fuel db today = Ok 0).
Proof.
  intros Htoday Hint. unfold calculate_reading_streak.
  assert (Hfound :
    (exists fuel, streak_loop fuel db today 0 = Ok n) <->
    (0 <= n < today /\
     (forall i, 0 <= i < n -> 0 < found_pages db (today - i)) /\
     found_pages db (today - n) <= 0)).
  { split.
    - intros [fuel H].
      destruct (streak_loop_ok_inv db Hint fuel today 0 n Htoday H)
        as (k & -> & Hk & _ & Hall & Hz).
      cbn [Z.add]. split; [lia|]. split; [exact Hall | exact Hz].
    - intros (Hn & Hall & Hz). exists (S (Z.to_nat n)).
      rewrite (streak_loop_breaks db Hint (Z.to_nat n)); try lia.
      + f_equal. lia.
      + exact Htoday.
      + intros i Hi. apply Hall. lia.
      + now replace (Z.of_nat (Z.to_nat n)) with n by lia. }
  split; [exact Hfound|]. split.
  - intros Hpad. rewrite Hfound. unfold first_padded_day in Hpad.
    rewrite <- (found_pages_day_pages db (today - n))
      by (unfold first_padded_day; lia).
    split.
    + intros (Hn & Hall & Hz). split; [lia|]. split; [|exact Hz].
      intros i Hi. rewrite <- found_pages_day_pages
        by (unfold first_padded_day; lia).
      now apply Hall.
    + intros (Hn & Hall & Hz). split; [lia|]. split; [|exact Hz].
      intros i Hi. rewrite found_pages_day_pages
        by (unfold first_padded_day; lia).
      now apply Hall.
  - intros Hpad Hz fuel Hf.
    rewrite <- found_pages_day_pages in Hz by exact Hpad.
    rewrite (streak_loop_breaks db Hint 0); try lia; try reflexivity.
    + exact Htoday.
    + unfold valid_ordinal in Htoday. lia.
    + now replace (today - Z.of_nat 0) with today by lia.
Qed.

Lemma calculate_reading_streak_spec_witness :
  valid_ordinal 739193 /\ int_store negative_store /\
  first_padded_day <= 739193 - 1 /\
  ((exists fuel, calculate_reading_streak fuel negative_store 739193 = Ok 1) <->
   (0 <= 1 /\
    (forall i, 0 <= i < 1 -> 0 < day_pages negative_store (739193 - i)) /\
    day_pages negative_store (739193 - 1) <= 0)).
Proof.
  assert (V : valid_ordinal 739193)
    by (unfold valid_ordinal, MAXORDINAL; lia).
  assert (P : first_padded_day <= 739193 - 1)
    by (unfold first_padded_day; lia).
  split; [exact V|]. split; [reflexivity|]. split; [exact P|].
  exact (proj1 (proj2 (calculate_reading_streak_spec negative_store 739193 1
                         V eq_refl)) P).
Defined.

(** ** C9: statistics of an empty table *)

Lemma week_start_ok (today : Z) :
  valid_ordinal today ->
  week_start today = Ok (strftime (today - weekday today)).
Proof.
  intros Htoday. unfold week_start, sub_days.
  replace (valid_ordinalb (today - weekday today)) with true; [reflexivity|].
  symmetry. apply valid_ordinalb_true. unfold valid_ordinal, weekday in *.
  Z.to_euclidean_division_equations. lia.
Qed.

(** C9: on an empty table [get_stats] returns 0 in every field. *)
Theorem get_stats_empty (fuel : nat) (today : Z) :
  valid_ordinal today -> (1 <= fuel)%nat ->
  get_stats fuel [] today
  = Ok {| total_pages := 0; current_streak := 0; week_pages := 0;
          month_pages := 0; avg_pages_per_day := PyInt 0 |}.
Proof.
  intros Htoday Hf. unfold get_stats.
  destruct fuel as [|fuel]; [lia|].
  rewrite (week_start_ok today Htoday). reflexivity.
Qed.

Lemma get_stats_empty_witness :
  valid_ordinal 739193 /\ (1 <= 1)%nat /\
  get_stats 1 [] 739193
  = Ok {| total_pages := 0; current_streak := 0; week_pages := 0;
          month_pages := 0; avg_pages_per_day := PyInt 0 |}.
Proof.
  split; [|split].
  - unfold valid_ordinal, MAXORDINAL. lia.
  - lia.
  - apply (get_stats_empty 1 739193).
    + unfold valid_ordinal, MAXORDINAL. lia.
    + lia.
Defined.

(** ** C10: termination of the walk *)

Section Walk.

Variable db : store.
Hypothesis Hint : int_store db.

(** A day without pages within [n] passes: the loop breaks by then. *)
Lemma streak_loop_gap (n : nat) :
  forall (d s : Z),
    valid_ordinal d ->
    (exists j, 0 <= j < Z.of_nat n /\ j < d /\ found_pages db (d - j) <= 0) ->
    exists k, s <= k < s + Z.of_nat n /\ streak_loop n db d s = Ok k.
Proof.
  induction n as [|n IH]; intros d s Hd (j & Hj & Hjd & Hz); [lia|].
  cbn [streak_loop]. rewrite (streak_step_int db Hint).
  destruct (Z.ltb_spec 0 (found_pages db d)) as [Hpos | Hzero].
  - assert (j <> 0) by (intros ->; replace (d - 0) with d in Hz by lia; lia).
    replace (valid_ordinalb (d - 1)) with true
      by (symmetry; apply valid_ordinalb_true; unfold valid_ordinal in *; lia).
    destruct (IH (d - 1) (s + 1)) as (k & Hk & ->).
    + unfold valid_ordinal in *. lia.
    + exists (j - 1). split; [lia|]. split; [lia|].
      now replace (d - 1 - (j - 1)) with (d - j) by lia.
    + exists k. split; [lia | reflexivity].
  - exists s. split; [lia | reflexivity].
Qed.

End Walk.

(** Dropping from a duplicate-free list the elements that fail a test
    which at most one element fails shortens it by at most one. *)
Lemma filter_drops_at_most_one {A : Type} (p : A -> bool) (l : list A) :
  NoDup l ->
  (forall x y, In x l -> In y l -> p x = false -> p y = false -> x = y) ->
  (List.length l <= S (List.length (filter p l)))%nat.
Proof.
  induction 1 as [|a l Hnotin Hnd IH]; intros Huniq; [cbn; lia|].
  cbn [filter]. destruct (p a) eqn:Ea.
  - cbn [List.length]. apply le_n_S, IH.
    intros x y Hx Hy. apply Huniq; now right.
  - assert (Hall : forall x, In x l -> p x = true).
    { intros x Hx. destruct (p x) eqn:Ex; [reflexivity|].
      exfalso. apply Hnotin.
      rewrite (Huniq a x (or_introl eq_refl) (or_intror Hx) Ea Ex).
      exact Hx. }
    replace (filter p l) with l; [cbn; lia|].
    clear -Hall. induction l as [|x l IHl]; [reflexivity|].
    cbn [filter]. rewrite (Hall x (or_introl eq_refl)).
    f_equal. apply IHl. intros y Hy. apply Hall. now right.
Qed.

(** Among more days than the table has rows, one has no session. *)
Lemma free_day (db : store) :
  forall days : list Z,
    NoDup days -> Forall valid_ordinal days ->
    (List.length db < List.length days)%nat ->
    exists d, In d days /\ where_date_eq (strftime d) db = [].
Proof.
  induction db as [|r db IH]; intros days Hnd Hvalid Hlen.
  - destruct days as [|d days]; [cbn in Hlen; lia|].
    exists d. split; [now left | reflexivity].
  - set (p := fun d => negb (String.eqb (date r) (strftime d))).
    assert (Hone : (List.length days <= S (List.length (filter p days)))%nat).
    { apply filter_drops_at_most_one; [exact Hnd|].
      intros x y Hx Hy Ex Ey. unfold p in Ex, Ey.
      apply negb_false_iff, String.eqb_eq in Ex, Ey.
      rewrite Forall_forall in Hvalid.
      apply strftime_injective; [now apply Hvalid | now apply Hvalid |].
      congruence. }
    destruct (IH (filter p days)) as (d & Hd & Hfree).
    + now apply NoDup_filter.
    + rewrite Forall_forall in *. intros x Hx.
      apply filter_In in Hx. now apply Hvalid.
    + cbn [List.length] in Hlen. lia.
    + apply filter_In in Hd. destruct Hd as [Hd Hp].
      exists d. split; [exact Hd|].
      unfold where_date_eq in *. cbn [filter].
      unfold p in Hp. apply negb_true_iff in Hp. rewrite Hp. exact Hfree.
Qed.

(** The days [today], [today - 1], ..., [today - n]. *)
Lemma days_back_facts (today : Z) (n : nat) :
  Z.of_nat n < today -> today <= MAXORDINAL ->
  let days := map (fun k => today - Z.of_nat k) (seq 0 (S n)) in
  NoDup days /\ Forall valid_ordinal days /\ List.length days = S n /\
  forall d, In d days -> today - Z.of_nat n <= d <= today.
Proof.
  intros Hn Hmax days. subst days. split; [|split; [|split]].
  - apply Injective_map_NoDup; [|apply seq_NoDup].
    intros x y Hxy. lia.
  - rewrite Forall_forall. intros d Hd. apply in_map_iff in Hd.
    destruct Hd as (k & <- & Hk). apply in_seq in Hk.
    unfold valid_ordinal. lia.
  - now rewrite length_map, length_seq.
  - intros d Hd. apply in_map_iff in Hd.
    destruct Hd as (k & <- & Hk). apply in_seq in Hk. lia.
Qed.

Lemma every_day_store_int (last : Z) : int_store (every_day_store last).
Proof.
  unfold int_store, every_day_store. rewrite forallb_forall.
  intros r Hr. apply in_map_iff in Hr. destruct Hr as (k & <- & _).
  reflexivity.
Qed.

Lemma every_day_store_found_pages (last d : Z) :
  1 <= d <= last -> 0 < found_pages (every_day_store last) d.
Proof.
  intros Hd. unfold found_pages. apply sum_pages_positive.
  - intros r Hr. apply filter_In in Hr. destruct Hr as [Hr _].
    apply in_map_iff in Hr. destruct Hr as (k & <- & _). cbn. lia.
  - assert (Hin : In (session_on d)
                    (where_date_eq (strftime d) (every_day_store last))).
    { apply filter_In. split.
      - apply in_map_iff. exists (Z.to_nat (d - 1)). split.
        + f_equal. lia.
        + apply in_seq. lia.
      - cbn. apply String.eqb_refl. }
    intros E. rewrite E in Hin. exact Hin.
Qed.

(** With a session on every day since [date.min] the walk ends below
    [date.min], whatever the fuel. *)
Lemma every_day_store_overflows (today : Z) (fuel : nat) :
  valid_ordinal today -> (Z.to_nat today <= fuel)%nat ->
  calculate_reading_streak fuel (every_day_store today) today
  = Raise OverflowError.
Proof.
  intros [Hlo Hhi] Hf. unfold calculate_reading_streak.
  remember (Z.to_nat today) as n eqn:En.
  destruct n as [|n]; [lia|].
  replace today with (Z.of_nat (S n)) at 2 by lia.
  apply (streak_loop_overflows _ (every_day_store_int today)); [lia | lia |].
  intros i Hi. apply every_day_store_found_pages. lia.
Qed.

(** Whatever the cells hold, as many passes as the ordinal of today end
    the walk of the model. *)
Lemma streak_loop_never_out_of_fuel (db : store) (fuel : nat) :
  forall d s,
    valid_ordinal d -> d <= Z.of_nat fuel ->
    streak_loop fuel db d s <> OutOfFuel.
Proof.
  induction fuel as [|fuel IH]; intros d s Hd Hf;
    [unfold valid_ordinal in Hd; lia|].
  cbn [streak_loop]. unfold streak_step, sub_days.
  destruct (sum_pages_or_0 _) as [p| | |] eqn:Ep; try discriminate.
  - destruct (0 <? p); [|discriminate].
    destruct (valid_ordinalb (d - 1)) eqn:Ev; [|discriminate].
    apply IH; [now apply valid_ordinalb_true | lia].
  - unfold sum_pages_or_0 in Ep. destruct (sql_sum _); discriminate.
Qed.

(** C10, as stated, fails: with a session on every day from 0001-01-01
    through 2024-11-03, each dated as the program prints that day, no
    day at or before the earliest stored date is left for the walk,
    which never reaches its [break]. *)
Lemma reaches_break_fails :
  ~ reaches_break (every_day_store 739193) 739193.
Proof.
  intros (fuel & n & H). unfold calculate_reading_streak in H.
  assert (Hmono := streak_loop_fuel_mono (every_day_store 739193)
                     fuel (Z.to_nat 739193) 739193 0).
  rewrite H in Hmono. specialize (Hmono ltac:(discriminate)).
  assert (Hvalid : valid_ordinal 739193)
    by (unfold valid_ordinal, MAXORDINAL; lia).
  pose proof (every_day_store_overflows 739193 (fuel + Z.to_nat 739193)
                Hvalid ltac:(lia)) as Hov.
  unfold calculate_reading_streak in Hov. congruence.
Qed.

(** C10 (amended): over INTEGER cells the walk of
    [calculate_reading_streak] terminates within as many passes as the
    ordinal of today, at its [break] or, when it finds pages for every
    day since 0001-01-01, with the [OverflowError] of stepping below
    [date.min].  A day [d] that is not after today and for which it
    finds summed pages not greater than zero makes it reach the [break]
    within [(today - d) + 1] passes; from 1000-01-01 on this is any day
    whose summed pages are not greater than zero; and a day without any
    session exists among the [length db + 1] days through today whenever
    the table has fewer rows than today's ordinal. *)
Theorem streak_walk_terminates (db : store) (today : Z) :
  valid_ordinal today -> int_store db ->
  ((exists n, 0 <= n < today /\
      calculate_reading_streak (Z.to_nat today) db today = Ok n)
   \/ calculate_reading_streak (Z.to_nat today) db today = Raise OverflowError)
  /\
  (forall d, 1 <= d <= today -> found_pages db d <= 0 ->
     exists n, 0 <= n <= today - d /\
       calculate_reading_streak (Z.to_nat (today - d + 1)) db today = Ok n)
  /\
  (forall d, first_padded_day <= d <= today -> day_pages db d <= 0 ->
     exists n, 0 <= n <= today - d /\
       calculate_reading_streak (Z.to_nat (today - d + 1)) db today = Ok n)
  /\
  (Z.of_nat (List.length db) < today ->
     exists d, today - Z.of_nat (List.length db) <= d <= today /\
       where_date_eq (strftime d) db = [] /\ found_pages db d = 0 /\
       (first_padded_day <= d ->
        where_date_eq (isoformat d) db = [] /\ day_pages db d = 0)).
Proof.
  intros Htoday Hint. unfold calculate_reading_streak.
  assert (Hgap : forall d, 1 <= d <= today -> found_pages db d <= 0 ->
            exists n, 0 <= n <= today - d /\
              streak_loop (Z.to_nat (today - d + 1)) db today 0 = Ok n).
  { intros d Hd Hz.
    destruct (streak_loop_gap db Hint (Z.to_nat (today - d + 1)) today 0
                Htoday) as (n & Hn & H).
    - exists (today - d). split; [lia|]. split; [lia|].
      now replace (today - (today - d)) with d by lia.
    - exists n. split; [lia | exact H]. }
  split; [|split; [exact Hgap|split]].
  - destruct (streak_loop_ends db Hint (Z.to_nat today) today 0 Htoday
                ltac:(lia)) as [(n & Hn & H) | H]; [left | now right].
    exists n. split; [lia | exact H].
  - intros d Hd Hz. apply Hgap.
    + unfold first_padded_day in Hd. lia.
    + rewrite found_pages_day_pages by lia. exact Hz.
  - intros Hlen.
    destruct (days_back_facts today (List.length db) Hlen
                ltac:(unfold valid_ordinal in Htoday; lia))
      as (Hnd & Hvalid & Hl & Hrange).
    destruct (free_day db _ Hnd Hvalid ltac:(lia)) as (d & Hd & Hfree).
    exists d. split; [now apply Hrange|]. split; [exact Hfree|].
    split; [unfold found_pages; now rewrite Hfree|].
    intros Hpad. rewrite <- (strftime_isoformat d Hpad).
    split; [exact Hfree|]. unfold day_pages.
    now rewrite <- (strftime_isoformat d Hpad), Hfree.
Qed.

Lemma streak_walk_terminates_witness :
  valid_ordinal 739193 /\ int_store negative_store /\
  (forall d, first_padded_day <= d <= 739193 ->
     day_pages negative_store d <= 0 ->
     exists n, 0 <= n <= 739193 - d /\
       calculate_reading_streak (Z.to_nat (739193 - d + 1))
         negative_store 739193 = Ok n) /\
  first_padded_day <= 739192 <= 739193 /\
  day_pages negative_store 739192 <= 0.
Proof.
  assert (V : valid_ordinal 739193)
    by (unfold valid_ordinal, MAXORDINAL; lia).
  split; [exact V|]. split; [reflexivity|]. split.
  - exact (proj1 (proj2 (proj2 (streak_walk_terminates negative_store 739193
                                  V eq_refl)))).
  - split; [unfold first_padded_day; lia|]. vm_compute. discriminate.
Defined.

(** ** C2, C3: what the entry paths accept *)

Section EntryPaths.

Lemma bind_param_error (n : nat) (v : json) (e : exn) :
  bind_error n v = Some e -> bind_param n v = Raise e.
Proof.
  destruct v as [| | z | | |]; cbn; try discriminate.
  - destruct (in_int64 z); [discriminate | now intros [= <-]].
  - now intros [= <-].
  - now intros [= <-].
Qed.

Lemma bind_param_ok (n : nat) (v : json) :
  bind_error n v = None ->
  exists c, bind_param n v = Ok c /\ (c = None <-> v = JNull).
Proof.
  destruct v as [| | z | | |]; cbn; try discriminate.
  - intros _. eexists. split; [reflexivity|]. split; reflexivity.
  - intros _. eexists. split; [reflexivity|]. split; discriminate.
  - destruct (in_int64 z); [|discriminate]. intros _.
    eexists. split; [reflexivity|]. split; discriminate.
  - intros _. eexists. split; [reflexivity|]. split; discriminate.
Qed.

Lemma bind_param_int_inv (k : nat) (n : Z) (c : option value) :
  bind_param k (JInt n) = Ok c -> in_int64 n = true /\ c = Some (Integer n).
Proof.
  cbn. destruct (in_int64 n); [|discriminate].
  intros [= <-]. split; reflexivity.
Qed.

(** The write endpoint never raises: every exception of its body is
    turned into a response. *)
Lemma log_reading_never_raises (db : store) (now_ts : string) (data : json)
    (e : exn) :
  log_reading db now_ts data <> Raise e.
Proof.
  unfold log_reading.
  destruct (Outcome.bind _ _) as [[db0 sid]|e0| |]; discriminate.
Qed.

(** A request without [date] is answered by a failure that reports the
    [KeyError], and nothing is written. *)
Lemma log_reading_missing_date (db : store) (now_ts : string)
    (members : list (string * json)) :
  dict_get "date" members = None ->
  log_reading db now_ts (JObj members) = Ok (db, Failure (KeyError "date")).
Proof.
  intros H. unfold log_reading, subscript. rewrite H. reflexivity.
Qed.

(** What a successful [INSERT] has written. *)
Lemma insert_session_ok_inv (db db' : store) (now_ts : string)
    (vd vp vb vn vt : json) (sid : Z) :
  insert_session db now_ts vd vp vb vn vt = Ok (db', sid) ->
  exists c_date c_pages r,
    bind_param 0 vd = Ok (Some c_date) /\
    bind_param 1 vp = Ok (Some c_pages) /\
    db' = db ++ [r] /\ sid = next_id db /\ id r = sid /\
    date r = text_affinity c_date /\
    integer_affinity c_pages = Ok (pages_read r) /\
    created_at r = now_ts.
Proof.
  unfold insert_session, Outcome.bind.
  destruct (bind_param 0 vd) as [[cd|]| | |]; try discriminate;
    (destruct (bind_param 1 vp) as [[cp|]| | |]; try discriminate);
    (destruct (bind_param 2 vb) as [pb| | |]; try discriminate);
    (destruct (bind_param 3 vn) as [pn| | |]; try discriminate);
    (destruct (bind_param 4 vt) as [pt| | |]; try discriminate);
    cbn [not_null]; try discriminate.
  destruct (integer_affinity cp) as [pages| | |] eqn:Ep; try discriminate.
  destruct (nullable_integer pt) as [time| | |]; try discriminate.
  intros H. injection H as <- <-.
  eexists cd, cp, _. repeat split; try eassumption; reflexivity.
Qed.

(** The body of [log_reading] on an object that has both required
    members. *)
Lemma log_reading_body (db : store) (now_ts : string)
    (members : list (string * json)) (vd vp : json) :
  dict_get "date" members = Some vd ->
  dict_get "pages_read" members = Some vp ->
  exists vb vn vt,
    get (JObj members) "book_title" (JStr "") = Ok vb /\
    get (JObj members) "notes" (JStr "") = Ok vn /\
    get (JObj members) "reading_time" (JInt 0) = Ok vt /\
    log_reading db now_ts (JObj members)
    = match insert_session db now_ts vd vp vb vn vt with
      | Ok (db', sid) => Ok (db', Success sid)
      | Raise e => Ok (db, Failure e)
      | FloatPath => FloatPath
      | OutOfFuel => OutOfFuel
      end.
Proof.
  intros Hd Hp.
  assert (Hget : forall key default,
             exists v, get (JObj members) key default = Ok v).
  { intros key default. unfold get. destruct (dict_get key members); eauto. }
  destruct (Hget "book_title" (JStr "")) as [vb Hb].
  destruct (Hget "notes" (JStr "")) as [vn Hn].
  destruct (Hget "reading_time" (JInt 0)) as [vt Ht].
  exists vb, vn, vt. split; [exact Hb|]. split; [exact Hn|].
  split; [exact Ht|]. unfold log_reading, subscript.
  rewrite Hd, Hp. cbn [Outcome.bind]. rewrite Hb, Hn, Ht. reflexivity.
Qed.

(** What a successful request has written. *)
Lemma log_reading_success_inv (db db' : store) (now_ts : string)
    (data : json) (sid : Z) :
  log_reading db now_ts data = Ok (db', Success sid) ->
  exists v_date v_pages c_date c_pages r,
    subscript data "date" = Ok v_date /\
    subscript data "pages_read" = Ok v_pages /\
    bind_param 0 v_date = Ok (Some c_date) /\
    bind_param 1 v_pages = Ok (Some c_pages) /\
    db' = db ++ [r] /\ sid = next_id db /\ id r = sid /\
    date r = text_affinity c_date /\
    integer_affinity c_pages = Ok (pages_read r) /\
    created_at r = now_ts.
Proof.
  intros H. destruct data as [| | | | |members];
    try (unfold log_reading in H; cbn in H; discriminate).
  destruct (dict_get "date" members) as [vd|] eqn:Hd;
    [|unfold log_reading, subscript in H; rewrite Hd in H; discriminate].
  destruct (dict_get "pages_read" members) as [vp|] eqn:Hp;
    [|unfold log_reading, subscript in H; rewrite Hd, Hp in H; discriminate].
  destruct (log_reading_body db now_ts members vd vp Hd Hp)
    as (vb & vn & vt & _ & _ & _ & E).
  rewrite E in H.
  destruct (insert_session db now_ts vd vp vb vn vt) as [[db0 sid0]|e| |] eqn:Ei;
    try discriminate.
  injection H as <- <-.
  destruct (insert_session_ok_inv _ _ _ _ _ _ _ _ _ Ei)
    as (cd & cp & r & H1 & H2 & H3).
  exists vd, vp, cd, cp, r. unfold subscript. rewrite Hd, Hp.
  split; [reflexivity|]. split; [reflexivity|]. split; [exact H1|].
  split; [exact H2 | exact H3].
Qed.

(** The row of a successful request that carries an integer as its
    [pages_read]. *)
Lemma log_reading_stored_pages (db db' : store) (now_ts : string)
    (data : json) (sid n : Z) :
  log_reading db now_ts data = Ok (db', Success sid) ->
  subscript data "pages_read" = Ok (JInt n) ->
  exists r,
    db' = db ++ [r] /\ pages_read r = Integer n /\ in_int64 n = true /\
    id r = sid /\ sid = next_id db /\
    forall d, subscript data "date" = Ok (JStr d) -> date r = d.
Proof.
  intros H Hpages.
  destruct (log_reading_success_inv _ _ _ _ _ H)
    as (vd & vp & cd & cp & r & Hvd & Hvp & Hcd & Hcp & -> & Hsid & Hid
        & Hrd & Hrp & _).
  rewrite Hvp in Hpages. injection Hpages as ->.
  apply bind_param_int_inv in Hcp. destruct Hcp as [Hin [= ->]].
  change (integer_affinity (Integer n)) with (Ok (Integer n)) in Hrp.
  assert (Hr : pages_read r = Integer n) by congruence.
  exists r. split; [reflexivity|]. split; [exact Hr|].
  split; [exact Hin|]. split; [exact Hid|]. split; [exact Hsid|].
  intros d Hdate. rewrite Hvd in Hdate. injection Hdate as ->.
  change (bind_param 0 (JStr d)) with (@Ok (option value) (Some (Text d)))
    in Hcd.
  assert (Hc : cd = Text d) by congruence. subst cd. exact Hrd.
Qed.

(** What a successful command has written. *)
Lemma cli_log_reading_logged_inv (db db' : store) (today : Z)
    (now_ts : string) (stdin : list string) (n : Z) (d : string) :
  cli_log_reading db today now_ts stdin = Ok (db', Logged n d) ->
  exists l1 l2 l3 l4 rest r,
    stdin = l1 :: l2 :: l3 :: l4 :: rest /\
    py_int l2 = Some n /\ in_int64 n = true /\
    db' = db ++ [r] /\ date r = d /\ pages_read r = Integer n.
Proof.
  unfold cli_log_reading, input, Outcome.bind.
  destruct stdin as [|l1 [|l2 rest]]; try discriminate.
  destruct (py_int l2) as [pages|] eqn:Epages; [|discriminate].
  destruct rest as [|l3 [|l4 rest]]; try discriminate.
  unfold cli_insert. destruct (in_int64 pages) eqn:Ein; [|discriminate].
  intros H. injection H as <- <- <-.
  eexists l1, l2, l3, l4, rest, _.
  repeat split; try eassumption; reflexivity.
Qed.

Lemma pages_nonneg_snoc (db : store) (r : row) (n : Z) :
  pages_read r = Integer n ->
  (pages_nonneg (db ++ [r]) <-> pages_nonneg db /\ 0 <= n).
Proof.
  intros Hr. unfold pages_nonneg. rewrite Forall_app. split.
  - intros [Hdb Hlast]. split; [exact Hdb|].
    inversion Hlast as [|? ? (z & Hz & Hpos) _]; subst.
    rewrite Hr in Hz. injection Hz as <-. exact Hpos.
  - intros [Hdb Hn]. split; [exact Hdb|].
    constructor; [|constructor]. exists n. split; assumption.
Qed.

End EntryPaths.

(** C2: the write endpoint accepts [pages_read = "abc"]: the text is
    stored in the INTEGER column and the response reports success with
    the new session id. *)
Theorem log_reading_accepts_text_pages (db : store) (now_ts : string) :
  log_reading db now_ts abc_request
  = Ok (db ++ [abc_row db now_ts], Success (next_id db)).
Proof. reflexivity. Qed.

(** The command line, the sibling entry path, rejects the same input. *)
Lemma cli_log_reading_rejects_text_pages (db : store) (today : Z)
    (now_ts : string) :
  cli_log_reading db today now_ts ["2024-01-01"; "abc"; ""; ""]
  = Ok (db, InvalidInput).
Proof. reflexivity. Qed.

(** C3, as stated, fails: the write endpoint stores a session of -5
    pages in the empty table. *)
Lemma pages_invariant_kept_fails : ~ pages_invariant_kept.
Proof.
  intros [Hlog _].
  specialize (Hlog [] "2024-11-03 09:01:00" negative_request _ _
                (Forall_nil _) eq_refl).
  inversion Hlog as [|? ? (z & Hz & Hpos) _]; subst.
  cbn in Hz. injection Hz as <-. lia.
Qed.

(** So does the command line. *)
Lemma cli_log_reading_accepts_negative_pages :
  exists r,
    cli_log_reading [] 739193 "2024-11-03 09:01:00" ["2024-11-02"; "-5"; ""; ""]
    = Ok ([r], Logged (-5) "2024-11-02") /\
    pages_read r = Integer (-5).
Proof. eexists. split; reflexivity. Qed.

(** C3 (amended): a session persisted by the write endpoint from an
    integer [pages_read], or by the command line from the integer that
    [int] reads on its pages line, stores that integer unchanged,
    whatever its sign: [pagesRead >= 0] holds of every row afterwards
    exactly when it held before and the submitted integer is not
    negative.  The command line stores every integer of 64 bits that it
    is given so. *)
Theorem persisted_pages_sign :
  (forall db now_ts data db' sid n,
     log_reading db now_ts data = Ok (db', Success sid) ->
     subscript data "pages_read" = Ok (JInt n) ->
     (exists r, db' = db ++ [r] /\ pages_read r = Integer n) /\
     (pages_nonneg db' <-> pages_nonneg db /\ 0 <= n))
  /\
  (forall db today now_ts stdin db' n d,
     cli_log_reading db today now_ts stdin = Ok (db', Logged n d) ->
     (exists l1 l2 l3 l4 rest,
        stdin = l1 :: l2 :: l3 :: l4 :: rest /\ py_int l2 = Some n) /\
     (exists r, db' = db ++ [r] /\ pages_read r = Integer n) /\
     (pages_nonneg db' <-> pages_nonneg db /\ 0 <= n))
  /\
  (forall db today now_ts l1 l2 l3 l4 rest n,
     py_int l2 = Some n -> in_int64 n = true ->
     exists r d,
       cli_log_reading db today now_ts (l1 :: l2 :: l3 :: l4 :: rest)
       = Ok (db ++ [r], Logged n d) /\
       pages_read r = Integer n).
Proof.
  split; [|split].
  - intros db now_ts data db' sid n H Hpages.
    destruct (log_reading_stored_pages _ _ _ _ _ _ H Hpages)
      as (r & -> & Hr & _).
    split; [eauto|]. now apply pages_nonneg_snoc.
  - intros db today now_ts stdin db' n d H.
    destruct (cli_log_reading_logged_inv _ _ _ _ _ _ _ H)
      as (l1 & l2 & l3 & l4 & rest & r & -> & Hint & _ & -> & _ & Hr).
    split; [exists l1, l2, l3, l4, rest; split; [reflexivity | exact Hint]|].
    split; [eauto|]. now apply pages_nonneg_snoc.
  - intros db today now_ts l1 l2 l3 l4 rest n Hint Hin.
    unfold cli_log_reading, input. cbn [Outcome.bind]. rewrite Hint.
    unfold cli_insert. rewrite Hin. cbn [Outcome.bind].
    eexists _, _. split; reflexivity.
Qed.

Lemma persisted_pages_sign_witness :
  exists db',
    log_reading [] "2024-11-03 09:01:00" negative_request
    = Ok (db', Success 1) /\
    subscript negative_request "pages_read" = Ok (JInt (-5)) /\
    (pages_nonneg db' <-> pages_nonneg [] /\ 0 <= -5).
Proof.
  eexists. split; [reflexivity|]. split; [reflexivity|].
  apply (proj1 persisted_pages_sign [] "2024-11-03 09:01:00"
           negative_request _ 1 (-5)); reflexivity.
Defined.

(** ** C4: an insertion and the sums *)

Section Insertion.

Lemma where_date_ge_snoc (start : string) (db : store) (r : row) :
  where_date_ge start (db ++ [r])
  = where_date_ge start db ++ (if String.leb start (date r) then [r] else []).
Proof.
  unfold where_date_ge. rewrite filter_app. cbn [filter].
  destruct (String.leb start (date r)); reflexivity.
Qed.

Lemma week_start_inv (today : Z) (ws : string) :
  week_start today = Ok ws -> ws = strftime (today - weekday today).
Proof.
  unfold week_start, sub_days.
  destruct (valid_ordinalb _); cbn; [|discriminate].
  now intros [= <-].
Qed.

(** The queries behind the fields of a returned [stats]. *)
Lemma get_stats_ok_inv (fuel : nat) (db : store) (today : Z) (s : stats) :
  get_stats fuel db today = Ok s ->
  total_pages_query db = Ok (total_pages s) /\
  calculate_reading_streak fuel db today = Ok (current_streak s) /\
  pages_since db (strftime (today - weekday today)) = Ok (week_pages s) /\
  pages_since db (month_start today) = Ok (month_pages s) /\
  exists avg,
    avg_pages db today (total_pages s) = Ok avg /\
    avg_pages_per_day s = py_round1 avg.
Proof.
  unfold get_stats, Outcome.bind.
  destruct (total_pages_query db) as [total| | |]; try discriminate.
  destruct (calculate_reading_streak fuel db today) as [streak| | |];
    try discriminate.
  destruct (week_start today) as [ws| | |] eqn:Ews; try discriminate.
  apply week_start_inv in Ews. subst ws.
  destruct (pages_since db _) as [week| | |]; try discriminate.
  destruct (pages_since db (month_start today)) as [month| | |];
    try discriminate.
  destruct (avg_pages db today total) as [avg| | |] eqn:Eavg;
    try discriminate.
  intros [= <-]. cbn. repeat split; try reflexivity. eauto.
Qed.

(** A sum over a range, before and after a row is appended. *)
Lemma pages_since_snoc (db : store) (r : row) (n p : Z) (start : string) :
  pages_read r = Integer n ->
  pages_since db start = Ok p ->
  pages_since (db ++ [r]) start
  = Ok (if String.leb start (date r) then p + n else p).
Proof.
  intros Hr Hp. unfold pages_since in *.
  apply sum_pages_or_0_ok_inv in Hp. destruct Hp as [Hint ->].
  rewrite where_date_ge_snoc.
  destruct (String.leb start (date r)).
  - rewrite sum_pages_or_0_int.
    + rewrite sum_pages_app, sum_pages_cons. unfold pages. rewrite Hr.
      change (sum_pages []) with 0. f_equal. lia.
    + apply int_store_app. split; [exact Hint|].
      apply int_store_cons. split; [eauto | reflexivity].
  - rewrite app_nil_r. now apply sum_pages_or_0_int.
Qed.

Lemma total_pages_query_snoc (db : store) (r : row) (n t : Z) :
  pages_read r = Integer n ->
  total_pages_query db = Ok t ->
  total_pages_query (db ++ [r]) = Ok (t + n).
Proof.
  intros Hr Ht. unfold total_pages_query in *.
  apply sum_pages_or_0_ok_inv in Ht. destruct Ht as [Hint ->].
  rewrite sum_pages_or_0_int.
  - rewrite sum_pages_app, sum_pages_cons. unfold pages. rewrite Hr.
    change (sum_pages []) with 0. f_equal. lia.
  - apply int_store_app. split; [exact Hint|].
    apply int_store_cons. split; [eauto | reflexivity].
Qed.

End Insertion.

(** C4: the session that [log_reading] inserts for a request with the
    text [d] as its [date] and the integer [n] as its [pages_read] is
    appended to the table with that date and those pages.  The sum of
    pages over a date range [date >= start] that includes [d] becomes
    the value before the insertion plus [n], the sum over any other
    range keeps its value, and the total grows by [n]: over INTEGER
    cells these sums return, before and after; and whenever [get_stats]
    returns before and after, its [total_pages], [week_pages] and
    [month_pages] have changed so. *)
Theorem log_reading_adds_pages (db db' : store) (now_ts : string)
    (data : json) (sid : Z) (d : string) (n : Z) :
  log_reading db now_ts data = Ok (db', Success sid) ->
  subscript data "date" = Ok (JStr d) ->
  subscript data "pages_read" = Ok (JInt n) ->
  exists r,
    db' = db ++ [r] /\ date r = d /\ pages_read r = Integer n /\
    (int_store db ->
       total_pages_query db = Ok (sum_pages db) /\
       total_pages_query db' = Ok (sum_pages db + n) /\
       forall start,
         pages_since db start = Ok (sum_pages (where_date_ge start db)) /\
         pages_since db' start
         = Ok (sum_pages (where_date_ge start db)
               + (if String.leb start d then n else 0))) /\
    (forall t, total_pages_query db = Ok t ->
               total_pages_query db' = Ok (t + n)) /\
    (forall start p,
       pages_since db start = Ok p ->
       pages_since db' start
       = Ok (if String.leb start d then p + n else p)) /\
    (forall fuel fuel' today s s',
       get_stats fuel db today = Ok s ->
       get_stats fuel' db' today = Ok s' ->
       total_pages s' = total_pages s + n /\
       week_pages s'
       = week_pages s
         + (if String.leb (strftime (today - weekday today)) d
            then n else 0) /\
       month_pages s'
       = month_pages s
         + (if String.leb (month_start today) d then n else 0)).
Proof.
  intros H Hdate Hpages.
  destruct (log_reading_stored_pages _ _ _ _ _ _ H Hpages)
    as (r & -> & Hr & _ & _ & _ & Hd).
  specialize (Hd d Hdate). subst d.
  exists r. split; [reflexivity|]. split; [reflexivity|]. split; [exact Hr|].
  split; [|split; [|split]].
  - intros Hint.
    assert (T : total_pages_query db = Ok (sum_pages db))
      by (now apply sum_pages_or_0_int).
    split; [exact T|].
    split; [now apply total_pages_query_snoc|]. intros start.
    assert (P : pages_since db start = Ok (sum_pages (where_date_ge start db)))
      by (apply sum_pages_or_0_int; now apply int_store_filter).
    split; [exact P|]. rewrite (pages_since_snoc db r n _ start Hr P).
    destruct (String.leb start (date r)); f_equal; lia.
  - intros t Ht. now apply total_pages_query_snoc.
  - intros start p Hp. now apply pages_since_snoc.
  - intros fuel fuel' today s s' Hs Hs'.
    apply get_stats_ok_inv in Hs, Hs'.
    destruct Hs as (T & _ & W & M & _). destruct Hs' as (T' & _ & W' & M' & _).
    rewrite (total_pages_query_snoc db r n _ Hr T) in T'.
    rewrite (pages_since_snoc db r n _ _ Hr W) in W'.
    rewrite (pages_since_snoc db r n _ _ Hr M) in M'.
    injection T' as T'. injection W' as W'. injection M' as M'.
    destruct (String.leb (strftime (today - weekday today)) (date r));
      destruct (String.leb (month_start today) (date r));
      (split; [|split]); lia.
Qed.

Lemma log_reading_adds_pages_witness :
  let data := JObj [("date", JStr "2024-11-03"); ("pages_read", JInt 7)] in
  exists db' r,
    log_reading negative_store "2024-11-03 10:00:00" data
    = Ok (db', Success 3) /\
    subscript data "date" = Ok (JStr "2024-11-03") /\
    subscript data "pages_read" = Ok (JInt 7) /\
    db' = negative_store ++ [r] /\
    date r = "2024-11-03" /\ pages_read r = Integer 7 /\
    total_pages_query db' = Ok (sum_pages negative_store + 7).
Proof.
  intros data.
  destruct (log_reading_adds_pages negative_store _ "2024-11-03 10:00:00"
              data 3 "2024-11-03" 7 eq_refl eq_refl eq_refl)
    as (r & Hr & Hd & Hp & Hsum & _).
  eexists _, r. split; [reflexivity|]. split; [reflexivity|].
  split; [reflexivity|]. split; [exact Hr|]. split; [exact Hd|].
  split; [exact Hp|]. exact (proj1 (proj2 (Hsum eq_refl))).
Defined.

(** The sums of [negative_store] before and after that request. *)
Lemma log_reading_adds_pages_example :
  exists db',
    log_reading negative_store "2024-11-03 10:00:00"
      (JObj [("date", JStr "2024-11-03"); ("pages_read", JInt 7)])
    = Ok (db', Success 3) /\
    total_pages_query negative_store = Ok (-2) /\
    total_pages_query db' = Ok 5 /\
    pages_since negative_store "2024-11-03" = Ok 3 /\
    pages_since db' "2024-11-03" = Ok 10 /\
    pages_since negative_store "2024-11-04" = Ok 0 /\
    pages_since db' "2024-11-04" = Ok 0.
Proof. eexists. repeat split; reflexivity. Qed.

(** ** C5: the average per day *)

(** The statistics of [future_store] on 2024-11-03, and the value of the
    formula of the specification, -10.0. *)
Lemma future_store_stats :
  get_stats 1 future_store 739193
  = Ok {| total_pages := 10; current_streak := 0; week_pages := 10;
          month_pages := 10; avg_pages_per_day := PyInt 0 |} /\
  avg_as_specified future_store 739193 10
  = Some (PyFloat (S754_finite true 5629499534213120 (-49))).
Proof. split; reflexivity. Qed.

(** C5, as stated, fails: the first entry of [future_store] is two days
    after today, for which the formula of the specification gives
    [10 / (-2 + 1)], while [get_stats] returns 0. *)
Lemma avg_claim_fails : ~ avg_claim future_store 739193.
Proof.
  intros H. specialize (H 1%nat _ eq_refl). vm_compute in H. discriminate.
Qed.

(** C5 (amended): when the earliest stored date parses as a day [first]
    of the calendar, [avg_pages_per_day] is
    [total_pages / (daysBetween(first, today) + 1)] rounded to one
    decimal if [first] is not after today, and 0 if it is; for a table
    holding one session of 10 pages dated today (YYYY-MM-DD) it is
    exactly [10.0]. *)
Theorem avg_pages_per_day_spec :
  (forall fuel db today s first_entry first,
     get_stats fuel db today = Ok s ->
     min_date db = Some first_entry ->
     strptime first_entry = Some first ->
     avg_pages_per_day s
     = if first <=? today
       then PyFloat (round1 (truediv (total_pages s) ((today - first) + 1)))
       else PyInt 0)
  /\
  (forall today r,
     2 <= today <= MAXORDINAL ->
     date r = isoformat today -> pages_read r = Integer 10 ->
     exists s,
       get_stats 2 [r] today = Ok s /\
       total_pages s = 10 /\
       avg_pages_per_day s = PyFloat float_10 /\
       float_is_ratio float_10 10 1).
Proof.
  split.
  - intros fuel db today s first_entry first Hs Hmin Hparse.
    apply get_stats_ok_inv in Hs.
    destruct Hs as (_ & _ & _ & _ & avg & Havg & ->).
    unfold avg_pages in Havg. rewrite Hmin, Hparse in Havg.
    destruct (String.eqb_spec first_entry "") as [-> | _];
      [discriminate Hparse|].
    destruct (Z.leb_spec first today) as [Hle | Hgt].
    + replace (0 <? today - first + 1) with true in Havg
        by (symmetry; apply Z.ltb_lt; lia).
      injection Havg as <-. reflexivity.
    + replace (0 <? today - first + 1) with false in Havg
        by (symmetry; apply Z.ltb_ge; lia).
      injection Havg as <-. reflexivity.
  - intros today r Htoday Hdate Hpages.
    assert (Hvalid : valid_ordinal today) by (unfold valid_ordinal; lia).
    assert (Hvalid' : valid_ordinal (today - 1)) by (unfold valid_ordinal; lia).
    assert (Hstreak : exists k, calculate_reading_streak 2 [r] today = Ok k).
    { unfold calculate_reading_streak. cbn [streak_loop].
      unfold streak_step at 1, where_date_eq. cbn [filter].
      destruct (String.eqb_spec (date r) (strftime today)) as [Hfound | _];
        [|exists 0; reflexivity].
      assert (Hne : String.eqb (date r) (strftime (today - 1)) = false).
      { apply String.eqb_neq. rewrite Hfound. intros E.
        apply strftime_injective in E; [lia | assumption | assumption]. }
      unfold sum_pages_or_0, sql_sum. cbn [map fold_right]. rewrite Hpages.
      cbn [sum_step]. replace (0 <? 10) with true by reflexivity.
      unfold sub_days.
      replace (valid_ordinalb (today - 1)) with true
        by (symmetry; now apply valid_ordinalb_true).
      unfold streak_step, where_date_eq. cbn [filter].
      rewrite Hne. exists 1. reflexivity. }
    destruct Hstreak as [k Hstreak].
    assert (Htotal : forall rows, rows = [r] \/ rows = [] ->
              exists p, sum_pages_or_0 rows = Ok p /\ (rows = [r] -> p = 10)).
    { intros rows [-> | ->].
      - exists 10. unfold sum_pages_or_0, sql_sum. cbn [map fold_right].
        rewrite Hpages. split; reflexivity.
      - exists 0. split; [reflexivity | discriminate]. }
    assert (Hsince : forall start, exists p, pages_since [r] start = Ok p).
    { intros start. unfold pages_since, where_date_ge. cbn [filter].
      destruct (String.leb start (date r)).
      - destruct (Htotal [r] (or_introl eq_refl)) as (p & -> & _). eauto.
      - exists 0. reflexivity. }
    destruct (Hsince (strftime (today - weekday today))) as (week & Hweek).
    destruct (Hsince (month_start today)) as (month & Hmonth).
    destruct (Htotal [r] (or_introl eq_refl)) as (p & Hp & Hp10).
    specialize (Hp10 eq_refl). subst p.
    eexists. unfold get_stats, total_pages_query. rewrite Hp.
    cbn [Outcome.bind]. rewrite Hstreak. cbn [Outcome.bind].
    rewrite (week_start_ok today Hvalid). cbn [Outcome.bind].
    rewrite Hweek, Hmonth. cbn [Outcome.bind].
    unfold avg_pages, min_date. cbn [fold_right].
    rewrite Hdate, isoformat_not_empty, (strptime_isoformat today Hvalid).
    replace (today - today + 1) with 1 by lia.
    replace (0 <? 1) with true by reflexivity. cbn [Outcome.bind].
    split; [reflexivity|]. split; [reflexivity|].
    split; [reflexivity | vm_compute; reflexivity].
Qed.

Lemma avg_pages_per_day_spec_witness :
  exists s,
    get_stats 1 future_store 739193 = Ok s /\
    min_date future_store = Some "2024-11-05" /\
    strptime "2024-11-05" = Some 739195 /\
    avg_pages_per_day s
    = if 739195 <=? 739193
      then PyFloat (round1 (truediv (total_pages s) ((739193 - 739195) + 1)))
      else PyInt 0.
Proof.
  eexists. split; [reflexivity|]. split; [reflexivity|].
  split; [reflexivity|].
  apply (proj1 avg_pages_per_day_spec 1%nat future_store 739193 _
           "2024-11-05" 739195); reflexivity.
Defined.

(** ** Order of character strings *)

Section StringOrder.

Lemma ascii_compare_refl (c : ascii) : Ascii.compare c c = Eq.
Proof. unfold Ascii.compare. apply N.compare_refl. Qed.

Lemma ascii_compare_lt_trans (a b c : ascii) :
  Ascii.compare a b = Lt -> Ascii.compare b c = Lt -> Ascii.compare a c = Lt.
Proof.
  unfold Ascii.compare. rewrite !N.compare_lt_iff. apply N.lt_trans.
Qed.

Lemma string_compare_refl (s : string) : String.compare s s = Eq.
Proof.
  induction s as [|c s IH]; [reflexivity|].
  cbn. now rewrite ascii_compare_refl.
Qed.

Lemma string_compare_lt_trans (a : string) :
  forall b c,
    String.compare a b = Lt -> String.compare b c = Lt ->
    String.compare a c = Lt.
Proof.
  induction a as [|x a IH]; intros [|y b] [|z c]; cbn;
    try discriminate; try reflexivity.
  destruct (Ascii.compare x y) eqn:Exy; try discriminate;
    destruct (Ascii.compare y z) eqn:Eyz; try discriminate; intros H1 H2.
  - apply Ascii.compare_eq_iff in Exy, Eyz. subst.
    rewrite ascii_compare_refl. eapply IH; eassumption.
  - apply Ascii.compare_eq_iff in Exy. subst. now rewrite Eyz.
  - apply Ascii.compare_eq_iff in Eyz. subst. now rewrite Exy.
  - now rewrite (ascii_compare_lt_trans x y z).
Qed.

Lemma string_compare_gt_lt (a b : string) :
  String.compare a b = Gt <-> String.compare b a = Lt.
Proof.
  rewrite (String.compare_antisym b a).
  destruct (String.compare a b); cbn; split; congruence.
Qed.

Lemma string_compare_gt_trans (a b c : string) :
  String.compare a b = Gt -> String.compare b c = Gt ->
  String.compare a c = Gt.
Proof.
  rewrite !string_compare_gt_lt. intros H1 H2.
  eapply string_compare_lt_trans; eassumption.
Qed.

(** [String.leb a b] is [compare a b <> Gt]. *)
Lemma string_leb_iff (a b : string) :
  String.leb a b = true <-> String.compare a b <> Gt.
Proof.
  unfold String.leb. destruct (String.compare a b); split;
    congruence.
Qed.

Lemma string_not_lt_trans (a b c : string) :
  String.compare a b <> Lt -> String.compare b c <> Lt ->
  String.compare a c <> Lt.
Proof.
  intros H1 H2 H3.
  destruct (String.compare a b) eqn:Eab; [| now elim H1 |].
  - apply String.compare_eq_iff in Eab. subst. contradiction.
  - destruct (String.compare b c) eqn:Ebc; [| now elim H2 |].
    + apply String.compare_eq_iff in Ebc. subst. congruence.
    + pose proof (string_compare_gt_trans a b c Eab Ebc). congruence.
Qed.

End StringOrder.

(** ** [ORDER BY] and [LIMIT] *)

Section OrderByFacts.

Context {A : Type} (before : A -> A -> bool).

Lemma insert_sorted_perm (x : A) (l : list A) :
  Permutation (x :: l) (insert_sorted before x l).
Proof.
  induction l as [|y l IH]; [reflexivity|].
  cbn [insert_sorted]. destruct (before x y); [reflexivity|].
  rewrite perm_swap. now constructor.
Qed.

Lemma order_by_perm (l : list A) : Permutation l (order_by before l).
Proof.
  induction l as [|x l IH]; [reflexivity|].
  unfold order_by in *. cbn [fold_right].
  rewrite <- insert_sorted_perm. now constructor.
Qed.

Hypothesis before_total : forall x y, before x y = true \/ before y x = true.

Lemma insert_sorted_Sorted (x : A) (l : list A) :
  Sorted (precedes before) l -> Sorted (precedes before) (insert_sorted before x l).
Proof.
  induction 1 as [|y l Hl IH Hhd]; [repeat constructor|].
  cbn [insert_sorted]. destruct (before x y) eqn:Exy.
  - constructor; [now constructor | now constructor].
  - constructor; [exact IH|].
    assert (Hyx : precedes before y x) by (unfold precedes; destruct (before_total x y); congruence).
    destruct l as [|z l]; cbn [insert_sorted]; [now constructor|].
    destruct (before x z); constructor; [exact Hyx|].
    now inversion Hhd.
Qed.

Lemma order_by_Sorted (l : list A) : Sorted (precedes before) (order_by before l).
Proof.
  induction l as [|x l IH]; [constructor|].
  unfold order_by in *. cbn [fold_right]. now apply insert_sorted_Sorted.
Qed.

Hypothesis before_trans :
  forall x y z, before x y = true -> before y z = true -> before x z = true.

Lemma order_by_StronglySorted (l : list A) :
  StronglySorted (precedes before) (order_by before l).
Proof.
  apply Sorted_StronglySorted; [|apply order_by_Sorted].
  intros x y z. apply before_trans.
Qed.

End OrderByFacts.

Lemma length_limit {A : Type} (n : nat) (l : list A) :
  List.length (limit n l) = Nat.min n (List.length l).
Proof. apply length_firstn. Qed.

(** ** C6: recent sessions *)

Section Recent.

Lemma recent_before_iff (r1 r2 : row) :
  recent_before r1 r2 = true <-> recent_order r1 r2.
Proof.
  unfold recent_before, recent_order.
  destruct (String.compare (date r1) (date r2)) eqn:E.
  - apply String.compare_eq_iff in E. rewrite string_leb_iff.
    rewrite (String.compare_antisym (created_at r2) (created_at r1)).
    split.
    + intros H. right. split; [exact E|].
      destruct (String.compare (created_at r1) (created_at r2));
        cbn in *; congruence.
    + intros [H | [_ H]]; [discriminate|].
      destruct (String.compare (created_at r1) (created_at r2));
        cbn in *; congruence.
  - split; [discriminate|]. intros [H | [H _]]; [discriminate|].
    rewrite H, string_compare_refl in E. discriminate.
  - split; [now left | reflexivity].
Qed.

Lemma recent_before_total (r1 r2 : row) :
  recent_before r1 r2 = true \/ recent_before r2 r1 = true.
Proof.
  rewrite !recent_before_iff. unfold recent_order.
  destruct (String.compare (date r1) (date r2)) eqn:E.
  - apply String.compare_eq_iff in E.
    destruct (String.compare (created_at r1) (created_at r2)) eqn:Ec.
    + left. right. split; [exact E | discriminate].
    + right. right. split; [now symmetry|].
      rewrite String.compare_antisym, Ec. discriminate.
    + left. right. split; [exact E | discriminate].
  - right. left. now apply string_compare_gt_lt.
  - now left; left.
Qed.

Lemma recent_before_trans (r1 r2 r3 : row) :
  recent_before r1 r2 = true -> recent_before r2 r3 = true ->
  recent_before r1 r3 = true.
Proof.
  rewrite !recent_before_iff. unfold recent_order.
  intros [H12 | [E12 C12]] [H23 | [E23 C23]].
  - left. eapply string_compare_gt_trans; eassumption.
  - left. now rewrite <- E23.
  - left. now rewrite E12.
  - right. split; [congruence|].
    eapply string_not_lt_trans; eassumption.
Qed.

End Recent.

(** C6: [get_recent_sessions] returns at most 10 entries (10, or all the
    rows when fewer): the first entries of the table sorted by [date]
    descending with ties broken by [created_at] descending; each entry
    shows the stored date and pages, and its [book_title] is the stored
    title, an empty or absent one being shown as "Unspecified".  The
    endpoint only reads the table. *)
Theorem get_recent_sessions_spec (db : store) :
  (List.length (get_recent_sessions db) <= 10)%nat /\
  List.length (get_recent_sessions db) = Nat.min 10 (List.length db) /\
  (exists sorted,
     Permutation db sorted /\
     StronglySorted recent_order sorted /\
     get_recent_sessions db = map session_of_row (firstn 10 sorted)) /\
  (forall r,
     s_date (session_of_row r) = date r /\
     s_pages_read (session_of_row r) = pages_read r /\
     s_book_title (session_of_row r) = display_title r).
Proof.
  unfold get_recent_sessions, recent_rows.
  rewrite length_map, length_limit.
  rewrite <- (Permutation_length (order_by_perm recent_before db)).
  split; [lia|]. split; [reflexivity|]. split.
  - exists (order_by recent_before db). split; [apply order_by_perm|].
    split; [|reflexivity].
    pose proof (order_by_StronglySorted recent_before recent_before_total
                  recent_before_trans db) as Hs.
    induction Hs as [|r l Hl IH Hall]; constructor; [exact IH|].
    rewrite Forall_forall in *. intros x Hx.
    apply recent_before_iff. now apply Hall.
  - intros r. split; [reflexivity|]. split; [reflexivity|].
    unfold session_of_row, display_title, text_or. cbn.
    destruct (book_title r) as [[|c t]|]; reflexivity.
Qed.

(** ** C7: pages per book *)

Section Books.

Lemma existsb_eqb_In (k : string) (seen : list string) :
  existsb (String.eqb k) seen = true <-> In k seen.
Proof.
  rewrite existsb_exists. split.
  - intros (x & Hx & E). apply String.eqb_eq in E. now subst.
  - intros H. exists k. split; [exact H | apply String.eqb_refl].
Qed.

(** [GROUP BY]: one key for each title that occurs, none twice. *)
Lemma group_keys_spec (db : store) :
  forall seen,
    NoDup (group_keys seen db) /\
    forall k, In k (group_keys seen db) <->
              (~ In k seen /\ exists r, In r db /\ book r = k).
Proof.
  induction db as [|r db IH]; intros seen; cbn [group_keys].
  - split; [constructor|]. intros k. split; [intros []|].
    intros (_ & r & [] & _).
  - destruct (existsb (String.eqb (book r)) seen) eqn:E.
    + apply existsb_eqb_In in E. destruct (IH seen) as [Hnd Hin].
      split; [exact Hnd|]. intros k. rewrite Hin. split.
      * intros (Hk & r' & Hr' & <-). split; [exact Hk|].
        exists r'. split; [now right | reflexivity].
      * intros (Hk & r' & [<- | Hr'] & <-); [contradiction|].
        split; [exact Hk|]. now exists r'.
    + assert (Hnot : ~ In (book r) seen).
      { intros H. apply existsb_eqb_In in H. congruence. }
      destruct (IH (book r :: seen)) as [Hnd Hin]. split.
      * constructor; [|exact Hnd]. rewrite Hin. intros [H _].
        apply H. now left.
      * intros k. cbn [In]. rewrite Hin. cbn [In]. split.
        -- intros [<- | (Hk & r' & Hr' & <-)].
           ++ split; [exact Hnot|]. exists r. split; [now left | reflexivity].
           ++ split; [tauto|]. exists r'. split; [now right | reflexivity].
        -- intros (Hk & r' & [<- | Hr'] & <-); [now left|].
           destruct (string_dec (book r) (book r')) as [Eq | Ne];
             [now left | right].
           split; [tauto|]. now exists r'.
Qed.

Lemma group_by_book_int (db : store) (keys : list string) :
  int_store db ->
  group_by_book db keys = Ok (map (fun k => (k, book_pages db k)) keys).
Proof.
  intros Hint. induction keys as [|k keys IH]; [reflexivity|].
  cbn [group_by_book map]. unfold group_pages.
  rewrite sum_pages_or_0_int by (now apply int_store_filter).
  cbn [Outcome.bind]. rewrite IH. reflexivity.
Qed.

(** Whenever the grouping returns, each group carries the summed pages
    of its sessions. *)
Lemma group_by_book_ok_inv (db : store) (keys : list string) :
  forall groups,
    group_by_book db keys = Ok groups ->
    groups = map (fun k => (k, book_pages db k)) keys.
Proof.
  induction keys as [|k keys IH]; intros groups H.
  - injection H as <-. reflexivity.
  - cbn [group_by_book] in H. unfold group_pages, Outcome.bind in H.
    destruct (sum_pages_or_0 _) as [p| | |] eqn:Ep; try discriminate.
    destruct (group_by_book db keys) as [rest| | |]; try discriminate.
    injection H as <-. apply sum_pages_or_0_ok_inv in Ep.
    destruct Ep as [_ ->]. cbn [map]. f_equal. now apply IH.
Qed.

Lemma pages_before_total (g1 g2 : string * Z) :
  pages_before g1 g2 = true \/ pages_before g2 g1 = true.
Proof. unfold pages_before. rewrite !Z.leb_le. lia. Qed.

Lemma pages_before_trans (g1 g2 g3 : string * Z) :
  pages_before g1 g2 = true -> pages_before g2 g3 = true ->
  pages_before g1 g3 = true.
Proof. unfold pages_before. rewrite !Z.leb_le. lia. Qed.

End Books.

(** C7: in the per-book aggregation of [get_chart_data] a session
    whose stored title is empty and one whose title is NULL both fall
    under the single key "Unspecified"; whenever the query returns (it
    does over INTEGER cells) it has grouped the sessions by that key,
    one group for each key that occurs with the summed pages of its
    sessions, ordered the groups by summed pages descending and kept
    the first 10. *)
Theorem book_data_spec (db : store) :
  (forall r, book r = display_title r) /\
  (forall r, book_title r = None \/ book_title r = Some "" ->
             book r = "Unspecified") /\
  (int_store db -> exists result, book_data db = Ok result) /\
  (forall result,
     book_data db = Ok result ->
     exists groups sorted,
       NoDup (map fst groups) /\
       (forall k p, In (k, p) groups <->
                    ((exists r, In r db /\ display_title r = k) /\
                     p = book_pages db k)) /\
       Permutation groups sorted /\
       StronglySorted (fun g1 g2 => snd g2 <= snd g1) sorted /\
       result = firstn 10 sorted /\
       (List.length result <= 10)%nat).
Proof.
  split; [reflexivity|]. split.
  { intros r [H | H]; unfold book; rewrite H; reflexivity. }
  split.
  { intros Hint. unfold book_data.
    rewrite (group_by_book_int db _ Hint). cbn [Outcome.bind]. eauto. }
  intros result Hres. unfold book_data, Outcome.bind in Hres.
  destruct (group_by_book db (group_keys [] db)) as [groups| | |] eqn:Eg;
    try discriminate.
  assert (Hr : result = limit 10 (order_by pages_before groups))
    by congruence.
  subst result. clear Hres. apply group_by_book_ok_inv in Eg.
  destruct (group_keys_spec db []) as [Hnd Hin].
  exists groups, (order_by pages_before groups).
  assert (Hfst : map fst groups = group_keys [] db).
  { rewrite Eg, map_map. cbn. apply map_id. }
  split; [now rewrite Hfst|]. split; [|split; [|split; [|split]]].
  - intros k p. rewrite Eg, in_map_iff. split.
    + intros (k' & [= <- <-] & Hk). apply Hin in Hk.
      destruct Hk as (_ & r & Hr & E). split; [|reflexivity].
      now exists r.
    + intros ((r & Hr & E) & ->). exists k. split; [reflexivity|].
      apply Hin. split; [intros []|]. now exists r.
  - apply order_by_perm.
  - pose proof (order_by_StronglySorted pages_before pages_before_total
                  pages_before_trans groups) as Hs.
    induction Hs as [|g l Hl IH Hall]; constructor; [exact IH|].
    rewrite Forall_forall in *. intros x Hx.
    apply Z.leb_le. now apply Hall.
  - reflexivity.
  - rewrite length_limit. lia.
Qed.

Lemma book_data_spec_witness :
  (int_store negative_store ->
   exists result, book_data negative_store = Ok result) /\
  book_data negative_store = Ok [("Unspecified", -2)].
Proof.
  split; [|reflexivity].
  apply (book_data_spec negative_store).
Defined.

(** Four sessions: an empty title, a NULL title and two named books. *)
Lemma book_data_example :
  let session t n :=
    {| id := 0; date := "2024-11-03"; pages_read := Integer n;
       book_title := t; notes := None; reading_time := None;
       created_at := "2024-11-03 09:00:00" |} in
  book_data [session (Some "") 4; session (Some "Dune") 30;
             session None 5; session (Some "Emma") 9]
  = Ok [("Dune", 30); ("Unspecified", 9); ("Emma", 9)].
Proof. reflexivity. Qed.

(** ** C8: reading velocity *)

(** C8, as stated, fails, in three ways.  For three sessions of 1, 1
    and 2 pages dated today the endpoint returns 1.3, their average
    rounded to one decimal, and not their average 4/3; for a session
    dated two days after today, which is not within the trailing window,
    it returns the count 1 and not 0; and so it does for a session dated
    seven days before today, the day before the seven days that end
    today. *)
Lemma velocity_as_specified_fails :
  ~ velocity_as_specified thirds_store 739193 7 /\
  ~ velocity_as_specified future_store 739193 7 /\
  ~ velocity_as_specified week_old_store 739193 7.
Proof.
  split; [|split]; intros H; specialize (H _ eq_refl); vm_compute in H;
    destruct H as [H1 H2]; [discriminate H2 | discriminate H1 | discriminate H1].
Qed.

Lemma velocity_rows_int (db : store) (cutoff_date : string) :
  int_store (velocity_rows db cutoff_date) ->
  velocity_rows db cutoff_date = qualifying db cutoff_date.
Proof.
  unfold velocity_rows, qualifying.
  induction db as [|r db IH]; [reflexivity|]. cbn [filter].
  unfold pages at 1.
  destruct (String.leb cutoff_date (date r)); cbn [andb]; [|exact IH].
  destruct (pages_read r) as [z|t] eqn:Er; cbn [pages_positive].
  - destruct (0 <? z); [|exact IH].
    rewrite int_store_cons. intros [_ H]. f_equal. now apply IH.
  - rewrite int_store_cons. intros [[z Hz] _]. congruence.
Qed.

Lemma sub_days_ok_inv (d k c : Z) :
  sub_days d k = Ok c -> c = d - k /\ valid_ordinal c.
Proof.
  unfold sub_days. destruct (valid_ordinalb (d - k)) eqn:E; [|discriminate].
  intros [= <-]. split; [reflexivity|]. unfold valid_ordinalb in E.
  apply andb_true_iff in E. unfold valid_ordinal.
  rewrite !Z.leb_le in E. exact E.
Qed.

(** C8 (amended): whenever [get_reading_velocity] returns (it does over
    INTEGER cells, once the cutoff day [today - days] is a day of the
    calendar) it has counted the sessions with [pages_read > 0] whose
    date is not below the text of the cutoff day, and reports this count
    with the average of their pages rounded to one decimal,
    [round(avg or 0, 1)]; when no session qualifies it reports average 0
    and count 0.  For a cutoff day on or after 1000-01-01 a session
    dated YYYY-MM-DD qualifies exactly when its day is the cutoff day
    [today - days] or a later day, after today as well, and it has
    [pages_read > 0]. *)
Theorem get_reading_velocity_spec (db : store) (today days cutoff : Z) :
  sub_days today days = Ok cutoff ->
  let rows := qualifying db (strftime cutoff) in
  (int_store db -> exists v, get_reading_velocity db today days = Ok v) /\
  (forall v,
     get_reading_velocity db today days = Ok v ->
     v = velocity_of rows days /\
     (rows = [] -> avg_pages_per_session v = PyInt 0 /\ reading_days v = 0))
  /\
  (first_padded_day <= cutoff ->
   forall r d,
     valid_ordinal d -> date r = isoformat d ->
     (In r rows <-> In r db /\ cutoff <= d /\ 0 < pages r)).
Proof.
  intros Hcut rows. unfold get_reading_velocity. rewrite Hcut.
  cbn [Outcome.bind]. split; [|split].
  - intros Hint. unfold sql_avg.
    rewrite sql_sum_int by (apply int_store_filter; exact Hint).
    destruct (velocity_rows db (strftime cutoff)); cbn [Outcome.bind]; eauto.
  - intros v Hv.
    assert (Hint : int_store (velocity_rows db (strftime cutoff))).
    { apply sql_sum_not_real_inv. unfold sql_avg in Hv.
      destruct (sql_sum _); [discriminate | discriminate |].
      cbn in Hv. discriminate. }
    assert (E : v = velocity_of rows days).
    { unfold sql_avg in Hv. rewrite (sql_sum_int _ Hint) in Hv.
      rewrite (velocity_rows_int db _ Hint) in Hv. fold rows in Hv.
      destruct rows; cbn [Outcome.bind] in Hv; now injection Hv as <-. }
    split; [exact E|]. intros Hnil. rewrite E, Hnil. split; reflexivity.
  - intros Hpad r d Vd Hr. apply sub_days_ok_inv in Hcut.
    destruct Hcut as [_ [_ Hmax]].
    unfold rows, qualifying.
    rewrite filter_In, Hr, (strftime_leb_isoformat cutoff d (conj Hpad Hmax) Vd).
    rewrite andb_true_iff, Z.leb_le, Z.ltb_lt. tauto.
Qed.

Lemma get_reading_velocity_spec_witness :
  sub_days 739193 7 = Ok 739186 /\
  (int_store thirds_store ->
   exists v, get_reading_velocity thirds_store 739193 7 = Ok v).
Proof.
  assert (E : sub_days 739193 7 = Ok 739186) by reflexivity.
  split; [exact E|].
  exact (proj1 (get_reading_velocity_spec thirds_store 739193 7 739186 E)).
Defined.

(** The velocity of [thirds_store]: 1.3 over 3 sessions, where the
    average of the sessions is 4/3. *)
Lemma get_reading_velocity_example :
  get_reading_velocity thirds_store 739193 7
  = Ok {| avg_pages_per_session := PyFloat float_1_3;
          reading_days := 3; period_days := 7 |} /\
  truediv 4 3 = S754_finite false 6004799503160661 (-52) /\
  ~ float_is_ratio float_1_3 4 3.
Proof.
  split; [reflexivity|]. split; [reflexivity|].
  unfold float_is_ratio, float_1_3. cbn. lia.
Qed.

(** The velocity of [future_store] on 2024-11-03: its session, dated
    2024-11-05, is counted. *)
Lemma get_reading_velocity_future_example :
  get_reading_velocity future_store 739193 7
  = Ok {| avg_pages_per_session := PyFloat float_10;
          reading_days := 1; period_days := 7 |} /\
  in_window future_store 739193 7 = [].
Proof. split; vm_compute; reflexivity. Qed.

(** The velocity of [week_old_store] on 2024-11-03: the cutoff is
    2024-10-27, and the session of that day is counted. *)
Lemma get_reading_velocity_week_old_example :
  strftime (739193 - 7) = "2024-10-27" /\
  get_reading_velocity week_old_store 739193 7
  = Ok {| avg_pages_per_session := PyFloat float_10;
          reading_days := 1; period_days := 7 |} /\
  in_window week_old_store 739193 7 = [].
Proof. repeat split; vm_compute; reflexivity. Qed.

(** A window that reaches back to 0999-12-31: the cutoff is printed as
    999-12-31, which is above the text of every date of this
    millennium, and no session of [thirds_store] is counted. *)
Lemma get_reading_velocity_year_999_example :
  strftime (739193 - 374316) = "999-12-31" /\
  get_reading_velocity thirds_store 739193 374316
  = Ok {| avg_pages_per_session := PyInt 0;
          reading_days := 0; period_days := 374316 |}.
Proof. split; vm_compute; reflexivity. Qed.

(* ================================================================== *)
(** * Further properties of the code *)
(* ================================================================== *)

(** ** Integers as text *)

Section Decimal.

Lemma is_digit_digit_char (d : Z) : is_digit (digit_char d) = true.
Proof.
  unfold digit_char. destruct d as [|p|p]; try reflexivity.
  repeat (destruct p as [p|p|]; try reflexivity).
Qed.

Lemma digit_val_digit_char_mod (n : Z) :
  0 <= n -> digit_val (digit_char (n mod 10)) = Some (n mod 10).
Proof.
  intros Hn. apply digit_val_digit_char.
  Z.to_euclidean_division_equations. lia.
Qed.

Lemma pos_digits_all_digits (fuel : nat) :
  forall n acc,
    string_forall is_digit acc = true ->
    string_forall is_digit (pos_digits fuel n acc) = true.
Proof.
  induction fuel as [|fuel IH]; intros n acc Hacc; [exact Hacc|].
  cbn [pos_digits].
  assert (H : string_forall is_digit (String (digit_char (n mod 10)) acc)
              = true)
    by (cbn [string_forall]; now rewrite is_digit_digit_char).
  destruct (n <? 10); [exact H | now apply IH].
Qed.

(** Reading back the digits [pos_digits] writes, for SQLite and for
    Python's [int]. *)
Lemma digits_pos_digits (fuel : nat) :
  forall n acc,
    1 <= n < 2 ^ Z.of_nat fuel ->
    exists p, 0 < p /\
      (forall a seen,
         digits (pos_digits fuel n acc) a seen = digits acc (a * p + n) true)
      /\
      (forall a seen,
         int_digits (pos_digits fuel n acc) a seen
         = int_digits acc (a * p + n) true).
Proof.
  induction fuel as [|fuel IH]; intros n acc Hn.
  - change (2 ^ Z.of_nat 0) with 1 in Hn. lia.
  - cbn [pos_digits]. destruct (Z.ltb_spec n 10) as [Hlt | Hge].
    + exists 10. split; [lia|].
      split; intros a seen; cbn [digits int_digits];
        rewrite digit_val_digit_char_mod by lia;
        rewrite Z.mod_small by lia; reflexivity.
    + destruct (IH (n / 10) (String (digit_char (n mod 10)) acc))
        as (p & Hp & Hd & Hi).
      { rewrite Nat2Z.inj_succ, Z.pow_succ_r in Hn by lia.
        Z.to_euclidean_division_equations. lia. }
      exists (10 * p). split; [lia|].
      split; intros a seen; [rewrite Hd | rewrite Hi];
        cbn [digits int_digits];
        rewrite digit_val_digit_char_mod by lia;
        f_equal; Z.to_euclidean_division_equations; lia.
Qed.

Lemma log2_fuel (n : Z) : 1 <= n -> 1 <= n < 2 ^ Z.of_nat (S (Z.to_nat (Z.log2 n))).
Proof.
  intros Hn. split; [exact Hn|].
  pose proof (Z.log2_nonneg n).
  rewrite Nat2Z.inj_succ, Z2Nat.id by lia.
  apply Z.log2_spec. lia.
Qed.

(** A text without blanks is not changed by [strip]. *)
Lemma strip_no_space (sp : ascii -> bool) (s : string) :
  string_forall (fun c => negb (sp c)) s = true -> strip sp s = s.
Proof.
  intros H. unfold strip.
  assert (Hl : lstrip sp s = s).
  { destruct s as [|c s]; [reflexivity|]. cbn in *.
    apply andb_true_iff in H. destruct H as [Hc _].
    apply negb_true_iff in Hc. now rewrite Hc. }
  rewrite Hl. induction s as [|c s IH]; [reflexivity|].
  cbn [string_forall] in H. apply andb_true_iff in H. destruct H as [Hc Hs].
  apply negb_true_iff in Hc. cbn [rstrip].
  rewrite IH.
  - destruct s; [now rewrite Hc | reflexivity].
  - exact Hs.
  - destruct s as [|c' s]; [reflexivity|]. cbn in *.
    apply andb_true_iff in Hs. destruct Hs as [Hc' _].
    apply negb_true_iff in Hc'. now rewrite Hc'.
Qed.

Lemma string_forall_impl (p q : ascii -> bool) (s : string) :
  (forall c, p c = true -> q c = true) ->
  string_forall p s = true -> string_forall q s = true.
Proof.
  intros Hpq. induction s as [|c s IH]; [trivial|]. cbn [string_forall].
  rewrite !andb_true_iff. intros [Hc Hs]. split; [now apply Hpq | now apply IH].
Qed.

Lemma is_digit_cases (c : ascii) :
  is_digit c = true ->
  sqlite_isspace c = false /\ py_int_isspace c = false /\
  Ascii.eqb c "-" = false /\ Ascii.eqb c "+" = false /\
  Ascii.eqb c "_" = false.
Proof.
  destruct c as [[] [] [] [] [] [] [] []]; cbn; try discriminate;
    intros _; repeat split; reflexivity.
Qed.

(** The digits of a decimal spelling are no more than the fuel that
    wrote them. *)
Lemma count_digits_pos_digits (fuel : nat) :
  forall n acc,
    (count_digits (pos_digits fuel n acc) <= fuel + count_digits acc)%nat.
Proof.
  induction fuel as [|fuel IH]; intros n acc; [cbn; lia|].
  cbn [pos_digits].
  assert (H : (count_digits (String (digit_char (n mod 10)) acc)
               <= S (count_digits acc))%nat)
    by (cbn [count_digits]; destruct (digit_val _); lia).
  destruct (n <? 10); [cbn [Nat.add]; lia|].
  specialize (IH (n / 10) (String (digit_char (n mod 10)) acc)).
  cbn [Nat.add]. lia.
Qed.

Lemma log2_int64 (z : Z) : in_int64 z = true -> Z.log2 (Z.abs z) <= 63.
Proof.
  unfold in_int64. rewrite andb_true_iff, !Z.leb_le. intros [Hlo Hhi].
  destruct (Z.eq_dec z 0) as [-> | Hz]; [cbn; lia|].
  assert (Z.log2 (Z.abs z) < 64); [|lia].
  apply Z.log2_lt_pow2; [lia|].
  change (2 ^ 64) with 18446744073709551616. lia.
Qed.

(** The decimal spelling of a positive integer. *)
Lemma decimal_pos_shape (n : Z) :
  1 <= n ->
  exists c rest,
    pos_digits (S (Z.to_nat (Z.log2 n))) n EmptyString = String c rest /\
    is_digit c = true /\
    string_forall is_digit (String c rest) = true /\
    digits (String c rest) 0 false = Some n /\
    int_digits (String c rest) 0 false = Some n.
Proof.
  intros Hn.
  pose proof (pos_digits_all_digits (S (Z.to_nat (Z.log2 n))) n EmptyString
                eq_refl) as Hall.
  destruct (digits_pos_digits _ n EmptyString (log2_fuel n Hn))
    as (p & _ & Hd & Hi).
  specialize (Hd 0 false). specialize (Hi 0 false).
  cbn [digits int_digits] in Hd, Hi.
  replace (0 * p + n) with n in Hd, Hi by lia.
  destruct (pos_digits _ n EmptyString) as [|c rest] eqn:E;
    [discriminate Hd|].
  exists c, rest. split; [reflexivity|].
  cbn [string_forall] in Hall. pose proof Hall as Hall'.
  apply andb_true_iff in Hall'. destruct Hall' as [Hc _].
  repeat split; try assumption.
Qed.

(** A text that starts with a digit has no sign to take off. *)
Lemma unsigned_literal (c : ascii) (rest : string) :
  is_digit c = true ->
  strip sqlite_isspace (String c rest) = String c rest ->
  strip py_int_isspace (String c rest) = String c rest ->
  integer_literal (String c rest) = digits (String c rest) 0 false /\
  py_int (String c rest)
  = if (count_digits (String c rest) <=? int_max_str_digits)%nat
    then int_digits (String c rest) 0 false
    else None.
Proof.
  intros Hc Hs Hp. unfold integer_literal, py_int. rewrite Hs, Hp.
  clear Hs Hp.
  destruct (count_digits (String c rest) <=? int_max_str_digits)%nat;
    destruct c as [[] [] [] [] [] [] [] []]; try discriminate Hc;
    split; reflexivity.
Qed.

(** SQLite reads the decimal spelling of an integer as that integer,
    and so does Python's [int] for an integer of 64 bits. *)
Lemma integer_literal_decimal (z : Z) :
  integer_literal (decimal z) = Some z /\
  (in_int64 z = true -> py_int (decimal z) = Some z).
Proof.
  destruct z as [|p|p].
  - split; reflexivity.
  - destruct (decimal_pos_shape (Z.pos p) ltac:(lia))
      as (c & rest & E & Hc & Hall & Hd & Hi).
    pose proof (count_digits_pos_digits (S (Z.to_nat (Z.log2 (Z.pos p))))
                  (Z.pos p) EmptyString) as Hcount.
    unfold decimal. rewrite E in *.
    destruct (unsigned_literal c rest Hc) as [El Ep];
      try (apply strip_no_space;
           eapply string_forall_impl; [|exact Hall];
           intros c0 H0; apply is_digit_cases in H0;
           apply negb_true_iff; tauto).
    rewrite El, Ep. split; [assumption|]. intros Hin.
    apply log2_int64 in Hin. change (Z.abs (Z.pos p)) with (Z.pos p) in Hin.
    replace (count_digits (String c rest) <=? int_max_str_digits)%nat
      with true; [exact Hi|].
    symmetry. apply Nat.leb_le. unfold int_max_str_digits.
    change (count_digits EmptyString) with 0%nat in Hcount. lia.
  - destruct (decimal_pos_shape (Z.pos p) ltac:(lia))
      as (c & rest & E & Hc & Hall & Hd & Hi).
    pose proof (count_digits_pos_digits (S (Z.to_nat (Z.log2 (Z.pos p))))
                  (Z.pos p) EmptyString) as Hcount.
    unfold integer_literal, py_int, decimal.
    change (- Z.neg p) with (Z.pos p). rewrite E in *.
    assert (Hs : forall sp,
               (forall c0, is_digit c0 = true -> sp c0 = false) ->
               sp "-"%char = false ->
               strip sp (String "-" (String c rest))
               = String "-" (String c rest)).
    { intros sp Hsp Hminus. apply strip_no_space.
      change (negb (sp "-"%char)
              && string_forall (fun c0 => negb (sp c0)) (String c rest)
              = true).
      rewrite Hminus. cbn [negb andb].
      eapply string_forall_impl; [|exact Hall].
      intros c0 H0. apply negb_true_iff. now apply Hsp. }
    rewrite !Hs by (try reflexivity; intros c0 H0;
                    apply is_digit_cases in H0; tauto).
    rewrite Hd. split; [reflexivity|]. intros Hin.
    apply log2_int64 in Hin. change (Z.abs (Z.neg p)) with (Z.pos p) in Hin.
    change (count_digits (String "-" (String c rest)))
      with (count_digits (String c rest)).
    replace (count_digits (String c rest) <=? int_max_str_digits)%nat
      with true; [now rewrite Hi|].
    symmetry. apply Nat.leb_le. unfold int_max_str_digits.
    change (count_digits EmptyString) with 0%nat in Hcount. lia.
Qed.

End Decimal.

(** ** The write endpoint *)

Section WritePath.

Lemma next_id_gt (db : store) (r : row) : In r db -> id r < next_id db.
Proof.
  unfold next_id. induction db as [|x db IH]; [intros []|].
  cbn [fold_right]. intros [-> | H]; [lia|]. specialize (IH H). lia.
Qed.

Lemma ids_increasing_snoc (db : store) (r : row) :
  ids_increasing db -> id r = next_id db -> ids_increasing (db ++ [r]).
Proof.
  unfold ids_increasing. intros Hs Hr. rewrite map_app. cbn [map].
  assert (Hall : Forall (fun i => i < id r) (map id db)).
  { rewrite Forall_forall. intros i Hi. apply in_map_iff in Hi.
    destruct Hi as (x & <- & Hx). rewrite Hr. now apply next_id_gt. }
  induction Hs as [|i l Hl IH Hil]; cbn [app].
  - repeat constructor.
  - inversion Hall; subst. constructor; [now apply IH|].
    rewrite Forall_app. split; [exact Hil | now repeat constructor].
Qed.

(** A failure writes nothing. *)
Lemma log_reading_failure_inv (db db' : store) (now_ts : string)
    (data : json) (e : exn) :
  log_reading db now_ts data = Ok (db', Failure e) -> db' = db.
Proof.
  unfold log_reading.
  destruct (Outcome.bind _ _) as [[db0 sid]|e0| |]; try discriminate.
  now intros [= <- _].
Qed.

(** The [INSERT] stops at the first value that cannot be bound. *)
Lemma insert_session_bind_error (db : store) (now_ts : string)
    (vd vp vb vn vt : json) (e : exn) :
  first_bind_error 0 [vd; vp; vb; vn; vt] = Some e ->
  insert_session db now_ts vd vp vb vn vt = Raise e.
Proof.
  unfold insert_session. cbn [first_bind_error].
  destruct (bind_error 0 vd) as [e0|] eqn:E0;
    [intros [= <-]; now rewrite (bind_param_error 0 vd e0 E0)|].
  destruct (bind_param_ok 0 vd E0) as (c0 & -> & _). cbn [Outcome.bind].
  destruct (bind_error 1 vp) as [e1|] eqn:E1;
    [intros [= <-]; now rewrite (bind_param_error 1 vp e1 E1)|].
  destruct (bind_param_ok 1 vp E1) as (c1 & -> & _). cbn [Outcome.bind].
  destruct (bind_error 2 vb) as [e2|] eqn:E2;
    [intros [= <-]; now rewrite (bind_param_error 2 vb e2 E2)|].
  destruct (bind_param_ok 2 vb E2) as (c2 & -> & _). cbn [Outcome.bind].
  destruct (bind_error 3 vn) as [e3|] eqn:E3;
    [intros [= <-]; now rewrite (bind_param_error 3 vn e3 E3)|].
  destruct (bind_param_ok 3 vn E3) as (c3 & -> & _). cbn [Outcome.bind].
  destruct (bind_error 4 vt) as [e4|] eqn:E4;
    [intros [= <-]; now rewrite (bind_param_error 4 vt e4 E4)|].
  discriminate.
Qed.

(** INTEGER affinity on a value that does not go through floating
    point. *)
Lemma integer_affinity_plain (n : nat) (v : json) (c : value) :
  plain_integer_input v = true -> bind_param n v = Ok (Some c) ->
  exists c', integer_affinity c = Ok c'.
Proof.
  destruct v as [| b | z | t | |]; cbn; try discriminate.
  - intros _ [= <-]. cbn. eauto.
  - intros _. destruct (in_int64 z); [|discriminate].
    intros [= <-]. cbn. eauto.
  - intros Hp [= <-]. cbn.
    destruct (integer_literal t) as [z|].
    + rewrite Hp. eauto.
    + apply negb_true_iff in Hp. rewrite Hp. eauto.
Qed.

(** When every value can be bound, NOT NULL decides, [date] first. *)
Lemma insert_session_bound (db : store) (now_ts : string)
    (vd vp vb vn vt : json) :
  first_bind_error 0 [vd; vp; vb; vn; vt] = None ->
  match vd, vp with
  | JNull, _ =>
      insert_session db now_ts vd vp vb vn vt
      = Raise (IntegrityError "date")
  | _, JNull =>
      insert_session db now_ts vd vp vb vn vt
      = Raise (IntegrityError "pages_read")
  | _, _ =>
      plain_integer_input vp = true -> plain_integer_input vt = true ->
      exists r,
        insert_session db now_ts vd vp vb vn vt
        = Ok (db ++ [r], next_id db)
  end.
Proof.
  unfold insert_session. cbn [first_bind_error].
  destruct (bind_error 0 vd) eqn:E0; [discriminate|].
  destruct (bind_error 1 vp) eqn:E1; [discriminate|].
  destruct (bind_error 2 vb) eqn:E2; [discriminate|].
  destruct (bind_error 3 vn) eqn:E3; [discriminate|].
  destruct (bind_error 4 vt) eqn:E4; [discriminate|]. intros _.
  destruct (bind_param_ok 0 vd E0) as (c0 & B0 & N0).
  destruct (bind_param_ok 1 vp E1) as (c1 & B1 & N1).
  destruct (bind_param_ok 2 vb E2) as (c2 & B2 & _).
  destruct (bind_param_ok 3 vn E3) as (c3 & B3 & _).
  destruct (bind_param_ok 4 vt E4) as (c4 & B4 & _).
  assert (Hstore : forall cd cp,
            c0 = Some cd -> c1 = Some cp ->
            plain_integer_input vp = true -> plain_integer_input vt = true ->
            exists r,
              (p_date <- bind_param 0 vd ;;
               p_pages <- bind_param 1 vp ;;
               p_book <- bind_param 2 vb ;;
               p_notes <- bind_param 3 vn ;;
               p_time <- bind_param 4 vt ;;
               c_date <- not_null "date" p_date ;;
               c_pages <- not_null "pages_read" p_pages ;;
               pages <- integer_affinity c_pages ;;
               time <- nullable_integer p_time ;;
               Ok (db ++ [ {| id := next_id db;
                              date := text_affinity c_date;
                              pages_read := pages;
                              book_title := option_map text_affinity p_book;
                              notes := option_map text_affinity p_notes;
                              reading_time := time;
                              created_at := now_ts |} ], next_id db))
              = Ok (db ++ [r], next_id db)).
  { intros cd cp -> -> Pp Pt. rewrite B0, B1, B2, B3, B4.
    cbn [Outcome.bind not_null].
    destruct (integer_affinity_plain 1 vp cp Pp B1) as (pages & ->).
    cbn [Outcome.bind].
    destruct c4 as [ct|]; cbn [nullable_integer Outcome.bind].
    - destruct (integer_affinity_plain 4 vt ct Pt B4) as (time & ->).
      cbn [Outcome.bind]. eexists. reflexivity.
    - eexists. reflexivity. }
  destruct c0 as [cd|].
  - assert (Hd : vd <> JNull) by (intros E; apply N0 in E; discriminate).
    destruct c1 as [cp|].
    + assert (Hp : vp <> JNull) by (intros E; apply N1 in E; discriminate).
      destruct vd; try congruence; destruct vp; try congruence;
        intros Pp Pt; now apply (Hstore cd cp).
    + assert (Hp : vp = JNull) by (now apply N1). subst vp.
      rewrite B0, B1, B2, B3, B4. cbn [Outcome.bind not_null].
      destruct vd; try congruence; reflexivity.
  - assert (Hd : vd = JNull) by (now apply N0). subst vd.
    rewrite B0, B1, B2, B3, B4. reflexivity.
Qed.

Lemma insert_session_decimal (db : store) (now_ts : string)
    (vd vb vn vt : json) (z : Z) :
  in_int64 z = true ->
  insert_session db now_ts vd (JStr (decimal z)) vb vn vt
  = insert_session db now_ts vd (JInt z) vb vn vt.
Proof.
  intros Hz. unfold insert_session.
  destruct (bind_param 0 vd) as [pd| | |]; try reflexivity.
  cbn [Outcome.bind bind_param]. rewrite Hz. cbn [Outcome.bind].
  destruct (bind_param 2 vb) as [pb| | |]; try reflexivity.
  destruct (bind_param 3 vn) as [pn| | |]; try reflexivity.
  destruct (bind_param 4 vt) as [pt| | |]; try reflexivity.
  cbn [Outcome.bind]. destruct (not_null "date" pd); try reflexivity.
  cbn [Outcome.bind not_null integer_affinity].
  now rewrite (proj1 (integer_literal_decimal z)), Hz.
Qed.

End WritePath.

(** X1: [log_reading] is append-only.  A failure leaves the table as it
    was; a success appends one row to it, gives that row an id greater
    than every id of the table and returns this id as [session_id]; ids
    that grow with the order of insertion keep doing so. *)
Theorem log_reading_append_only (db db' : store) (now_ts : string)
    (data : json) (resp : log_response) :
  log_reading db now_ts data = Ok (db', resp) ->
  match resp with
  | Success sid =>
      exists r, db' = db ++ [r] /\ id r = sid /\ created_at r = now_ts /\
                forall r0, In r0 db -> id r0 < sid
  | Failure _ => db' = db
  end /\
  (ids_increasing db -> ids_increasing db').
Proof.
  intros H. destruct resp as [sid | e].
  - destruct (log_reading_success_inv _ _ _ _ _ H)
      as (_ & _ & _ & _ & r & _ & _ & _ & _ & -> & -> & Hid & _ & _ & Hts).
    split.
    + exists r. split; [reflexivity|]. split; [exact Hid|].
      split; [exact Hts|]. intros r0. apply next_id_gt.
    + intros Hinc. now apply ids_increasing_snoc.
  - apply log_reading_failure_inv in H. subst. split; [reflexivity | trivial].
Qed.

Lemma log_reading_append_only_witness :
  exists db',
    log_reading negative_store "2024-11-03 10:00:00" negative_request
    = Ok (db', Success 3) /\
    (ids_increasing negative_store -> ids_increasing db').
Proof.
  eexists. split; [reflexivity|].
  apply (log_reading_append_only negative_store _ "2024-11-03 10:00:00"
           negative_request (Success 3) eq_refl).
Defined.

(** X2: which request [log_reading] refuses, and how.  A body that is
    not an object fails with [TypeError]; a missing [date] with
    [KeyError 'date'], whatever else is missing; a missing [pages_read]
    with [KeyError 'pages_read'].  Then the five values are bound in
    order, optional members by their defaults, and the first that
    cannot be bound decides: a list or an object gives a binding error,
    an integer outside 64 bits [OverflowError].  When all are bound, a
    null [date] or, next, a null [pages_read] violates NOT NULL; any
    other request is stored, as long as [pages_read] and [reading_time]
    are no texts that spell a number other than an integer of 64 bits.
    No refused request writes. *)
Theorem log_reading_outcome (db : store) (now_ts : string) :
  (forall data,
     (forall members, data <> JObj members) ->
     log_reading db now_ts data = Ok (db, Failure TypeError)) /\
  (forall members,
     dict_get "date" members = None ->
     log_reading db now_ts (JObj members)
     = Ok (db, Failure (KeyError "date"))) /\
  (forall members vd,
     dict_get "date" members = Some vd ->
     dict_get "pages_read" members = None ->
     log_reading db now_ts (JObj members)
     = Ok (db, Failure (KeyError "pages_read"))) /\
  (forall members vd vp vb vn vt,
     dict_get "date" members = Some vd ->
     dict_get "pages_read" members = Some vp ->
     get (JObj members) "book_title" (JStr "") = Ok vb ->
     get (JObj members) "notes" (JStr "") = Ok vn ->
     get (JObj members) "reading_time" (JInt 0) = Ok vt ->
     (forall e,
        first_bind_error 0 [vd; vp; vb; vn; vt] = Some e ->
        log_reading db now_ts (JObj members) = Ok (db, Failure e)) /\
     (first_bind_error 0 [vd; vp; vb; vn; vt] = None ->
      match vd, vp with
      | JNull, _ =>
          log_reading db now_ts (JObj members)
          = Ok (db, Failure (IntegrityError "date"))
      | _, JNull =>
          log_reading db now_ts (JObj members)
          = Ok (db, Failure (IntegrityError "pages_read"))
      | _, _ =>
          plain_integer_input vp = true -> plain_integer_input vt = true ->
          exists r,
            log_reading db now_ts (JObj members)
            = Ok (db ++ [r], Success (next_id db))
      end)).
Proof.
  split; [|split; [|split]].
  - intros data Hdata. destruct data; try reflexivity.
    now elim (Hdata members).
  - intros members H. unfold log_reading, subscript. now rewrite H.
  - intros members vd Hd Hp. unfold log_reading, subscript.
    now rewrite Hd, Hp.
  - intros members vd vp vb vn vt Hd Hp Hb Hn Ht.
    destruct (log_reading_body db now_ts members vd vp Hd Hp)
      as (vb' & vn' & vt' & Hb' & Hn' & Ht' & E).
    assert (vb' = vb) by congruence. assert (vn' = vn) by congruence.
    assert (vt' = vt) by congruence. subst vb' vn' vt'.
    rewrite E. split.
    + intros e He. now rewrite (insert_session_bind_error _ _ _ _ _ _ _ e He).
    + intros Hnone.
      pose proof (insert_session_bound db now_ts vd vp vb vn vt Hnone) as Hb0.
      destruct vd; destruct vp; try (rewrite Hb0; reflexivity);
        intros Pp Pt; destruct (Hb0 Pp Pt) as (r & ->); now exists r.
Qed.

Lemma log_reading_outcome_witness :
  let members :=
    [("date", JStr "2024-11-03");
     ("pages_read", JInt 9223372036854775808)] in
  dict_get "date" members = Some (JStr "2024-11-03") /\
  dict_get "pages_read" members = Some (JInt 9223372036854775808) /\
  first_bind_error 0 [JStr "2024-11-03"; JInt 9223372036854775808;
                      JStr ""; JStr ""; JInt 0] = Some OverflowError /\
  log_reading negative_store "2024-11-03 10:00:00" (JObj members)
  = Ok (negative_store, Failure OverflowError).
Proof.
  intros members.
  split; [reflexivity|]. split; [reflexivity|]. split; [reflexivity|].
  exact (proj1 (proj2 (proj2 (proj2 (log_reading_outcome negative_store
                                       "2024-11-03 10:00:00")))
                  members _ _ _ _ _ eq_refl eq_refl eq_refl eq_refl eq_refl)
           OverflowError eq_refl).
Defined.

(** X3: a page count sent as the decimal text of an integer of 64 bits
    is stored as that integer: the request with [pages_read] the string
    spelling [z] leaves the same table and gets the same response as the
    request with the integer [z].  (Outside 64 bits the integer is
    refused with [OverflowError].) *)
Theorem log_reading_numeric_text (db : store) (now_ts : string)
    (members : list (string * json)) (z : Z) :
  dict_get "pages_read" members = None ->
  (in_int64 z = true ->
   log_reading db now_ts (JObj (("pages_read", JStr (decimal z)) :: members))
   = log_reading db now_ts (JObj (("pages_read", JInt z) :: members))) /\
  (in_int64 z = false ->
   forall vd,
     dict_get "date" members = Some vd -> bind_error 0 vd = None ->
     log_reading db now_ts (JObj (("pages_read", JInt z) :: members))
     = Ok (db, Failure OverflowError)).
Proof.
  intros H.
  assert (Hget : forall v key,
            key <> "pages_read" ->
            dict_get key (("pages_read", v) :: members) = dict_get key members).
  { intros v key Hk. cbn [dict_get].
    destruct (dict_get key members); [reflexivity|].
    replace (String.eqb "pages_read" key) with false; [reflexivity|].
    symmetry. apply String.eqb_neq. congruence. }
  assert (Hpages : forall v,
            dict_get "pages_read" (("pages_read", v) :: members) = Some v).
  { intros v. cbn [dict_get]. rewrite H. reflexivity. }
  split.
  - intros Hz. unfold log_reading, subscript, get.
    rewrite !Hpages, !Hget by discriminate.
    destruct (dict_get "date" members) as [vd|]; [|reflexivity].
    destruct (dict_get "book_title" members), (dict_get "notes" members),
      (dict_get "reading_time" members);
      cbn [Outcome.bind]; now rewrite insert_session_decimal.
  - intros Hz vd Hd Bd.
    assert (Hd' : dict_get "date" (("pages_read", JInt z) :: members) = Some vd)
      by (rewrite Hget; [exact Hd | discriminate]).
    destruct (log_reading_body db now_ts _ vd (JInt z) Hd' (Hpages _))
      as (vb & vn & vt & _ & _ & _ & ->).
    rewrite (insert_session_bind_error _ _ _ _ _ _ _ OverflowError);
      [reflexivity|].
    cbn [first_bind_error]. rewrite Bd. cbn [bind_error]. now rewrite Hz.
Qed.

Lemma log_reading_numeric_text_witness :
  dict_get "pages_read" [("date", JStr "2024-11-03")] = None /\
  in_int64 42 = true /\
  log_reading [] "2024-11-03 10:00:00"
    (JObj [("pages_read", JStr (decimal 42)); ("date", JStr "2024-11-03")])
  = log_reading [] "2024-11-03 10:00:00"
      (JObj [("pages_read", JInt 42); ("date", JStr "2024-11-03")]).
Proof.
  split; [reflexivity|]. split; [reflexivity|].
  exact (proj1 (log_reading_numeric_text [] "2024-11-03 10:00:00"
                  [("date", JStr "2024-11-03")] 42 eq_refl) eq_refl).
Defined.

(** ** The command line *)

(** X4: the two entry paths write the same row.  For a date, a title
    and notes that [strip] leaves as they are, the date not empty, the
    command line fed with them and the decimal spelling of an integer
    [n] of 64 bits leaves the table that the write endpoint leaves for
    the same four values. *)
Theorem cli_matches_endpoint (db : store) (today : Z) (now_ts : string)
    (d b nt : string) (n : Z) (rest : list string) :
  strip py_isspace d = d -> d <> "" ->
  strip py_isspace b = b -> strip py_isspace nt = nt ->
  in_int64 n = true ->
  exists db',
    cli_log_reading db today now_ts (d :: decimal n :: b :: nt :: rest)
    = Ok (db', Logged n d) /\
    log_reading db now_ts
      (JObj [("date", JStr d); ("pages_read", JInt n);
             ("book_title", JStr b); ("notes", JStr nt)])
    = Ok (db', Success (next_id db)).
Proof.
  intros Hd Hne Hb Hn Hz. unfold cli_log_reading, input.
  cbn [Outcome.bind]. rewrite Hd, Hb, Hn.
  rewrite (proj2 (integer_literal_decimal n) Hz).
  replace (String.eqb d "") with false
    by (symmetry; now apply String.eqb_neq).
  unfold cli_insert. rewrite Hz. cbn [Outcome.bind].
  eexists. split; [reflexivity|].
  unfold log_reading, subscript, get, insert_session. cbn [dict_get].
  cbn [String.eqb Ascii.eqb Bool.eqb Outcome.bind bind_param].
  rewrite Hz. reflexivity.
Qed.

Lemma cli_matches_endpoint_witness :
  exists db',
    cli_log_reading [] 739193 "2024-11-03 10:00:00"
      ["2024-11-02"; decimal 12; "Dune"; "chapter 3"]
    = Ok (db', Logged 12 "2024-11-02") /\
    log_reading [] "2024-11-03 10:00:00"
      (JObj [("date", JStr "2024-11-02"); ("pages_read", JInt 12);
             ("book_title", JStr "Dune"); ("notes", JStr "chapter 3")])
    = Ok (db', Success (next_id [])).
Proof.
  apply (cli_matches_endpoint [] 739193 "2024-11-03 10:00:00"
           "2024-11-02" "Dune" "chapter 3" 12 []);
    try reflexivity; discriminate.
Defined.

(** X5: what [cli_log_reading] does with its input.  At the end of the
    input the first prompt raises [EOFError], which nothing catches,
    while a later prompt is answered by the message of the error; a
    pages line that [int] does not read gives the invalid-input message
    and an integer outside 64 bits the message of the [OverflowError];
    nothing is written in these cases.  With four lines and an integer
    [n] of 64 bits the command appends one session of [n] pages, dated
    today when the date line is blank and with the stripped date line
    otherwise. *)
Theorem cli_log_reading_outcome (db : store) (today : Z) (now_ts : string) :
  cli_log_reading db today now_ts [] = Raise EOFError /\
  (forall l1, cli_log_reading db today now_ts [l1] = Ok (db, Error EOFError)) /\
  (forall l1 l2 rest,
     py_int l2 = None ->
     cli_log_reading db today now_ts (l1 :: l2 :: rest) = Ok (db, InvalidInput))
  /\
  (forall l1 l2 n,
     py_int l2 = Some n ->
     cli_log_reading db today now_ts [l1; l2] = Ok (db, Error EOFError) /\
     forall l3,
       cli_log_reading db today now_ts [l1; l2; l3] = Ok (db, Error EOFError))
  /\
  (forall l1 l2 l3 l4 rest n,
     py_int l2 = Some n -> in_int64 n = false ->
     cli_log_reading db today now_ts (l1 :: l2 :: l3 :: l4 :: rest)
     = Ok (db, Error OverflowError))
  /\
  (forall l1 l2 l3 l4 rest n,
     py_int l2 = Some n -> in_int64 n = true ->
     exists r,
       cli_log_reading db today now_ts (l1 :: l2 :: l3 :: l4 :: rest)
       = Ok (db ++ [r], Logged n (date r)) /\
       date r = (if String.eqb (strip py_isspace l1) ""
                 then strftime today else strip py_isspace l1) /\
       pages_read r = Integer n /\
       book_title r = Some (strip py_isspace l3) /\
       notes r = Some (strip py_isspace l4) /\
       reading_time r = Some (Integer 0) /\
       id r = next_id db /\ created_at r = now_ts).
Proof.
  unfold cli_log_reading, input.
  split; [reflexivity|]. split; [reflexivity|]. split; [|split; [|split]].
  - intros l1 l2 rest H. cbn [Outcome.bind]. now rewrite H.
  - intros l1 l2 n H. cbn [Outcome.bind]. rewrite H. split; reflexivity.
  - intros l1 l2 l3 l4 rest n H Hz. cbn [Outcome.bind]. rewrite H.
    unfold cli_insert. rewrite Hz. reflexivity.
  - intros l1 l2 l3 l4 rest n H Hz. cbn [Outcome.bind]. rewrite H.
    unfold cli_insert. rewrite Hz. cbn [Outcome.bind].
    match goal with |- context [db ++ [?x]] => exists x end.
    split; [reflexivity|]. cbn. repeat split; reflexivity.
Qed.

Lemma cli_log_reading_outcome_witness :
  py_int "9223372036854775808" = Some 9223372036854775808 /\
  in_int64 9223372036854775808 = false /\
  cli_log_reading negative_store 739193 "2024-11-03 10:00:00"
    [""; "9223372036854775808"; "Dune"; ""]
  = Ok (negative_store, Error OverflowError).
Proof.
  assert (P : py_int "9223372036854775808" = Some 9223372036854775808)
    by (vm_compute; reflexivity).
  split; [exact P|]. split; [reflexivity|].
  exact (proj1 (proj2 (proj2 (proj2 (proj2
           (cli_log_reading_outcome negative_store 739193
              "2024-11-03 10:00:00")))))
           "" "9223372036854775808" "Dune" "" [] _ P eq_refl).
Defined.

(** The separators 28 to 31, which [str.strip] takes off, are no blanks
    for [int]. *)
Lemma cli_log_reading_separator_example :
  let line := String (ascii_of_nat 28) "7" in
  strip py_isspace line = "7" /\ py_int line = None /\
  cli_log_reading negative_store 739193 "2024-11-03 10:00:00"
    [""; line; "Dune"; ""]
  = Ok (negative_store, InvalidInput).
Proof. repeat split; vm_compute; reflexivity. Qed.

(** ** More on the streak *)

Section StreakAnyCells.

Variable db : store.

(** One pass of the loop, whatever the cells hold. *)
Lemma streak_step_cases (d s : Z) :
  match streak_step db d s with
  | Running d' s' =>
      d' = d - 1 /\ s' = s + 1 /\ 0 < found_pages db d /\ valid_ordinal (d - 1)
  | Done (Ok n) => n = s /\ found_pages db d <= 0
  | Done (Raise e) =>
      e = OverflowError /\ 0 < found_pages db d /\ ~ valid_ordinal (d - 1)
  | Done FloatPath => True
  | Done OutOfFuel => False
  end.
Proof.
  unfold streak_step, sub_days.
  destruct (sum_pages_or_0 _) as [p| | |] eqn:Ep.
  - apply sum_pages_or_0_ok_inv in Ep. destruct Ep as [_ ->].
    fold (found_pages db d).
    destruct (Z.ltb_spec 0 (found_pages db d)); [|split; [reflexivity | lia]].
    destruct (valid_ordinalb (d - 1)) eqn:Ev.
    + apply valid_ordinalb_true in Ev. repeat split; try lia; apply Ev.
    + split; [reflexivity|]. split; [assumption|].
      intros Hv. apply valid_ordinalb_true in Hv. congruence.
  - unfold sum_pages_or_0 in Ep. destruct (sql_sum _); discriminate.
  - exact I.
  - unfold sum_pages_or_0 in Ep. destruct (sql_sum _); discriminate.
Qed.

Lemma streak_loop_ok_days (fuel : nat) :
  forall d s n,
    streak_loop fuel db d s = Ok n ->
    exists k : nat,
      n = s + Z.of_nat k /\
      (forall i, 0 <= i < Z.of_nat k ->
                 0 < found_pages db (d - i) /\ valid_ordinal (d - i - 1)) /\
      found_pages db (d - Z.of_nat k) <= 0.
Proof.
  induction fuel as [|fuel IH]; intros d s n H; [discriminate|].
  cbn [streak_loop] in H. pose proof (streak_step_cases d s) as Hc.
  destruct (streak_step db d s) as [d' s' | r].
  - destruct Hc as (-> & -> & Hpos & Hv).
    destruct (IH _ _ _ H) as (k & -> & Hall & Hz).
    exists (S k). split; [lia|]. split.
    + intros i Hi. destruct (Z.eq_dec i 0) as [-> | Hne].
      * replace (d - 0) with d by lia. split; assumption.
      * replace (d - i) with (d - 1 - (i - 1)) by lia. apply Hall. lia.
    + replace (d - Z.of_nat (S k)) with (d - 1 - Z.of_nat k) by lia. exact Hz.
  - subst r. destruct Hc as [-> Hz]. exists 0%nat. split; [lia|].
    split; [intros i Hi; lia|]. now replace (d - Z.of_nat 0) with d by lia.
Qed.

(** The walk reads the table through the rows of the days it passes. *)
Lemma streak_loop_ext (db2 : store) (fuel : nat) :
  forall d s,
    (forall d', 1 <= d' <= d ->
       where_date_eq (strftime d') db = where_date_eq (strftime d') db2) ->
    1 <= d ->
    streak_loop fuel db d s = streak_loop fuel db2 d s.
Proof.
  induction fuel as [|fuel IH]; intros d s Hext Hd; [reflexivity|].
  cbn [streak_loop]. unfold streak_step. rewrite (Hext d ltac:(lia)).
  destruct (sum_pages_or_0 _) as [p| | |]; try reflexivity.
  destruct (0 <? p); [|reflexivity]. unfold sub_days.
  destruct (valid_ordinalb (d - 1)) eqn:Ev; [|reflexivity].
  apply valid_ordinalb_true in Ev. unfold valid_ordinal in Ev.
  apply IH; [|lia]. intros d' Hd'. apply Hext. lia.
Qed.

End StreakAnyCells.

(** X6: the streak never exceeds the number of stored sessions: each of
    its days has a session of its own. *)
Theorem streak_at_most_sessions (fuel : nat) (db : store) (today n : Z) :
  valid_ordinal today ->
  calculate_reading_streak fuel db today = Ok n ->
  0 <= n <= Z.of_nat (List.length db).
Proof.
  intros Htoday H. unfold calculate_reading_streak in H.
  destruct (streak_loop_ok_days db fuel today 0 n H) as (k & -> & Hall & _).
  split; [lia|]. cbn [Z.add].
  destruct (Z.le_gt_cases (Z.of_nat k) (Z.of_nat (List.length db)))
    as [Hle | Hgt]; [exact Hle | exfalso].
  assert (Hk : Z.of_nat k <= today).
  { destruct (Hall (Z.of_nat k - 1) ltac:(lia)) as [_ Hv].
    unfold valid_ordinal in Hv. lia. }
  destruct (days_back_facts today (List.length db) ltac:(lia)
              ltac:(unfold valid_ordinal in Htoday; lia))
    as (Hnd & Hvalid & Hl & Hrange).
  destruct (free_day db _ Hnd Hvalid ltac:(lia)) as (d & Hd & Hfree).
  specialize (Hrange d Hd).
  destruct (Hall (today - d) ltac:(lia)) as [Hpos _].
  replace (today - (today - d)) with d in Hpos by lia.
  unfold found_pages in Hpos. rewrite Hfree in Hpos. cbn in Hpos. lia.
Qed.

Lemma streak_at_most_sessions_witness :
  valid_ordinal 739193 /\
  calculate_reading_streak 2 negative_store 739193 = Ok 1 /\
  0 <= 1 <= Z.of_nat (List.length negative_store).
Proof.
  split; [unfold valid_ordinal, MAXORDINAL; lia|]. split; [reflexivity|].
  apply (streak_at_most_sessions 2 negative_store 739193 1);
    [unfold valid_ordinal, MAXORDINAL; lia | reflexivity].
Defined.

Lemma date_char_digit_char (d : Z) : date_char (digit_char d) = true.
Proof. unfold date_char. now rewrite is_digit_digit_char. Qed.

(** The program prints a day with digits and dashes only. *)
Lemma strftime_date_chars (d : Z) :
  string_forall date_char (strftime d) = true.
Proof.
  unfold strftime, year_text, pad4, pad2.
  destruct (_ord2ymd d) as [[y m] dd].
  destruct (y <? 10); [|destruct (y <? 100); [|destruct (y <? 1000)]];
    cbn [string_forall]; rewrite !date_char_digit_char; reflexivity.
Qed.

(** X7: a session dated after today (as the specification writes that
    day, or as the program prints it), or whose date has a character
    that is neither a digit nor a dash, does not change the streak: the
    walk never looks such a date up. *)
Theorem streak_ignores_other_days (db : store) (r : row) (today : Z) :
  valid_ordinal today ->
  (exists f, today < f <= MAXORDINAL /\
             (date r = isoformat f \/ date r = strftime f))
  \/ string_forall date_char (date r) = false ->
  forall fuel,
    calculate_reading_streak fuel (db ++ [r]) today
    = calculate_reading_streak fuel db today.
Proof.
  intros Htoday Hr fuel. unfold calculate_reading_streak.
  apply streak_loop_ext; [|apply Htoday].
  intros d Hd. unfold where_date_eq. rewrite filter_app. cbn [filter].
  assert (Hv : valid_ordinal d) by (unfold valid_ordinal in *; lia).
  replace (String.eqb (date r) (strftime d)) with false;
    [now rewrite app_nil_r|].
  symmetry. apply String.eqb_neq. intros E.
  destruct Hr as [(f & Hf & [Ef | Ef]) | Hchars].
  - rewrite Ef in E. symmetry in E. apply strftime_eq_isoformat in E;
      [lia | exact Hv | unfold valid_ordinal in *; lia].
  - rewrite Ef in E. apply strftime_injective in E;
      [lia | unfold valid_ordinal in *; lia | exact Hv].
  - rewrite E, strftime_date_chars in Hchars. discriminate.
Qed.

Lemma streak_ignores_other_days_witness :
  valid_ordinal 739193 /\
  string_forall date_char "03/11/2024" = false /\
  forall fuel,
    calculate_reading_streak fuel
      (negative_store
       ++ [ {| id := 3; date := "03/11/2024"; pages_read := Integer 40;
               book_title := None; notes := None; reading_time := None;
               created_at := "2024-11-03 10:00:00" |} ]) 739193
    = calculate_reading_streak fuel negative_store 739193.
Proof.
  split; [unfold valid_ordinal, MAXORDINAL; lia|]. split; [reflexivity|].
  apply (streak_ignores_other_days negative_store _ 739193).
  - unfold valid_ordinal, MAXORDINAL. lia.
  - right. reflexivity.
Defined.

(** A date with a year of three digits is one that the walk looks up:
    appended to [year_999_store] it makes the streak of 1000-01-01 go
    on to the day before. *)
Lemma streak_year_999_example :
  calculate_reading_streak 3
    (year_999_store
     ++ [ {| id := 3; date := "999-12-31"; pages_read := Integer 1;
             book_title := None; notes := None; reading_time := None;
             created_at := "2024-11-03 10:00:00" |} ]) 364878
  = Ok 2 /\
  calculate_reading_streak 3 year_999_store 364878 = Ok 1 /\
  strptime "999-12-31" = None.
Proof. repeat split; vm_compute; reflexivity. Qed.

(** ** Ranges of dates *)

Section Ranges.

Lemma ymd2ord_injective (t1 t2 : Z * Z * Z) :
  valid_ymd t1 -> valid_ymd t2 ->
  (let '(y, m, d) := t1 in _ymd2ord y m d)
  = (let '(y, m, d) := t2 in _ymd2ord y m d) ->
  t1 = t2.
Proof.
  intros V1 V2 E. destruct (ymd_compare t1 t2) eqn:C.
  - now apply ymd_compare_eq.
  - pose proof (ymd2ord_lt t1 t2 V1 V2 C). lia.
  - assert (C' : ymd_compare t2 t1 = Lt)
      by (rewrite ymd_compare_antisym, C; reflexivity).
    pose proof (ymd2ord_lt t2 t1 V2 V1 C'). lia.
Qed.

Lemma days_before_month_nonneg (y m : Z) :
  1 <= m <= 12 -> 0 <= _days_before_month y m.
Proof.
  intros Hm. unfold _days_before_month.
  assert (Hc : m = 1 \/ m = 2 \/ m = 3 \/ m = 4 \/ m = 5 \/ m = 6 \/ m = 7
               \/ m = 8 \/ m = 9 \/ m = 10 \/ m = 11 \/ m = 12) by lia.
  repeat (destruct Hc as [-> | Hc]); try subst m;
    destruct (_is_leap y); cbn; lia.
Qed.

Lemma days_before_year_nonneg (y : Z) : 1 <= y -> 0 <= _days_before_year y.
Proof.
  intros Hy. unfold _days_before_year. cbv zeta.
  Z.to_euclidean_division_equations. lia.
Qed.

(** [replace(day=1)] is the first day of the same month. *)
Lemma replace_day1_spec (today : Z) :
  valid_ordinal today ->
  exists y m d,
    _ord2ymd today = (y, m, d) /\
    replace_day1 today = today - d + 1 /\
    1 <= d /\
    valid_ordinal (replace_day1 today) /\
    _ord2ymd (replace_day1 today) = (y, m, 1).
Proof.
  intros [Hlo Hhi].
  destruct (ord2ymd_correct today Hlo) as (y & m & d & E & Hy & Hm & Hd & O).
  exists y, m, d. split; [exact E|].
  assert (R : replace_day1 today = today - d + 1).
  { unfold replace_day1. rewrite E. unfold _ymd2ord in *. lia. }
  pose proof (days_before_month_nonneg y m Hm).
  pose proof (days_before_year_nonneg y Hy).
  assert (V : valid_ordinal (replace_day1 today)).
  { rewrite R. unfold valid_ordinal, _ymd2ord in *. lia. }
  split; [exact R|]. split; [lia|]. split; [exact V|].
  destruct (ord2ymd_valid (replace_day1 today) (proj1 V)) as [V' E'].
  apply ymd2ord_injective; [exact V' | split; [lia | split; lia] |].
  rewrite E'. unfold replace_day1. now rewrite E.
Qed.

Lemma week_start_day (today : Z) :
  valid_ordinal today ->
  valid_ordinal (today - weekday today) /\
  weekday (today - weekday today) = 0 /\
  today - 6 <= today - weekday today <= today.
Proof.
  unfold valid_ordinal, weekday. intros H.
  repeat split; Z.to_euclidean_division_equations; lia.
Qed.

Lemma sum_pages_filter_bounds (p : row -> bool) (rows : list row) :
  pages_nonneg rows ->
  0 <= sum_pages (filter p rows) <= sum_pages rows.
Proof.
  induction 1 as [|r rows (z & Hz & Hpos) _ IH]; [cbn; lia|].
  cbn [filter]. rewrite sum_pages_cons.
  assert (Hr : pages r = z) by (unfold pages; now rewrite Hz).
  destruct (p r); [rewrite sum_pages_cons|]; lia.
Qed.

(** Texts that start alike compare as what follows. *)
Lemma string_compare_append (p a b : string) :
  String.compare (String.append p a) (String.append p b) = String.compare a b.
Proof.
  induction p as [|c p IH]; [reflexivity|].
  cbn [String.append String.compare]. now rewrite ascii_compare_refl.
Qed.

Lemma year_text_append (y : Z) (rest : string) :
  year_text y rest = String.append (year_text y EmptyString) rest.
Proof.
  unfold year_text, pad4, pad2.
  destruct (y <? 10); [|destruct (y <? 100); [|destruct (y <? 1000)]];
    reflexivity.
Qed.

(** The first day of the month is printed with the year and the month
    of today: its text is not above the text of today, in any year. *)
Lemma month_start_leb (today : Z) :
  valid_ordinal today ->
  String.leb (month_start today) (strftime today) = true.
Proof.
  intros Htoday.
  destruct (replace_day1_spec today Htoday)
    as (y & m & d & E & _ & Hd & _ & E').
  destruct (ord2ymd_in_calendar today Htoday)
    as (y0 & m0 & d0 & E0 & _ & Hm & _ & H31 & _).
  rewrite E in E0. injection E0 as <- <- <-.
  unfold month_start, strftime. rewrite E, E'.
  rewrite (year_text_append y (String "-" (pad2 m (String "-" (pad2 1 EmptyString))))),
    (year_text_append y (String "-" (pad2 m (String "-" (pad2 d EmptyString))))).
  unfold String.leb. rewrite string_compare_append.
  cbn [String.compare]. change (Ascii.compare "-" "-") with Eq. cbv iota.
  rewrite compare_pad2, Z.compare_refl by lia.
  cbn [String.compare]. change (Ascii.compare "-" "-") with Eq. cbv iota.
  rewrite compare_pad2 by lia.
  destruct (Z.compare_spec 1 d); [reflexivity | reflexivity | lia].
Qed.

End Ranges.

(** X8: the text comparison of the range queries is the comparison of
    days, for a cutoff on or after 1000-01-01: among the sessions whose
    date is written YYYY-MM-DD, [WHERE date >= ?] with the text that the
    program prints for day [c] selects those dated on day [c] or later,
    and so does the selection of the velocity. *)
Theorem range_query_is_calendar_order (db : store) (r : row) (c d : Z) :
  first_padded_day <= c <= MAXORDINAL -> valid_ordinal d ->
  date r = isoformat d ->
  (In r (where_date_ge (strftime c) db) <-> In r db /\ c <= d) /\
  (In r (velocity_rows db (strftime c)) <->
   In r db /\ c <= d /\ pages_positive (pages_read r) = true).
Proof.
  intros Vc Vd Hr. unfold where_date_ge, velocity_rows.
  rewrite !filter_In, Hr, (strftime_leb_isoformat c d Vc Vd), andb_true_iff,
    Z.leb_le.
  tauto.
Qed.

Lemma range_query_is_calendar_order_witness :
  let r := {| id := 1; date := "2024-11-03"; pages_read := Integer 3;
              book_title := Some ""; notes := Some "";
              reading_time := Some (Integer 0);
              created_at := "2024-11-03 09:00:00" |} in
  first_padded_day <= 739192 <= MAXORDINAL /\ valid_ordinal 739193 /\
  date r = isoformat 739193 /\
  In r negative_store /\
  (In r (where_date_ge (strftime 739192) negative_store)
   <-> In r negative_store /\ 739192 <= 739193).
Proof.
  intros r.
  assert (V1 : first_padded_day <= 739192 <= MAXORDINAL)
    by (unfold first_padded_day, MAXORDINAL; lia).
  assert (V2 : valid_ordinal 739193)
    by (unfold valid_ordinal, MAXORDINAL; lia).
  assert (E : date r = isoformat 739193) by (vm_compute; reflexivity).
  split; [exact V1|]. split; [exact V2|]. split; [exact E|].
  split; [left; reflexivity|].
  exact (proj1 (range_query_is_calendar_order negative_store r
                  739192 739193 V1 V2 E)).
Defined.

(** X9: the ranges of [get_stats].  The week range starts on the Monday
    on or before today, at most six days back; the month range starts on
    the first day of today's month; both dates are days of the calendar
    not after today. *)
Theorem stats_range_starts (today : Z) :
  valid_ordinal today ->
  (exists ws,
     week_start today = Ok (strftime ws) /\ valid_ordinal ws /\
     weekday ws = 0 /\ today - 6 <= ws <= today) /\
  (exists ms y m d,
     month_start today = strftime ms /\ valid_ordinal ms /\
     _ord2ymd today = (y, m, d) /\ _ord2ymd ms = (y, m, 1) /\
     ms = today - d + 1 /\ ms <= today).
Proof.
  intros Htoday. split.
  - exists (today - weekday today).
    destruct (week_start_day today Htoday) as (V & W & B).
    split; [now apply week_start_ok|]. split; [exact V|]. split; assumption.
  - destruct (replace_day1_spec today Htoday) as (y & m & d & E & R & Hd & V & E').
    exists (replace_day1 today), y, m, d.
    split; [reflexivity|]. split; [exact V|]. split; [exact E|].
    split; [exact E'|]. split; [exact R | lia].
Qed.

Lemma stats_range_starts_witness :
  valid_ordinal 739193 /\
  exists ws,
    week_start 739193 = Ok (strftime ws) /\ valid_ordinal ws /\
    weekday ws = 0 /\ 739193 - 6 <= ws <= 739193.
Proof.
  split; [unfold valid_ordinal, MAXORDINAL; lia|].
  apply (stats_range_starts 739193). unfold valid_ordinal, MAXORDINAL. lia.
Defined.

(** X10: a session logged with today's date, as the program prints it,
    counts at once in the total and in this month, and in this week when
    the Monday that starts it is on or after 1000-01-01: [total_pages],
    [month_pages] and [week_pages] of [get_stats] each grow by its
    pages.  (A week that starts in the year 999 is compared with a date
    of the year 1000 as text.) *)
Theorem logging_today_counts (db db' : store) (now_ts : string)
    (data : json) (sid today n : Z) (fuel fuel' : nat) (s s' : stats) :
  valid_ordinal today ->
  log_reading db now_ts data = Ok (db', Success sid) ->
  subscript data "date" = Ok (JStr (strftime today)) ->
  subscript data "pages_read" = Ok (JInt n) ->
  get_stats fuel db today = Ok s ->
  get_stats fuel' db' today = Ok s' ->
  total_pages s' = total_pages s + n /\
  (first_padded_day <= today - weekday today ->
   week_pages s' = week_pages s + n) /\
  month_pages s' = month_pages s + n.
Proof.
  intros Htoday H Hdate Hpages Hs Hs'.
  destruct (log_reading_stored_pages _ _ _ _ _ _ H Hpages)
    as (r & -> & Hrp & _ & _ & _ & Hd).
  specialize (Hd _ Hdate).
  apply get_stats_ok_inv in Hs, Hs'.
  destruct Hs as (T & _ & W & M & _). destruct Hs' as (T' & _ & W' & M' & _).
  rewrite (total_pages_query_snoc db r n _ Hrp T) in T'.
  rewrite (pages_since_snoc db r n _ _ Hrp W) in W'.
  rewrite (pages_since_snoc db r n _ _ Hrp M) in M'.
  destruct (week_start_day today Htoday) as (Vw & _ & Bw).
  rewrite Hd in W', M'. rewrite (month_start_leb today Htoday) in M'.
  injection T' as T'. injection M' as M'.
  split; [lia|]. split; [|lia].
  intros Hpad. rewrite strftime_leb in W'
    by (unfold valid_ordinal in *; lia).
  replace (today - weekday today <=? today) with true in W'
    by (symmetry; apply Z.leb_le; lia).
  injection W' as W'. lia.
Qed.

Lemma logging_today_counts_witness :
  let data := JObj [("date", JStr "2024-11-03"); ("pages_read", JInt 7)] in
  let db' :=
    negative_store
    ++ [ {| id := 3; date := "2024-11-03"; pages_read := Integer 7;
            book_title := Some ""; notes := Some "";
            reading_time := Some (Integer 0);
            created_at := "2024-11-03 10:00:00" |} ] in
  exists s s',
    log_reading negative_store "2024-11-03 10:00:00" data
    = Ok (db', Success 3) /\
    get_stats 3 negative_store 739193 = Ok s /\
    get_stats 3 db' 739193 = Ok s' /\
    total_pages s' = total_pages s + 7 /\
    week_pages s' = week_pages s + 7 /\
    month_pages s' = month_pages s + 7.
Proof.
  intros data db'.
  assert (V : valid_ordinal 739193)
    by (unfold valid_ordinal, MAXORDINAL; lia).
  assert (L : log_reading negative_store "2024-11-03 10:00:00" data
              = Ok (db', Success 3)) by reflexivity.
  assert (Es : get_stats 3 negative_store 739193
               = Ok {| total_pages := -2; current_streak := 1;
                       week_pages := -2; month_pages := -2;
                       avg_pages_per_day :=
                         PyFloat (S754_finite true 4503599627370496 (-52)) |})
    by (vm_compute; reflexivity).
  assert (Es' : get_stats 3 db' 739193
                = Ok {| total_pages := 5; current_streak := 1;
                        week_pages := 5; month_pages := 5;
                        avg_pages_per_day :=
                          PyFloat (S754_finite false 5629499534213120 (-51)) |})
    by (vm_compute; reflexivity).
  assert (P : first_padded_day <= 739193 - weekday 739193)
    by (vm_compute; discriminate).
  eexists _, _. split; [exact L|]. split; [exact Es|].
  split; [exact Es'|].
  destruct (logging_today_counts negative_store db' "2024-11-03 10:00:00"
              data 3 739193 7 3 3 _ _ V L eq_refl eq_refl Es Es')
    as (Ht & Hw & Hm).
  split; [exact Ht|]. split; [exact (Hw P) | exact Hm].
Defined.

(** X11: bounds of the statistics.  When no stored page count is
    negative, the streak is not negative and [week_pages] and
    [month_pages] lie between 0 and [total_pages]. *)
Theorem stats_bounds (fuel : nat) (db : store) (today : Z) (s : stats) :
  pages_nonneg db ->
  get_stats fuel db today = Ok s ->
  0 <= current_streak s /\
  0 <= week_pages s <= total_pages s /\
  0 <= month_pages s <= total_pages s.
Proof.
  intros Hnn Hs. apply get_stats_ok_inv in Hs.
  destruct Hs as (T & S & W & M & _).
  unfold total_pages_query, pages_since, where_date_ge in *.
  apply sum_pages_or_0_ok_inv in T, W, M.
  destruct T as [_ ->]. destruct W as [_ ->]. destruct M as [_ ->].
  split.
  - unfold calculate_reading_streak in S.
    destruct (streak_loop_ok_days db fuel today 0 _ S) as (k & -> & _). lia.
  - split; now apply sum_pages_filter_bounds.
Qed.

Lemma stats_bounds_witness :
  exists s,
    pages_nonneg future_store /\
    get_stats 1 future_store 739193 = Ok s /\
    0 <= week_pages s <= total_pages s.
Proof.
  eexists.
  assert (Hnn : pages_nonneg future_store).
  { repeat constructor. exists 10. split; [reflexivity | lia]. }
  split; [exact Hnn|]. split; [reflexivity|].
  apply (stats_bounds 1 future_store 739193 _ Hnn eq_refl).
Defined.

(** ** Logging and the streak *)

Lemma found_pages_snoc (db : store) (r : row) (d : Z) :
  found_pages (db ++ [r]) d
  = found_pages db d
    + (if String.eqb (date r) (strftime d) then pages r else 0).
Proof.
  unfold found_pages, where_date_eq. rewrite filter_app, sum_pages_app.
  cbn [filter]. destruct (String.eqb (date r) (strftime d)).
  - rewrite sum_pages_cons. change (sum_pages []) with 0. lia.
  - change (sum_pages []) with 0. lia.
Qed.

(** X12: logging pages for today starts or keeps a streak.  On a table
    without negative page counts and with fewer rows than days since
    0001-01-01, once [log_reading] has stored [n > 0] pages dated today
    the streak is at least 1, and the walk needs no more passes than
    the table has rows, plus one. *)
Theorem logging_today_starts_streak (db db' : store) (now_ts : string)
    (data : json) (sid today n : Z) :
  valid_ordinal today -> pages_nonneg db ->
  Z.of_nat (List.length db) + 1 < today -> 0 < n ->
  log_reading db now_ts data = Ok (db', Success sid) ->
  subscript data "date" = Ok (JStr (strftime today)) ->
  subscript data "pages_read" = Ok (JInt n) ->
  exists k,
    1 <= k <= Z.of_nat (List.length db) + 1 /\
    calculate_reading_streak (S (List.length db')) db' today = Ok k.
Proof.
  intros Htoday Hnn Hlen Hn H Hdate Hpages.
  destruct (log_reading_stored_pages _ _ _ _ _ _ H Hpages)
    as (r & -> & Hrp & _ & _ & _ & Hrd).
  specialize (Hrd _ Hdate).
  assert (Hint : int_store (db ++ [r])).
  { apply int_store_app. split; [now apply pages_nonneg_int_store|].
    apply int_store_cons. split; [eauto | reflexivity]. }
  assert (Hpos : 0 < found_pages (db ++ [r]) today).
  { rewrite found_pages_snoc, Hrd, String.eqb_refl. unfold pages at 1.
    rewrite Hrp.
    pose proof (sum_pages_filter_bounds
                  (fun x => String.eqb (date x) (strftime today)) db Hnn).
    unfold found_pages, where_date_eq. lia. }
  assert (Hl : List.length (db ++ [r]) = S (List.length db))
    by (rewrite length_app; cbn; lia).
  destruct (days_back_facts today (List.length (db ++ [r])) ltac:(lia)
              ltac:(unfold valid_ordinal in Htoday; lia))
    as (Hnd & Hvalid & _ & Hrange).
  destruct (free_day (db ++ [r]) _ Hnd Hvalid
              ltac:(rewrite length_map, length_seq; lia))
    as (d & Hd & Hfree).
  specialize (Hrange d Hd).
  destruct (streak_loop_gap (db ++ [r]) Hint (S (List.length (db ++ [r])))
              today 0 Htoday) as (k & Hk & Hloop).
  { exists (today - d). split; [lia|]. split; [lia|].
    replace (today - (today - d)) with d by lia.
    unfold found_pages. rewrite Hfree. cbn. lia. }
  exists k. unfold calculate_reading_streak. split; [|exact Hloop].
  destruct (streak_loop_ok_days _ _ _ _ _ Hloop) as (k' & -> & _ & Hz).
  destruct k' as [|k'].
  - replace (today - Z.of_nat 0) with today in Hz by lia. lia.
  - lia.
Qed.

Lemma logging_today_starts_streak_witness :
  let data := JObj [("date", JStr "2024-11-03"); ("pages_read", JInt 7)] in
  let db' :=
    future_store
    ++ [ {| id := 2; date := "2024-11-03"; pages_read := Integer 7;
            book_title := Some ""; notes := Some "";
            reading_time := Some (Integer 0);
            created_at := "2024-11-03 10:00:00" |} ] in
  exists k,
    1 <= k <= Z.of_nat (List.length future_store) + 1 /\
    calculate_reading_streak (S (List.length db')) db' 739193 = Ok k.
Proof.
  intros data db'.
  assert (V : valid_ordinal 739193)
    by (unfold valid_ordinal, MAXORDINAL; lia).
  assert (Hnn : pages_nonneg future_store).
  { repeat constructor. exists 10. split; [reflexivity | lia]. }
  assert (L : log_reading future_store "2024-11-03 10:00:00" data
              = Ok (db', Success 2)) by reflexivity.
  exact (logging_today_starts_streak future_store db' "2024-11-03 10:00:00"
           data 2 739193 7 V Hnn ltac:(cbn; lia) ltac:(lia) L
           eq_refl eq_refl).
Defined.

(** ** Failure of the statistics *)

Lemma streak_loop_raise (db : store) (fuel : nat) :
  forall d s e, streak_loop fuel db d s = Raise e -> e = OverflowError.
Proof.
  induction fuel as [|fuel IH]; intros d s e H; [discriminate|].
  cbn [streak_loop] in H. pose proof (streak_step_cases db d s) as Hc.
  destruct (streak_step db d s) as [d' s' | r]; [now apply (IH d' s')|].
  subst r. now destruct Hc as [-> _].
Qed.

(** X13: over INTEGER cells, [get_stats] fails with [ValueError] exactly
    when the streak has been computed and the least stored date is a
    text that is not empty and that [strptime] does not read as
    YYYY-MM-DD: dates are stored unchecked, and one such date that sorts
    first takes the statistics down. *)
Theorem get_stats_value_error (fuel : nat) (db : store) (today : Z) :
  int_store db -> valid_ordinal today ->
  (get_stats fuel db today = Raise ValueError <->
   (exists n, calculate_reading_streak fuel db today = Ok n) /\
   exists first_entry,
     min_date db = Some first_entry /\ first_entry <> "" /\
     strptime first_entry = None).
Proof.
  intros Hint Htoday. unfold get_stats, total_pages_query, pages_since.
  rewrite (sum_pages_or_0_int db Hint). cbn [Outcome.bind].
  destruct (calculate_reading_streak fuel db today) as [n|e| |] eqn:Es;
    cbn [Outcome.bind].
  - rewrite (week_start_ok today Htoday). cbn [Outcome.bind].
    rewrite !sum_pages_or_0_int by (apply int_store_filter; exact Hint).
    cbn [Outcome.bind]. unfold avg_pages.
    destruct (min_date db) as [fe|].
    + destruct (String.eqb_spec fe "") as [-> | Hne].
      * cbn [Outcome.bind]. split; [discriminate|].
        intros (_ & fe & [= <-] & Hne & _). now elim Hne.
      * destruct (strptime fe) as [first|] eqn:Ep.
        -- destruct (0 <? today - first + 1); cbn [Outcome.bind];
             (split; [discriminate|]);
             intros (_ & fe' & [= <-] & _ & Hnone); congruence.
        -- cbn [Outcome.bind]. split; [|reflexivity].
           intros _. split; [eauto|]. exists fe. repeat split; assumption.
    + cbn [Outcome.bind]. split; [discriminate|].
      intros (_ & fe & Hfe & _). discriminate.
  - unfold calculate_reading_streak in Es.
    apply streak_loop_raise in Es. subst e.
    split; [discriminate|]. intros ((n & Hn) & _). discriminate.
  - split; [discriminate|]. intros ((n & Hn) & _). discriminate.
  - split; [discriminate|]. intros ((n & Hn) & _). discriminate.
Qed.

Lemma get_stats_value_error_witness :
  let db := [ {| id := 1; date := "03/11/2024"; pages_read := Integer 12;
                 book_title := None; notes := None; reading_time := None;
                 created_at := "2024-11-03 10:00:00" |} ] in
  int_store db /\ valid_ordinal 739193 /\
  (get_stats 1 db 739193 = Raise ValueError <->
   (exists n, calculate_reading_streak 1 db 739193 = Ok n) /\
   exists first_entry,
     min_date db = Some first_entry /\ first_entry <> "" /\
     strptime first_entry = None).
Proof.
  intros db.
  assert (V : valid_ordinal 739193)
    by (unfold valid_ordinal, MAXORDINAL; lia).
  split; [reflexivity|]. split; [exact V|].
  exact (get_stats_value_error 1 db 739193 eq_refl V).
Defined.

(** How a date written the European way takes [get_stats] down. *)
Lemma get_stats_value_error_example :
  exists db',
    log_reading [] "2024-11-03 10:00:00"
      (JObj [("date", JStr "03/11/2024"); ("pages_read", JInt 12)])
    = Ok (db', Success 1) /\
    get_stats 1 db' 739193 = Raise ValueError.
Proof. eexists. split; reflexivity. Qed.

(** ** Daily sums *)

Section Daily.

(** [GROUP BY date]: one key for each date that occurs, none twice. *)
Lemma date_keys_spec (rows : list row) :
  forall seen,
    NoDup (date_keys seen rows) /\
    forall k, In k (date_keys seen rows) <->
              (~ In k seen /\ exists r, In r rows /\ date r = k).
Proof.
  induction rows as [|r rows IH]; intros seen; cbn [date_keys].
  - split; [constructor|]. intros k. split; [intros []|].
    intros (_ & r & [] & _).
  - destruct (existsb (String.eqb (date r)) seen) eqn:E.
    + apply existsb_eqb_In in E. destruct (IH seen) as [Hnd Hin].
      split; [exact Hnd|]. intros k. rewrite Hin. split.
      * intros (Hk & r' & Hr' & <-). split; [exact Hk|].
        exists r'. split; [now right | reflexivity].
      * intros (Hk & r' & [<- | Hr'] & <-); [contradiction|].
        split; [exact Hk|]. now exists r'.
    + assert (Hnot : ~ In (date r) seen).
      { intros H. apply existsb_eqb_In in H. congruence. }
      destruct (IH (date r :: seen)) as [Hnd Hin]. split.
      * constructor; [|exact Hnd]. rewrite Hin. intros [H _].
        apply H. now left.
      * intros k. cbn [In]. rewrite Hin. cbn [In]. split.
        -- intros [<- | (Hk & r' & Hr' & <-)].
           ++ split; [exact Hnot|]. exists r. split; [now left | reflexivity].
           ++ split; [tauto|]. exists r'. split; [now right | reflexivity].
        -- intros (Hk & r' & [<- | Hr'] & <-); [now left|].
           destruct (string_dec (date r) (date r')) as [Eq | Ne];
             [now left | right].
           split; [tauto|]. now exists r'.
Qed.

Lemma group_by_date_ok_inv (rows : list row) (keys : list string) :
  forall groups,
    group_by_date rows keys = Ok groups ->
    groups
    = map (fun k =>
             (k, sum_pages (filter (fun r => String.eqb (date r) k) rows)))
        keys /\
    forall k, In k keys ->
              int_store (filter (fun r => String.eqb (date r) k) rows).
Proof.
  induction keys as [|k keys IH]; intros groups H.
  - injection H as <-. split; [reflexivity | intros k []].
  - cbn [group_by_date] in H. unfold date_pages, Outcome.bind in H.
    destruct (sum_pages_or_0 _) as [p| | |] eqn:Ep; try discriminate.
    destruct (group_by_date rows keys) as [rest| | |]; try discriminate.
    injection H as <-. apply sum_pages_or_0_ok_inv in Ep.
    destruct Ep as [Hint ->]. destruct (IH rest eq_refl) as [-> Hall].
    split; [reflexivity|]. intros k' [<- | Hk']; [exact Hint | now apply Hall].
Qed.

Lemma group_by_date_int (rows : list row) (keys : list string) :
  int_store rows -> exists groups, group_by_date rows keys = Ok groups.
Proof.
  intros Hint. induction keys as [|k keys [groups IH]]; [now eexists|].
  cbn [group_by_date]. unfold date_pages.
  rewrite sum_pages_or_0_int by (now apply int_store_filter).
  cbn [Outcome.bind]. rewrite IH. cbn [Outcome.bind]. eauto.
Qed.

Lemma zero_terms_sum (f : string -> Z) (keys : list string) :
  (forall k, In k keys -> f k = 0) -> fold_right Z.add 0 (map f keys) = 0.
Proof.
  induction keys as [|k keys IH]; intros H; [reflexivity|].
  cbn [map fold_right]. rewrite (H k (or_introl eq_refl)), IH; [reflexivity|].
  intros k' Hk'. apply H. now right.
Qed.

(** The sums of the groups add up to the sum of the rows. *)
Lemma sum_by_dates (keys : list string) (rows : list row) :
  NoDup keys -> (forall r, In r rows -> In (date r) keys) ->
  fold_right Z.add 0
    (map (fun k => sum_pages (filter (fun r => String.eqb (date r) k) rows))
       keys)
  = sum_pages rows.
Proof.
  intros Hnd. induction Hnd as [|k keys Hk Hnd IH] in rows |- *; intros Hin.
  - destruct rows as [|r rows]; [reflexivity|].
    now elim (Hin r (or_introl eq_refl)).
  - cbn [map fold_right].
    set (here := fun r => String.eqb (date r) k).
    assert (Hsplit : sum_pages rows
                     = sum_pages (filter here rows)
                       + sum_pages (filter (fun r => negb (here r)) rows)).
    { clear. induction rows as [|r rows IH]; [reflexivity|].
      cbn [filter]. destruct (here r); cbn [negb];
        rewrite !sum_pages_cons; lia. }
    rewrite Hsplit. f_equal.
    rewrite <- (IH (filter (fun r => negb (here r)) rows)).
    + apply f_equal, map_ext_in. intros k' Hk'. f_equal.
      clear -Hk Hk'. induction rows as [|r rows IHr]; [reflexivity|].
      cbn [filter]. unfold here at 1.
      destruct (String.eqb_spec (date r) k) as [E | N]; cbn [negb filter].
      * destruct (String.eqb_spec (date r) k') as [E' | _];
          [congruence | exact IHr].
      * destruct (String.eqb (date r) k'); [f_equal|]; exact IHr.
    + intros r Hr. apply filter_In in Hr. destruct Hr as [Hr Hneg].
      destruct (Hin r Hr) as [E | H]; [|exact H].
      unfold here in Hneg. rewrite <- E, String.eqb_refl in Hneg.
      discriminate.
Qed.

Lemma string_leb_trans (a b c : string) :
  String.leb a b = true -> String.leb b c = true -> String.leb a c = true.
Proof.
  rewrite !string_leb_iff.
  rewrite (String.compare_antisym a b), (String.compare_antisym b c),
    (String.compare_antisym a c).
  intros H1 H2.
  pose proof (string_not_lt_trans c b a) as T.
  destruct (String.compare c b), (String.compare b a),
    (String.compare c a); cbn in *; try congruence;
    exfalso; apply T; congruence.
Qed.

Lemma date_before_total (g1 g2 : string * Z) :
  date_before g1 g2 = true \/ date_before g2 g1 = true.
Proof. apply String.leb_total. Qed.

Lemma date_before_trans (g1 g2 g3 : string * Z) :
  date_before g1 g2 = true -> date_before g2 g3 = true ->
  date_before g1 g3 = true.
Proof. apply string_leb_trans. Qed.

(** Sorted keys without repetition are strictly sorted. *)
Lemma sorted_distinct_strict (l : list (string * Z)) :
  StronglySorted (precedes date_before) l -> NoDup (map fst l) ->
  StronglySorted (fun g1 g2 => String.compare (fst g1) (fst g2) = Lt) l.
Proof.
  induction 1 as [|g l Hl IH Hall]; intros Hnd; [constructor|].
  cbn [map] in Hnd. inversion Hnd as [|? ? Hnotin Hnd']; subst.
  constructor; [now apply IH|].
  rewrite Forall_forall in *. intros x Hx.
  specialize (Hall x Hx). unfold precedes, date_before in Hall.
  apply string_leb_iff in Hall.
  destruct (String.compare (fst g) (fst x)) eqn:E;
    [|reflexivity | now elim Hall].
  apply String.compare_eq_iff in E. exfalso. apply Hnotin.
  rewrite E. now apply in_map.
Qed.

Lemma filter_date_in_range (start d : string) (db : store) :
  String.leb start d = true ->
  filter (fun r => String.eqb (date r) d) (where_date_ge start db)
  = where_date_eq d db.
Proof.
  intros H. unfold where_date_ge, where_date_eq.
  induction db as [|r db IH]; [reflexivity|]. cbn [filter].
  destruct (String.eqb_spec (date r) d) as [E | N].
  - rewrite E, H. cbn [filter]. rewrite <- E at 1.
    rewrite String.eqb_refl. now f_equal.
  - destruct (String.leb start (date r)); cbn [filter];
      [replace (String.eqb (date r) d) with false
         by (symmetry; now apply String.eqb_neq)|];
      exact IH.
Qed.

End Daily.

(** X14: the daily sums of [get_chart_data].  Whenever the query returns
    it lists, in strictly increasing order of date, each date on or
    after [thirty_days_ago] that has a session, once, with the summed
    pages of all the sessions of that date; the pages it lists add up to
    the sum that [get_stats] computes over the same range.  Over INTEGER
    cells it returns; it cannot run within 30 days of 0001-01-01. *)
Theorem daily_data_spec (db : store) (today : Z) :
  (forall cutoff result,
     sub_days today 30 = Ok cutoff ->
     daily_data db today = Ok result ->
     StronglySorted
       (fun g1 g2 => String.compare (fst g1) (fst g2) = Lt) result /\
     (forall d p,
        In (d, p) result <->
        ((exists r, In r db /\ date r = d) /\
         String.leb (strftime cutoff) d = true /\
         p = sum_pages (where_date_eq d db))) /\
     pages_since db (strftime cutoff)
     = Ok (fold_right Z.add 0 (map snd result))) /\
  (forall cutoff,
     sub_days today 30 = Ok cutoff -> int_store db ->
     exists result, daily_data db today = Ok result) /\
  (today <= 30 -> daily_data db today = Raise OverflowError).
Proof.
  split; [|split].
  - intros cutoff result Hcut H. unfold daily_data in H.
    rewrite Hcut in H. cbn [Outcome.bind] in H.
    set (rows := where_date_ge (strftime cutoff) db) in *.
    destruct (group_by_date rows (date_keys [] rows)) as [groups| | |] eqn:Eg;
      try discriminate.
    cbn [Outcome.bind] in H.
    assert (Hres : result = order_by date_before groups) by congruence.
    clear H. destruct (group_by_date_ok_inv _ _ _ Eg) as [Hgroups Hints].
    destruct (date_keys_spec rows []) as [Hnd Hin].
    assert (Hfst : map fst groups = date_keys [] rows).
    { rewrite Hgroups, map_map. cbn. apply map_id. }
    pose proof (order_by_perm date_before groups) as Hperm.
    rewrite <- Hres in Hperm.
    split; [|split].
    + apply sorted_distinct_strict.
      * rewrite Hres. apply order_by_StronglySorted;
          [apply date_before_total | apply date_before_trans].
      * apply (Permutation_NoDup (Permutation_map fst Hperm)).
        now rewrite Hfst.
    + intros d p. rewrite <- (Permutation_in' (eq_refl (d, p)) Hperm).
      rewrite Hgroups, in_map_iff. split.
      * intros (k & [= <- <-] & Hk). apply Hin in Hk.
        destruct Hk as (_ & r & Hr & <-).
        apply filter_In in Hr. destruct Hr as [Hr Hge].
        split; [now exists r|]. split; [exact Hge|].
        unfold rows. now rewrite filter_date_in_range.
      * intros ((r & Hr & <-) & Hge & ->). exists (date r). split.
        -- f_equal. unfold rows. now rewrite filter_date_in_range.
        -- apply Hin. split; [intros []|]. exists r. split; [|reflexivity].
           apply filter_In. now split.
    + unfold pages_since. fold rows.
      assert (Hint : int_store rows).
      { unfold int_store. apply forallb_forall. intros r Hr.
        assert (Hk : In (date r) (date_keys [] rows)).
        { apply Hin. split; [intros []|]. now exists r. }
        specialize (Hints _ Hk). unfold int_store in Hints.
        rewrite forallb_forall in Hints. apply Hints.
        apply filter_In. split; [exact Hr | apply String.eqb_refl]. }
      rewrite (sum_pages_or_0_int rows Hint). f_equal.
      rewrite <- (sum_by_dates (date_keys [] rows) rows Hnd).
      * transitivity (fold_right Z.add 0 (map snd groups)).
        -- rewrite Hgroups, map_map. reflexivity.
        -- clear -Hperm. induction Hperm; cbn [map fold_right] in *; lia.
      * intros r Hr. apply Hin. split; [intros []|]. now exists r.
  - intros cutoff Hcut Hint. unfold daily_data. rewrite Hcut.
    cbn [Outcome.bind].
    destruct (group_by_date_int (where_date_ge (strftime cutoff) db)
                (date_keys [] (where_date_ge (strftime cutoff) db))
                (int_store_filter _ _ Hint)) as [groups ->].
    cbn [Outcome.bind]. eauto.
  - intros Hle. unfold daily_data, sub_days.
    replace (valid_ordinalb (today - 30)) with false; [reflexivity|].
    symmetry. apply not_true_is_false. intros Hv.
    apply valid_ordinalb_true in Hv. unfold valid_ordinal in Hv. lia.
Qed.

Lemma daily_data_spec_witness :
  sub_days 739193 30 = Ok 739163 /\
  (int_store negative_store ->
   exists result, daily_data negative_store 739193 = Ok result).
Proof.
  split; [reflexivity|].
  exact (proj1 (proj2 (daily_data_spec negative_store 739193))
           739163 eq_refl).
Defined.

(** The two sessions of the example of the specification. *)
Lemma daily_data_example :
  let session d n :=
    {| id := 0; date := d; pages_read := Integer n;
       book_title := None; notes := None; reading_time := None;
       created_at := "2024-01-02 09:00:00" |} in
  daily_data [session "2024-01-02" 30; session "2024-01-01" 20;
              session "2024-01-02" 5] 738887
  = Ok [("2024-01-01", 20); ("2024-01-02", 35)].
Proof. reflexivity. Qed.

(** ** Recent sessions, again *)

(** X15: [get_recent_sessions] loses nothing of a short table and puts
    the newest date first.  With at most 10 stored sessions every one
    of them is returned; and whatever the size of the table, no stored
    session has a later date than the first entry returned. *)
Theorem recent_sessions_complete (db : store) :
  ((List.length db <= 10)%nat ->
   Permutation (map session_of_row db) (get_recent_sessions db)) /\
  (forall first rest,
     get_recent_sessions db = first :: rest ->
     forall r, In r db -> String.leb (date r) (s_date first) = true).
Proof.
  unfold get_recent_sessions, recent_rows, limit.
  pose proof (order_by_perm recent_before db) as Hperm.
  split.
  - intros Hlen. rewrite firstn_all2
      by (rewrite <- (Permutation_length Hperm); exact Hlen).
    now apply Permutation_map.
  - intros first rest H r Hr.
    pose proof (order_by_StronglySorted recent_before recent_before_total
                  recent_before_trans db) as Hs.
    apply (Permutation_in _ Hperm) in Hr.
    destruct (order_by recent_before db) as [|h sorted]; [discriminate|].
    cbn [firstn map] in H. injection H as <- _. cbn [s_date session_of_row].
    inversion Hs as [|? ? _ Hall]; subst.
    destruct Hr as [<- | Hr].
    + apply string_leb_iff. now rewrite string_compare_refl.
    + rewrite Forall_forall in Hall. specialize (Hall r Hr).
      apply recent_before_iff in Hall. apply string_leb_iff.
      rewrite String.compare_antisym.
      destruct Hall as [-> | [-> _]]; [discriminate|].
      rewrite string_compare_refl. discriminate.
Qed.

Lemma recent_sessions_complete_witness :
  (List.length negative_store <= 10)%nat /\
  Permutation (map session_of_row negative_store)
    (get_recent_sessions negative_store).
Proof.
  split; [cbn; lia|].
  apply (proj1 (recent_sessions_complete negative_store)). cbn. lia.
Defined.

(** ** The window of the velocity *)

Lemma filter_length_impl {A : Type} (p q : A -> bool) (l : list A) :
  (forall x, p x = true -> q x = true) ->
  (List.length (filter p l) <= List.length (filter q l))%nat.
Proof.
  intros Hpq. induction l as [|x l IH]; [cbn; lia|]. cbn [filter].
  destruct (p x) eqn:Ep.
  - rewrite (Hpq x Ep). cbn [List.length]. lia.
  - destruct (q x); cbn [List.length]; lia.
Qed.

Lemma get_reading_velocity_ok_inv (db : store) (today days : Z) (v : velocity) :
  get_reading_velocity db today days = Ok v ->
  valid_ordinal (today - days) /\
  reading_days v
  = Z.of_nat (List.length (velocity_rows db (strftime (today - days)))) /\
  period_days v = days.
Proof.
  unfold get_reading_velocity, sub_days.
  destruct (valid_ordinalb (today - days)) eqn:Ev; [|discriminate].
  apply valid_ordinalb_true in Ev. cbn [Outcome.bind].
  destruct (sql_avg _) as [avg| | |]; try discriminate.
  cbn [Outcome.bind]. intros [= <-]. split; [exact Ev|split; reflexivity].
Qed.

(** X16: a longer window never counts fewer sessions, as long as it
    does not reach before 1000-01-01.  When [get_reading_velocity]
    returns for the windows [d1 <= d2] and the cutoff day [today - d2]
    is on or after 1000-01-01, the count for [d1] is at most the count
    for [d2], which is at most the number of stored sessions;
    [period_days] echoes the window.  The call raises [OverflowError]
    when the window reaches before 0001-01-01. *)
Theorem velocity_window_monotone (db : store) (today d1 d2 : Z)
    (v1 v2 : velocity) :
  d1 <= d2 -> first_padded_day <= today - d2 ->
  get_reading_velocity db today d1 = Ok v1 ->
  get_reading_velocity db today d2 = Ok v2 ->
  0 <= reading_days v1 <= reading_days v2 /\
  reading_days v2 <= Z.of_nat (List.length db) /\
  period_days v1 = d1 /\ period_days v2 = d2 /\
  (forall d, today - d < 1 ->
             get_reading_velocity db today d = Raise OverflowError).
Proof.
  intros Hd Hpad H1 H2.
  apply get_reading_velocity_ok_inv in H1, H2.
  destruct H1 as (V1 & -> & P1). destruct H2 as (V2 & -> & P2).
  assert (Hle : String.leb (strftime (today - d2)) (strftime (today - d1))
                = true).
  { rewrite strftime_leb by (unfold valid_ordinal in *; lia).
    apply Z.leb_le. lia. }
  split; [split; [lia|]|split; [|split; [exact P1 | split; [exact P2|]]]].
  - apply inj_le. unfold velocity_rows. apply filter_length_impl.
    intros r Hr. apply andb_true_iff in Hr. destruct Hr as [Hr Hp].
    apply andb_true_iff. split; [|exact Hp].
    eapply string_leb_trans; eassumption.
  - apply inj_le. unfold velocity_rows. apply filter_length_le.
  - intros d Hlt. unfold get_reading_velocity, sub_days.
    replace (valid_ordinalb (today - d)) with false; [reflexivity|].
    symmetry. apply not_true_is_false. intros Hv.
    apply valid_ordinalb_true in Hv. unfold valid_ordinal in Hv. lia.
Qed.

Lemma velocity_window_monotone_witness :
  exists v1 v2,
    7 <= 30 /\ first_padded_day <= 739193 - 30 /\
    get_reading_velocity thirds_store 739193 7 = Ok v1 /\
    get_reading_velocity thirds_store 739193 30 = Ok v2 /\
    0 <= reading_days v1 <= reading_days v2.
Proof.
  eexists _, _. split; [lia|].
  assert (P : first_padded_day <= 739193 - 30)
    by (unfold first_padded_day; lia).
  assert (E1 : get_reading_velocity thirds_store 739193 7
               = Ok {| avg_pages_per_session := PyFloat float_1_3;
                       reading_days := 3; period_days := 7 |})
    by (vm_compute; reflexivity).
  assert (E2 : get_reading_velocity thirds_store 739193 30
               = Ok {| avg_pages_per_session := PyFloat float_1_3;
                       reading_days := 3; period_days := 30 |})
    by (vm_compute; reflexivity).
  split; [exact P|]. split; [exact E1|]. split; [exact E2|].
  exact (proj1 (velocity_window_monotone thirds_store 739193 7 30 _ _
                  ltac:(lia) P E1 E2)).
Defined.
